(** * RFP Ignite: the review console and the review engine behind it

    The front end (React, TypeScript) is embedded from its source:
    [ReviewLineItemRow], [ReviewPage], [ApprovalBar] and the hook
    [useRfpPipeline].  A JavaScript [number] is a binary64 float, a
    string is a sequence of code units (here: code units below 256), an
    optional nullable field is [undefined], [null] or a value, and a
    [Map] is a list of entries in insertion order.  Handlers that set
    React state are functions from the state of the component (and the
    outcome of the request they await) to its next state. *)

From Stdlib Require Import Floats.PrimFloat String Ascii List Bool Arith Lia.
From stdpp Require Import gmap strings list pretty.
Import ListNotations.

Local Open Scope string_scope.

(* Decimal literals denote the nearest binary64 value, as in the source. *)
Set Warnings "-inexact-float".

(** ** JavaScript values *)

Module Js.

(** A field declared [x?: T | null]. *)
Inductive opt (A : Type) : Type :=
| undefined : opt A
| null : opt A
| val : A -> opt A.

Arguments undefined {A}.
Arguments null {A}.
Arguments val {A} _.

(** The result of an expression whose type is not fixed, such as
    [s && !b] (a string, [null], [undefined] or a boolean). *)
Inductive value : Type :=
| VUndefined
| VNull
| VStr (s : string)
| VBool (b : bool).

(** ToBoolean. *)
Class Truthy (A : Type) := truthy : A -> bool.

#[export] Instance truthy_number : Truthy float :=
  fun x => negb (PrimFloat.eqb x 0%float) && negb (PrimFloat.is_nan x).

#[export] Instance truthy_string : Truthy string :=
  fun s => match s with EmptyString => false | String _ _ => true end.

#[export] Instance truthy_bool : Truthy bool := fun b => b.

#[export] Instance truthy_opt {A} `{Truthy A} : Truthy (opt A) :=
  fun x => match x with val a => truthy a | _ => false end.

#[export] Instance truthy_value : Truthy value :=
  fun v => match v with
           | VUndefined | VNull => false
           | VStr s => truthy s
           | VBool b => b
           end.

(** [x || d] where [d] is a plain value of the field's type. *)
Definition or_default {A} `{Truthy A} (x : opt A) (d : A) : A :=
  match x with
  | val a => if truthy a then a else d
  | _ => d
  end.

(** [x || null]. *)
Definition or_null {A} `{Truthy A} (x : opt A) : opt A :=
  match x with
  | val a => if truthy a then val a else null
  | _ => null
  end.

(** [o?.f] on [o : T | null]. *)
Definition chain {T A} (o : option T) (f : T -> opt A) : opt A :=
  match o with
  | None => undefined
  | Some t => f t
  end.

(** White space and line terminators among the code units below 256:
    TAB, LF, VT, FF, CR, SP and NBSP. *)
Definition is_whitespace (c : ascii) : bool :=
  match nat_of_ascii c with
  | 9 | 10 | 11 | 12 | 13 | 32 | 160 => true
  | _ => false
  end.

Fixpoint trimStart (s : string) : string :=
  match s with
  | EmptyString => EmptyString
  | String c r => if is_whitespace c then trimStart r else s
  end.

Fixpoint trimEnd (s : string) : string :=
  match s with
  | EmptyString => EmptyString
  | String c r =>
      match trimEnd r with
      | EmptyString => if is_whitespace c then EmptyString else String c EmptyString
      | r' => String c r'
      end
  end.

(** [String.prototype.trim]. *)
Definition trim (s : string) : string := trimEnd (trimStart s).

(** A value that was thrown: an [Error] with its message, [undefined]
    or [null], or another value, one that has no [message].
    [err instanceof Error] tells the first from the others, and reading
    [err.message] throws on the second. *)
Inductive thrown : Type :=
| ThrownError (message : string)
| ThrownNullish
| ThrownOther.

(** [err instanceof Error ? err.message : fallback] *)
Definition messageOr (fallback : string) (e : thrown) : string :=
  match e with
  | ThrownError m => m
  | ThrownNullish | ThrownOther => fallback
  end.

End Js.

Import Js.

(** ** types/rfp.ts and types/review.ts *)

Module TopMatch.
Record t := mk { sku : string; oem : string; score : float }.
End TopMatch.

Module TechnicalRecommendation.
Record t := mk {
  line_id : string;
  description : string;
  category : string;
  top_matches : list TopMatch.t;
  best_sku : string }.
End TechnicalRecommendation.

Module LineOverride.
Record t := mk {
  line_id : string;
  approved_sku : opt string;
  manual_unit_price : opt float;
  override_reason : opt string }.
End LineOverride.

Module GlobalOverrides.
Record t := mk {
  margin_fraction : opt float;
  tax_fraction : opt float;
  test_exclusions : opt (list string) }.
End GlobalOverrides.

Module ReviewSaveRequest.
Record t := mk {
  rfp_id : string;
  overrides : list LineOverride.t;
  global_overrides : GlobalOverrides.t;
  reviewer : string;
  notes : opt string }.
End ReviewSaveRequest.

(** ** review/ReviewLineItemRow.tsx *)

Module ReviewLineItemRow.

Import TechnicalRecommendation.

Section Row.

Variable recommendation : TechnicalRecommendation.t.
Variable override : option LineOverride.t.

(** [override?.approved_sku || recommendation.best_sku] *)
Definition currentSku : string :=
  or_default (chain override LineOverride.approved_sku) (best_sku recommendation).

(** [override?.approved_sku &&
     !recommendation.top_matches.some(m => m.sku === override.approved_sku)] *)
Definition isManualSku : value :=
  match chain override LineOverride.approved_sku with
  | undefined => VUndefined
  | null => VNull
  | val s =>
      if truthy s
      then VBool (negb (existsb (fun m => String.eqb (TopMatch.sku m) s)
                                (top_matches recommendation)))
      else VStr s
  end.

(** [override?.manual_unit_price] *)
Definition manualPrice : opt float := chain override LineOverride.manual_unit_price.

(** The [value] of the SKU select: [isManualSku ? '--manual--' : currentSku]. *)
Definition selectValue : string :=
  if truthy isManualSku then "--manual--" else currentSku.

(** Each handler returns the override it passes to [onOverrideChange]. *)
Definition handleSkuChange (sku : string) : LineOverride.t :=
  if String.eqb sku "--manual--"
  then LineOverride.mk (line_id recommendation)
         (val "")
         (or_null (chain override LineOverride.manual_unit_price))
         (or_null (chain override LineOverride.override_reason))
  else LineOverride.mk (line_id recommendation)
         (val sku)
         (or_null (chain override LineOverride.manual_unit_price))
         (or_null (chain override LineOverride.override_reason)).

Definition handleManualSkuChange (sku : string) : LineOverride.t :=
  LineOverride.mk (line_id recommendation)
    (val sku)
    (or_null (chain override LineOverride.manual_unit_price))
    (or_null (chain override LineOverride.override_reason)).

(** [price : number | null] *)
Definition handleManualPriceChange (price : option float) : LineOverride.t :=
  LineOverride.mk (line_id recommendation)
    (val (or_default (chain override LineOverride.approved_sku) (best_sku recommendation)))
    (match price with Some p => val p | None => null end)
    (or_null (chain override LineOverride.override_reason)).

(** The reason input is rendered only when
    [override?.override_reason !== undefined]. *)
Definition reasonInputShown : bool :=
  match chain override LineOverride.override_reason with
  | undefined => false
  | _ => true
  end.

End Row.

(** [{...override, override_reason: e.target.value || null}], on the
    override the row was given. *)
Definition handleReasonChange (override : LineOverride.t) (text : string) : LineOverride.t :=
  LineOverride.mk (LineOverride.line_id override)
    (LineOverride.approved_sku override)
    (LineOverride.manual_unit_price override)
    (or_null (val text)).

End ReviewLineItemRow.

(** ** The rest of types/rfp.ts and types/review.ts *)

Module TechnicalRecommendations.
Record t := mk {
  rfp_id : string;
  recommendations : list TechnicalRecommendation.t }.
End TechnicalRecommendations.

Module TestDetail.
Record t := mk { code : string; description : string; cost : float }.
End TestDetail.

Module PricingLineItem.
Record t := mk {
  line_id : string;
  description : string;
  category : string;
  best_sku : string;
  quantity : float;
  unit : string;
  unit_price : float;
  material_total : float;
  tests : list TestDetail.t;
  tests_total : float;
  grand_total : float }.
End PricingLineItem.

Module PricingTotals.
Record t := mk {
  material_total : float;
  tests_total : float;
  overall_total : float }.
End PricingTotals.

Module PricingOutput.
Record t := mk {
  rfp_id : string;
  line_items : list PricingLineItem.t;
  totals : PricingTotals.t }.
End PricingOutput.

Module RfpPipelineResult.
Record t := mk {
  success : bool;
  rfp_id : string;
  buyer : string;
  title : string;
  submission_due_date : string;
  currency : string;
  technical_recommendations : TechnicalRecommendations.t;
  pricing : PricingOutput.t;
  message : opt string }.
End RfpPipelineResult.

Module ReviewDraft.
Record t := mk {
  rfp_id : string;
  saved_at : string;
  saved_by : string;
  request : ReviewSaveRequest.t }.
End ReviewDraft.

(** ** Requests

    What [await fetch(...)] followed by reading the body can give:
    [fetch] rejects; the response is not [ok] (its body parsed for a
    [detail], [None] when it is not JSON); or it is [ok] and
    [response.json()] rejects or gives the body. *)

Module Http.

Inductive fetched (B : Type) : Type :=
| Rejected (e : thrown)
| NotOk (status : nat) (detail : option (opt string))
| Ok (json : thrown + B).

Arguments Rejected {B} _.
Arguments NotOk {B} _ _.
Arguments Ok {B} _.

(** [errorData.detail || `HTTP error! status: ${response.status}`],
    where [errorData] is [{ detail: 'Unknown error' }] when the body
    could not be parsed. *)
Definition error_message (status : nat) (detail : option (opt string)) : string :=
  or_default
    (match detail with Some d => d | None => val "Unknown error" end)
    ("HTTP error! status: " ++ pretty status).

End Http.

Import Http.

(** ** A [Map<string, V>]: entries in insertion order *)

Module JsMap.

Definition t (V : Type) : Type := list (string * V).

Definition empty {V} : t V := [].

(** [m.set(k, v)]: an existing key keeps its place. *)
Fixpoint set {V} (m : t V) (k : string) (v : V) : t V :=
  match m with
  | [] => [(k, v)]
  | (k', v') :: r => if String.eqb k' k then (k, v) :: r else (k', v') :: set r k v
  end.

(** [m.get(k)], [None] for [undefined]. *)
Fixpoint get {V} (m : t V) (k : string) : option V :=
  match m with
  | [] => None
  | (k', v') :: r => if String.eqb k' k then Some v' else get r k
  end.

Definition keys {V} (m : t V) : list string := map fst m.

(** [Array.from(m.values())] *)
Definition values {V} (m : t V) : list V := map snd m.

End JsMap.

(** ** Bodies of the review requests and responses *)

Module DraftStamp.
Record t := mk { saved_at : string; saved_by : string }.
End DraftStamp.

(** [{ draft: { saved_at, saved_by } }], the body of a saved draft. *)
Module SaveResponse.
Record t := mk { draft : DraftStamp.t }.
End SaveResponse.

Module AuditTrailEntry.
Record t := mk {
  action : string;
  saved_at : option string;
  saved_by : option string;
  approved_at : option string;
  approved_by : option string;
  notes : option string }.
End AuditTrailEntry.

(** [final_response] is untyped in the source and is left out. *)
Module ApproveResponse.
Record t := mk {
  success : bool;
  export_url : string;
  audit_trail : list AuditTrailEntry.t }.
End ApproveResponse.

(** The typed fields of [RecalculateRequest]; [scope_of_supply] and
    [pricing_input] are untyped in the source and are passed through. *)
Module RecalculateRequest.
Record t := mk {
  technical_output : TechnicalRecommendations.t;
  overrides : list LineOverride.t;
  global_overrides : GlobalOverrides.t }.
End RecalculateRequest.

Module PricingRecalculateResponse.
Record t := mk {
  rfp_id : string;
  line_items : list PricingLineItem.t;
  totals : PricingTotals.t;
  warnings : option (list string) }.
End PricingRecalculateResponse.

(** [{ pipeline, draft }] of [GET /api/rfp/:id/draft].  The source
    declares [pipeline: any] and reads the body as [any]: a body can
    come without a pipeline ([None] for [undefined] or [null]). *)
Module DraftResponse.
Record t := mk {
  pipeline : option RfpPipelineResult.t;
  draft : option ReviewDraft.t }.
End DraftResponse.

(** ** review/ReviewPage.tsx *)

Module ReviewPage.

(** The [useState] cells of the page.  [scopeOfSupply] and
    [pricingInput] are untyped in the source and only passed on to the
    recalculate request; they are left out. *)
Record state := mk {
  loading : bool;
  error : opt string;
  pipeline : option RfpPipelineResult.t;
  draft : option ReviewDraft.t;
  overrides : JsMap.t LineOverride.t;
  globalOverrides : GlobalOverrides.t;
  reviewer : string;
  recalculatedPricing : option PricingRecalculateResponse.t;
  draftHistory : list DraftStamp.t;
  approvedAt : option string;
  approvedBy : option string }.

(** The [useState] initial values. *)
Definition initial : state :=
  mk true null None None JsMap.empty
     (GlobalOverrides.mk undefined undefined undefined)
     "" None [] None None.

Definition setLoading (b : bool) (s : state) : state :=
  mk b (error s) (pipeline s) (draft s) (overrides s) (globalOverrides s)
     (reviewer s) (recalculatedPricing s) (draftHistory s) (approvedAt s) (approvedBy s).

Definition setError (e : opt string) (s : state) : state :=
  mk (loading s) e (pipeline s) (draft s) (overrides s) (globalOverrides s)
     (reviewer s) (recalculatedPricing s) (draftHistory s) (approvedAt s) (approvedBy s).

Definition setPipeline (p : option RfpPipelineResult.t) (s : state) : state :=
  mk (loading s) (error s) p (draft s) (overrides s) (globalOverrides s)
     (reviewer s) (recalculatedPricing s) (draftHistory s) (approvedAt s) (approvedBy s).

Definition setDraft (d : option ReviewDraft.t) (s : state) : state :=
  mk (loading s) (error s) (pipeline s) d (overrides s) (globalOverrides s)
     (reviewer s) (recalculatedPricing s) (draftHistory s) (approvedAt s) (approvedBy s).

Definition setOverrides (o : JsMap.t LineOverride.t) (s : state) : state :=
  mk (loading s) (error s) (pipeline s) (draft s) o (globalOverrides s)
     (reviewer s) (recalculatedPricing s) (draftHistory s) (approvedAt s) (approvedBy s).

Definition setGlobalOverrides (g : GlobalOverrides.t) (s : state) : state :=
  mk (loading s) (error s) (pipeline s) (draft s) (overrides s) g
     (reviewer s) (recalculatedPricing s) (draftHistory s) (approvedAt s) (approvedBy s).

Definition setReviewer (r : string) (s : state) : state :=
  mk (loading s) (error s) (pipeline s) (draft s) (overrides s) (globalOverrides s)
     r (recalculatedPricing s) (draftHistory s) (approvedAt s) (approvedBy s).

Definition setRecalculatedPricing (p : option PricingRecalculateResponse.t) (s : state) : state :=
  mk (loading s) (error s) (pipeline s) (draft s) (overrides s) (globalOverrides s)
     (reviewer s) p (draftHistory s) (approvedAt s) (approvedBy s).

Definition setDraftHistory (h : list DraftStamp.t) (s : state) : state :=
  mk (loading s) (error s) (pipeline s) (draft s) (overrides s) (globalOverrides s)
     (reviewer s) (recalculatedPricing s) h (approvedAt s) (approvedBy s).

Definition setApprovedAt (a : option string) (s : state) : state :=
  mk (loading s) (error s) (pipeline s) (draft s) (overrides s) (globalOverrides s)
     (reviewer s) (recalculatedPricing s) (draftHistory s) a (approvedBy s).

Definition setApprovedBy (a : option string) (s : state) : state :=
  mk (loading s) (error s) (pipeline s) (draft s) (overrides s) (globalOverrides s)
     (reviewer s) (recalculatedPricing s) (draftHistory s) (approvedAt s) a.

(** [!rfpId] for the route parameter, a [string | undefined]. *)
Definition noRfpId (rfpId : option string) : bool :=
  match rfpId with
  | Some id => negb (truthy id)
  | None => true
  end.

(** The loop of the effect that loads a draft:
    [for (const override of ...) overrideMap.set(override.line_id, override)]. *)
Definition overrideMapOf (l : list LineOverride.t) : JsMap.t LineOverride.t :=
  fold_left (fun m o => JsMap.set m (LineOverride.line_id o) o) l JsMap.empty.

(** [err.message] of what a promise rejected with; [None] when reading
    it throws a [TypeError], as it does on [undefined] and on [null]. *)
Definition messageOf (e : thrown) : option (opt string) :=
  match e with
  | ThrownError m => Some (val m)
  | ThrownNullish => None
  | ThrownOther => Some undefined
  end.

(** The [catch] of the effect, [setError(err.message); setLoading(false)].
    When reading [err.message] throws, neither setter is reached and the
    page is left as it is, with [loading] still set. *)
Definition caught (e : thrown) (s : state) : state :=
  match messageOf e with
  | Some message => setLoading false (setError message s)
  | None => s
  end.

(** The effect on mount, given what the draft request came to. *)
Definition loadDraft (rfpId : option string) (got : fetched DraftResponse.t) (s : state) : state :=
  if noRfpId rfpId
  then setLoading false (setError (val "RFP ID is required") s)
  else
    match got with
    | Rejected e => caught e s
    | NotOk status _ =>
        setLoading false (setError (val ("Failed to fetch draft: " ++ pretty status)) s)
    | Ok (inl e) => caught e s
    | Ok (inr data) =>
        let s1 := setPipeline (DraftResponse.pipeline data) s in
        let s2 :=
          match DraftResponse.draft data with
          | Some d =>
              setDraftHistory
                [DraftStamp.mk (ReviewDraft.saved_at d) (ReviewDraft.saved_by d)]
                (setGlobalOverrides
                   (ReviewSaveRequest.global_overrides (ReviewDraft.request d))
                   (setOverrides
                      (overrideMapOf (ReviewSaveRequest.overrides (ReviewDraft.request d)))
                      (setReviewer (ReviewDraft.saved_by d) (setDraft (Some d) s1))))
          | None => s1
          end in
        setLoading false s2
    end.

Definition handleOverrideChange (lineId : string) (override : LineOverride.t) (s : state) : state :=
  let newOverrides := JsMap.set (overrides s) lineId override in
  setOverrides newOverrides s.

(** What each row is rendered with: [overrides.get(rec.line_id) || null]. *)
Definition rowOverride (s : state) (rec : TechnicalRecommendation.t) : option LineOverride.t :=
  JsMap.get (overrides s) (TechnicalRecommendation.line_id rec).

(** The body of the save and approve requests. *)
Definition saveRequest (rfpId : string) (s : state) : ReviewSaveRequest.t :=
  ReviewSaveRequest.mk rfpId
    (JsMap.values (overrides s))
    (globalOverrides s)
    (trim (reviewer s))
    null.

(** The body of the recalculate request. *)
Definition recalculateRequest (p : RfpPipelineResult.t) (globalOverrides : GlobalOverrides.t)
    (s : state) : RecalculateRequest.t :=
  RecalculateRequest.mk (RfpPipelineResult.technical_recommendations p)
    (JsMap.values (overrides s)) globalOverrides.

Section Handlers.

(** The server and the network are the world [W] the requests act on. *)
Context {W : Type}.
Variable post_recalculate : RecalculateRequest.t -> W -> fetched PricingRecalculateResponse.t * W.
Variable post_save : string -> ReviewSaveRequest.t -> W -> fetched SaveResponse.t * W.
Variable post_approve : string -> ReviewSaveRequest.t -> W -> fetched ApproveResponse.t * W.

Definition handleRecalculate (globalOverrides : GlobalOverrides.t) (s : state) (w : W)
  : (thrown + PricingRecalculateResponse.t) * state * W :=
  match pipeline s with
  | None => (inl (ThrownError "Pipeline data not available"), s, w)
  | Some p =>
      let request := recalculateRequest p globalOverrides s in
      let '(response, w') := post_recalculate request w in
      match response with
      | Rejected e => (inl e, s, w')
      | NotOk status detail => (inl (ThrownError (error_message status detail)), s, w')
      | Ok (inl e) => (inl e, s, w')
      | Ok (inr result) => (inr result, setRecalculatedPricing (Some result) s, w')
      end
  end.

Definition handleSaveDraft (rfpId : option string) (s : state) (w : W)
  : (thrown + unit) * state * W :=
  if noRfpId rfpId || negb (truthy (trim (reviewer s)))
  then (inl (ThrownError "RFP ID and reviewer name required"), s, w)
  else
    let id := default "" rfpId in
    let request := saveRequest id s in
    let '(response, w') := post_save ("/api/rfp/" ++ id ++ "/review/save") request w in
    match response with
    | Rejected e => (inl e, s, w')
    | NotOk status detail => (inl (ThrownError (error_message status detail)), s, w')
    | Ok (inl e) => (inl e, s, w')
    | Ok (inr result) =>
        (inr tt,
         setDraftHistory
           (draftHistory s ++
              [DraftStamp.mk (DraftStamp.saved_at (SaveResponse.draft result))
                             (DraftStamp.saved_by (SaveResponse.draft result))]) s,
         w')
    end.

(** [now] is [new Date().toISOString()] at the time the response is read. *)
Definition handleApprove (now : string) (rfpId : option string) (s : state) (w : W)
  : (thrown + string) * state * W :=
  if noRfpId rfpId || negb (truthy (trim (reviewer s)))
  then (inl (ThrownError "RFP ID and reviewer name required"), s, w)
  else
    let id := default "" rfpId in
    let request := saveRequest id s in
    let '(response, w') := post_approve ("/api/rfp/" ++ id ++ "/review/approve") request w in
    match response with
    | Rejected e => (inl e, s, w')
    | NotOk status detail => (inl (ThrownError (error_message status detail)), s, w')
    | Ok (inl e) => (inl e, s, w')
    | Ok (inr result) =>
        (inr (ApproveResponse.export_url result),
         setApprovedBy (Some (trim (reviewer s))) (setApprovedAt (Some now) s),
         w')
    end.

End Handlers.

End ReviewPage.

(** ** review/ApprovalBar.tsx *)

Module ApprovalBar.

(** The [useState] cells of the bar.  Of its props the handlers use
    [reviewer], [onSaveDraft] and [onApprove]; the others are only
    displayed. *)
Record state := mk {
  saving : bool;
  approving : bool;
  saveSuccess : bool;
  approveSuccess : bool;
  exportUrl : option string;
  error : option string }.

Definition initial : state := mk false false false false None None.

Definition setSaving (b : bool) (s : state) : state :=
  mk b (approving s) (saveSuccess s) (approveSuccess s) (exportUrl s) (error s).

Definition setApproving (b : bool) (s : state) : state :=
  mk (saving s) b (saveSuccess s) (approveSuccess s) (exportUrl s) (error s).

Definition setSaveSuccess (b : bool) (s : state) : state :=
  mk (saving s) (approving s) b (approveSuccess s) (exportUrl s) (error s).

Definition setApproveSuccess (b : bool) (s : state) : state :=
  mk (saving s) (approving s) (saveSuccess s) b (exportUrl s) (error s).

Definition setExportUrl (u : option string) (s : state) : state :=
  mk (saving s) (approving s) (saveSuccess s) (approveSuccess s) u (error s).

Definition setError (e : option string) (s : state) : state :=
  mk (saving s) (approving s) (saveSuccess s) (approveSuccess s) (exportUrl s) e.

Section Props.

(** [P] is what the parent's callbacks act on. *)
Context {P : Type}.
Variable reviewer : string.
Variable onSaveDraft : P -> (thrown + unit) * P.
Variable onApprove : P -> (thrown + string) * P.

Definition handleSaveDraft (s : state) (p : P) : state * P :=
  if negb (truthy (trim reviewer))
  then (setError (Some "Reviewer name is required") s, p)
  else
    let s1 := setSaveSuccess false (setError None (setSaving true s)) in
    match onSaveDraft p with
    | (inr _, p') => (setSaving false (setSaveSuccess true s1), p')
    | (inl err, p') =>
        (setSaving false (setError (Some (messageOr "Failed to save draft" err)) s1), p')
    end.

(** The callback of [setTimeout(() => setSaveSuccess(false), 3000)]. *)
Definition saveSuccessExpired (s : state) : state := setSaveSuccess false s.

Definition handleApprove (s : state) (p : P) : state * P :=
  if negb (truthy (trim reviewer))
  then (setError (Some "Reviewer name is required") s, p)
  else
    let s1 := setApproveSuccess false (setError None (setApproving true s)) in
    match onApprove p with
    | (inr export_url, p') =>
        (setApproving false (setApproveSuccess true (setExportUrl (Some export_url) s1)), p')
    | (inl err, p') =>
        (setApproving false (setError (Some (messageOr "Failed to approve" err)) s1), p')
    end.

(** [disabled={saving || !reviewer.trim()}] *)
Definition saveDisabled (s : state) : bool := saving s || negb (truthy (trim reviewer)).

(** [disabled={approving || !reviewer.trim()}] *)
Definition approveDisabled (s : state) : bool := approving s || negb (truthy (trim reviewer)).

End Props.

End ApprovalBar.

(** ** The hook useRfpPipeline *)

Module useRfpPipeline.

Record state := mk {
  data : option RfpPipelineResult.t;
  loading : bool;
  error : option string }.

Definition initial : state := mk None false None.

Definition setData (d : option RfpPipelineResult.t) (s : state) : state :=
  mk d (loading s) (error s).

Definition setLoading (b : bool) (s : state) : state :=
  mk (data s) b (error s).

Definition setError (e : option string) (s : state) : state :=
  mk (data s) (loading s) e.

(** The [try] block: what it throws, or the result it passes to [setData]. *)
Definition attempt (got : fetched RfpPipelineResult.t) : thrown + RfpPipelineResult.t :=
  match got with
  | Rejected e => inl e
  | NotOk status detail => inl (ThrownError (error_message status detail))
  | Ok (inl e) => inl e
  | Ok (inr result) =>
      if negb (RfpPipelineResult.success result)
      then inl (ThrownError
                  (or_default (RfpPipelineResult.message result) "Pipeline execution failed"))
      else inr result
  end.

(** The state while the request is awaited. *)
Definition started (s : state) : state := setError None (setLoading true s).

(** [runPipeline], given what the request came to. *)
Definition runPipeline (got : fetched RfpPipelineResult.t) (s : state) : state :=
  let s1 := started s in
  let s2 :=
    match attempt got with
    | inr result => setData (Some result) s1
    | inl err =>
        let errorMessage := messageOr "Failed to run pipeline" err in
        setData None (setError (Some errorMessage) s1)
    end in
  setLoading false s2.

End useRfpPipeline.

(** ** The review engine

    The engine runs on the server (review/router.py, review/store.py,
    review/models.py and the pricing agent); none of it is among the
    sources.  It is modelled here from the specification of the
    reconciler (4.1), the recalculation service (4.2) and the review
    workflow (4.3). *)

Module Engine.

(** Modelled from the spec: the error taxonomy of the server
    (section 7), each error with its human-readable message. *)
Inductive Error : Type :=
| ValidationError (message : string)
| NotFoundError (message : string)
| ConflictError (message : string)
| UpstreamUnavailable (message : string).

(** Modelled from the spec: the result of the reconciler's [resolve]
    (section 4.1), which is not among the sources. *)
Inductive UnitPriceSource : Type :=
| ManualPrice (price : float)
| CatalogPrice (sku : string).

Module Resolved.
(** Modelled from the spec: [{sku, isManual, unitPriceSource}], what
    the reconciler's [resolve] returns (section 4.1). *)
Record t := mk {
  sku : string;
  isManual : bool;
  unitPriceSource : UnitPriceSource }.
End Resolved.

(** Modelled from the spec: the reconciler's [resolve] (section 4.1),
    not among the sources.  A null or empty [approved_sku] gives
    [best_sku], not manual; one that matches [best_sku] or a top match
    gives that value, not manual; any other gives that value, manual.
    A manual unit price that is set is authoritative. *)
Definition resolve (recommendation : TechnicalRecommendation.t)
    (override : option LineOverride.t) : Resolved.t :=
  let best := TechnicalRecommendation.best_sku recommendation in
  let sku :=
    match chain override LineOverride.approved_sku with
    | val s => if String.eqb s "" then best else s
    | _ => best
    end in
  let known (s : string) :=
    String.eqb s best ||
    existsb (fun m => String.eqb (TopMatch.sku m) s)
            (TechnicalRecommendation.top_matches recommendation) in
  let isManual :=
    match chain override LineOverride.approved_sku with
    | val s => if String.eqb s "" then false else negb (known s)
    | _ => false
    end in
  let source :=
    match chain override LineOverride.manual_unit_price with
    | val p => ManualPrice p
    | _ => CatalogPrice sku
    end in
  Resolved.mk sku isManual source.

Module Line.
(** Modelled from the spec: a line of the scope of supply with its
    recommendation (glossary, "line item"); the server's input types are
    not among the sources. *)
Record t := mk {
  recommendation : TechnicalRecommendation.t;
  quantity : float;
  unit : string }.
End Line.

Module PriceEntry.
(** Modelled from the spec: what the external price source knows of a
    SKU, its unit price, its tests and a cost floor if one is configured
    (section 4.2). *)
Record t := mk {
  unit_price : float;
  tests : list TestDetail.t;
  cost_floor : option float }.
End PriceEntry.

Module Recalculated.
(** Modelled from the spec: the outcome of [recalculate] (section 4.2). *)
Record t := mk {
  lineItems : list PricingLineItem.t;
  totals : PricingTotals.t;
  warnings : list string }.
End Recalculated.

(** Modelled from the spec: sums run over the list from its head. *)
Definition sum (l : list float) : float :=
  fold_left PrimFloat.add l 0%float.

(** Modelled from the spec: [margin_fraction_or_0], [tax_fraction_or_0]. *)
Definition fraction_or_0 (f : opt float) : float :=
  match f with
  | val x => x
  | _ => 0%float
  end.

(** Modelled from the spec: a fraction that is given lies in [0, 1]
    (section 3); one out of range is a [ValidationError] (section 7). *)
Definition fraction_ok (f : opt float) : bool :=
  match f with
  | val x => PrimFloat.leb 0%float x && PrimFloat.leb x 1%float
  | _ => true
  end.

(** Modelled from the spec: margin first, then tax, on the aggregate
    (section 4.2). *)
Definition overall_total (material_total_sum tests_total_sum : float)
    (g : GlobalOverrides.t) : float :=
  ((material_total_sum + tests_total_sum)
   * (1 + fraction_or_0 (GlobalOverrides.margin_fraction g))
   * (1 + fraction_or_0 (GlobalOverrides.tax_fraction g)))%float.

(** Modelled from the spec: the override of a line, looked up by
    [line_id] (section 3; the override model has at most one per line). *)
Definition override_for (line_id : string) (overrides : list LineOverride.t)
  : option LineOverride.t :=
  List.find (fun o => String.eqb (LineOverride.line_id o) line_id) overrides.

(** Modelled from the spec: a test is dropped when its code is among the
    [test_exclusions] (section 4.2, step 3). *)
Definition excluded (g : GlobalOverrides.t) (t : TestDetail.t) : bool :=
  match GlobalOverrides.test_exclusions g with
  | val codes => existsb (String.eqb (TestDetail.code t)) codes
  | _ => false
  end.

Section Recalculation.

(** The external price source, keyed by SKU. *)
Variable priceSource : string -> option PriceEntry.t.

(** Modelled from the spec: steps 1 to 4 of section 4.2 for one line;
    the price of a SKU the source does not know defaults to the manual
    price or to 0. *)
Definition price_line (g : GlobalOverrides.t) (line : Line.t)
    (override : option LineOverride.t) : PricingLineItem.t :=
  let rec := Line.recommendation line in
  let r := resolve rec override in
  let entry := priceSource (Resolved.sku r) in
  let unit_price :=
    match Resolved.unitPriceSource r with
    | ManualPrice p => p
    | CatalogPrice _ =>
        match entry with
        | Some e => PriceEntry.unit_price e
        | None => 0%float
        end
    end in
  let material_total := (Line.quantity line * unit_price)%float in
  let tests :=
    List.filter (fun t => negb (excluded g t))
           (match entry with Some e => PriceEntry.tests e | None => [] end) in
  let tests_total := sum (map TestDetail.cost tests) in
  PricingLineItem.mk
    (TechnicalRecommendation.line_id rec)
    (TechnicalRecommendation.description rec)
    (TechnicalRecommendation.category rec)
    (Resolved.sku r)
    (Line.quantity line) (Line.unit line)
    unit_price material_total tests tests_total
    (material_total + tests_total)%float.

(** Modelled from the spec: the warnings of step 5 of section 4.2 for
    one line. *)
Definition warn_line (line : Line.t) (override : option LineOverride.t) : list string :=
  let r := resolve (Line.recommendation line) override in
  let entry := priceSource (Resolved.sku r) in
  (match entry, Resolved.isManual r, Resolved.unitPriceSource r with
   | None, true, ManualPrice _ => ["manual SKU not found in price source: " ++ Resolved.sku r]
   | None, true, CatalogPrice _ =>
       ["manual SKU not found in price source, priced at 0: " ++ Resolved.sku r]
   | _, _, _ => []
   end) ++
  (match entry, Resolved.unitPriceSource r with
   | Some e, ManualPrice p =>
       match PriceEntry.cost_floor e with
       | Some floor =>
           if PrimFloat.ltb p floor
           then ["manual unit price below cost floor: " ++ Resolved.sku r]
           else []
       | None => []
       end
   | _, _ => []
   end).

(** Modelled from the spec: an override must name a line of the
    recommendation set (section 4.2, failure). *)
Definition known_line (lines : list Line.t) (o : LineOverride.t) : bool :=
  existsb (fun l => String.eqb
             (TechnicalRecommendation.line_id (Line.recommendation l))
             (LineOverride.line_id o)) lines.

(** Modelled from the spec: [recalculate] (section 4.2), not among the
    sources.  [reachable] tells whether the price source can be
    reached. *)
Definition recalculate (reachable : bool) (lines : list Line.t)
    (overrides : list LineOverride.t) (g : GlobalOverrides.t)
  : Error + Recalculated.t :=
  if negb (forallb (known_line lines) overrides)
  then inl (ValidationError "override references an unknown line_id")
  else if negb (fraction_ok (GlobalOverrides.margin_fraction g) &&
                fraction_ok (GlobalOverrides.tax_fraction g))
  then inl (ValidationError "fraction out of range")
  else if negb reachable
  then inl (UpstreamUnavailable "price source unavailable")
  else
    let for_line (l : Line.t) :=
      override_for (TechnicalRecommendation.line_id (Line.recommendation l)) overrides in
    let items := map (fun l => price_line g l (for_line l)) lines in
    let material_total_sum := sum (map PricingLineItem.material_total items) in
    let tests_total_sum := sum (map PricingLineItem.tests_total items) in
    inr (Recalculated.mk items
           (PricingTotals.mk material_total_sum tests_total_sum
              (overall_total material_total_sum tests_total_sum g))
           (concat (map (fun l => warn_line l (for_line l)) lines))).

End Recalculation.

End Engine.

(** ** The review workflow (section 4.3), modelled from the specification *)

Module Workflow.

Import Engine.


(** Modelled from the spec: the actions of the audit log (section 3). *)
Inductive Action : Type := draft_saved | approved.

Module AuditEntry.
(** Modelled from the spec: an entry of the audit log,
    [{action, timestamp, actor, notes?}] (section 3). *)
Record t := mk {
  action : Action;
  timestamp : string;
  actor : string;
  notes : opt string }.
End AuditEntry.

Module Approval.
(** Modelled from the spec: what is kept once an RFP is approved, the
    final response and the export artifact reference (section 6). *)
Record t := mk {
  request : ReviewSaveRequest.t;
  final : Recalculated.t;
  export_reference : string }.
End Approval.

Module Rfp.
(** Modelled from the spec: the persisted state of one RFP, a current
    draft, an audit log and, once approved, the approval (section 6),
    next to the lines the upstream producer gave. *)
Record t := mk {
  lines : list Line.t;
  current_draft : option ReviewDraft.t;
  audit_log : list AuditEntry.t;
  approval : option Approval.t }.
End Rfp.

Module World.
(** Modelled from the spec: the store keyed by [rfpId], and the
    artifacts the external export trigger has produced, each with the
    RFP it was produced for. *)
Record t := mk {
  rfps : gmap string Rfp.t;
  exported : list (string * string) }.
End World.



Module Approved.
(** Modelled from the spec: what a successful approve returns,
    [{export_url, audit_trail[]}] (section 6). *)
Record t := mk {
  export_url : string;
  audit_trail : list AuditEntry.t }.
End Approved.

Section Operations.

Variable priceSource : string -> option PriceEntry.t.

(** The external export trigger: the reference of the artifact it
    makes for an RFP and its final pricing. *)
Variable exportTrigger : string -> Recalculated.t -> string.

(** Modelled from the spec: [saveDraft] (section 4.3), not among the
    sources.  It needs a known RFP that is not approved and a non-empty
    reviewer; it overwrites the current draft and appends one
    [draft_saved] entry.  A failure leaves the world as it was. *)
Definition saveDraft (now : string) (request : ReviewSaveRequest.t) (w : World.t)
  : (Error + ReviewDraft.t) * World.t :=
  let rfpId := ReviewSaveRequest.rfp_id request in
  match World.rfps w !! rfpId with
  | None => (inl (NotFoundError "unknown rfpId"), w)
  | Some r =>
      if String.eqb (ReviewSaveRequest.reviewer request) ""
      then (inl (ValidationError "reviewer is required"), w)
      else
        match Rfp.approval r with
        | Some a =>
            (inl (ConflictError "already approved"), w)
        | None =>
            let draft :=
              ReviewDraft.mk rfpId now (ReviewSaveRequest.reviewer request) request in
            let entry :=
              AuditEntry.mk draft_saved now (ReviewSaveRequest.reviewer request)
                (ReviewSaveRequest.notes request) in
            let r' :=
              Rfp.mk (Rfp.lines r) (Some draft) (Rfp.audit_log r ++ [entry]) None in
            (inr draft, World.mk (<[rfpId := r']> (World.rfps w)) (World.exported w))
        end
  end.

(** Modelled from the spec: [approve] (section 4.3), not among the
    sources.  On an approved RFP it fails with
    [ConflictError "already approved"] and changes nothing: the export
    reference stays with the approval.  Otherwise it recalculates over the
    overrides it is given, records the approval, appends one [approved]
    entry and invokes the export trigger once. *)
Definition approve (now : string) (reachable : bool) (request : ReviewSaveRequest.t)
    (w : World.t) : (Error + Approved.t) * World.t :=
  let rfpId := ReviewSaveRequest.rfp_id request in
  match World.rfps w !! rfpId with
  | None => (inl (NotFoundError "unknown rfpId"), w)
  | Some r =>
      match Rfp.approval r with
      | Some a => (inl (ConflictError "already approved"), w)
      | None =>
          if String.eqb (ReviewSaveRequest.reviewer request) ""
          then (inl (ValidationError "reviewer is required"), w)
          else
            match recalculate priceSource reachable (Rfp.lines r)
                    (ReviewSaveRequest.overrides request)
                    (ReviewSaveRequest.global_overrides request) with
            | inl e => (inl e, w)
            | inr final =>
                let reference := exportTrigger rfpId final in
                let entry :=
                  AuditEntry.mk approved now (ReviewSaveRequest.reviewer request)
                    (ReviewSaveRequest.notes request) in
                let log := (Rfp.audit_log r ++ [entry])%list in
                let r' :=
                  Rfp.mk (Rfp.lines r) (Rfp.current_draft r) log
                    (Some (Approval.mk request final reference)) in
                (inr (Approved.mk reference log),
                 World.mk (<[rfpId := r']> (World.rfps w))
                          (World.exported w ++ [(rfpId, reference)]))
            end
      end
  end.

(** Modelled from the spec: a call of the workflow. *)
Inductive Call : Type :=
| CallSaveDraft (now : string) (request : ReviewSaveRequest.t)
| CallApprove (now : string) (reachable : bool) (request : ReviewSaveRequest.t).

(** Modelled from the spec: the store after a call; a call that fails
    leaves it as it was (section 7). *)
Definition call (c : Call) (w : World.t) : World.t :=
  match c with
  | CallSaveDraft now request => snd (saveDraft now request w)
  | CallApprove now reachable request => snd (approve now reachable request w)
  end.

(** Modelled from the spec: the store after a sequence of calls, the
    first call first (calls are handled one at a time, section 5). *)
Definition run (calls : list Call) (w : World.t) : World.t :=
  fold_left (fun w c => call c w) calls w.

(** Modelled from the spec: errors reach the caller with their message
    (section 7), as the [detail] of a response that is not [ok]. *)
Definition detail_of (e : Error) : string :=
  match e with
  | ValidationError m | NotFoundError m | ConflictError m | UpstreamUnavailable m => m
  end.

(** Modelled from the spec: the status of the response for each kind
    of error of section 7; the console reads it only when the response
    carries no [detail]. *)
Definition status_of (e : Error) : nat :=
  match e with
  | ValidationError _ => 422
  | NotFoundError _ => 404
  | ConflictError _ => 409
  | UpstreamUnavailable _ => 503
  end.

(** Modelled from the spec: an audit entry on the wire (section 6). *)
Definition wire_entry (e : AuditEntry.t) : AuditTrailEntry.t :=
  let notes :=
    match AuditEntry.notes e with val n => Some n | _ => None end in
  match AuditEntry.action e with
  | draft_saved =>
      AuditTrailEntry.mk "draft_saved"
        (Some (AuditEntry.timestamp e)) (Some (AuditEntry.actor e)) None None notes
  | approved =>
      AuditTrailEntry.mk "approved"
        None None (Some (AuditEntry.timestamp e)) (Some (AuditEntry.actor e)) notes
  end.

(** Modelled from the spec: [save draft] as the console reaches it
    (section 6), answering [{draft: {saved_at, saved_by}}]. *)
Definition post_save (now : string) (path : string) (request : ReviewSaveRequest.t)
    (w : World.t) : fetched SaveResponse.t * World.t :=
  if String.eqb path ("/api/rfp/" ++ ReviewSaveRequest.rfp_id request ++ "/review/save")
  then
    match saveDraft now request w with
    | (inl e, w') => (NotOk (status_of e) (Some (val (detail_of e))), w')
    | (inr d, w') =>
        (Ok (inr (SaveResponse.mk
                    (DraftStamp.mk (ReviewDraft.saved_at d) (ReviewDraft.saved_by d)))), w')
    end
  else (NotOk 404 (Some (val "Not Found")), w).

(** Modelled from the spec: [approve] as the console reaches it
    (section 6), answering [{export_url, audit_trail[]}]. *)
Definition post_approve (now : string) (reachable : bool) (path : string)
    (request : ReviewSaveRequest.t) (w : World.t) : fetched ApproveResponse.t * World.t :=
  if String.eqb path ("/api/rfp/" ++ ReviewSaveRequest.rfp_id request ++ "/review/approve")
  then
    match approve now reachable request w with
    | (inl e, w') => (NotOk (status_of e) (Some (val (detail_of e))), w')
    | (inr a, w') =>
        (Ok (inr (ApproveResponse.mk true (Approved.export_url a)
                    (map wire_entry (Approved.audit_trail a)))), w')
    end
  else (NotOk 404 (Some (val "Not Found")), w).

End Operations.

End Workflow.

(** ** The console as [ReviewPage] renders it

    Each row gets [overrides.get(rec.line_id) || null] and reports its
    changes through [handleOverrideChange(rec.line_id, _)]; the approval
    bar gets the reviewer and the page's save and approve handlers. *)

Module Console.

(** What a reviewer can do to the row of a recommendation. *)
Inductive Edit : Type :=
| SelectSku (rec : TechnicalRecommendation.t) (sku : string)
| TypeManualSku (rec : TechnicalRecommendation.t) (sku : string)
| TypeManualPrice (rec : TechnicalRecommendation.t) (price : option float)
| TypeReason (rec : TechnicalRecommendation.t) (text : string).

(** The manual SKU input exists only when [isManualSku] holds and the
    reason input only when the override has an [override_reason]; an
    input that is not rendered cannot change. *)
Definition edit (e : Edit) (s : ReviewPage.state) : ReviewPage.state :=
  match e with
  | SelectSku rec sku =>
      ReviewPage.handleOverrideChange (TechnicalRecommendation.line_id rec)
        (ReviewLineItemRow.handleSkuChange rec (ReviewPage.rowOverride s rec) sku) s
  | TypeManualSku rec sku =>
      if truthy (ReviewLineItemRow.isManualSku rec (ReviewPage.rowOverride s rec))
      then ReviewPage.handleOverrideChange (TechnicalRecommendation.line_id rec)
             (ReviewLineItemRow.handleManualSkuChange rec (ReviewPage.rowOverride s rec) sku) s
      else s
  | TypeManualPrice rec price =>
      ReviewPage.handleOverrideChange (TechnicalRecommendation.line_id rec)
        (ReviewLineItemRow.handleManualPriceChange rec (ReviewPage.rowOverride s rec) price) s
  | TypeReason rec text =>
      match ReviewPage.rowOverride s rec with
      | Some override =>
          if ReviewLineItemRow.reasonInputShown (Some override)
          then ReviewPage.handleOverrideChange (TechnicalRecommendation.line_id rec)
                 (ReviewLineItemRow.handleReasonChange override text) s
          else s
      | None => s
      end
  end.

(** The page after a sequence of edits, the first edit first. *)
Definition edits (l : list Edit) (s : ReviewPage.state) : ReviewPage.state :=
  fold_left (fun s e => edit e s) l s.

(** The page after a sequence of calls of [handleOverrideChange]. *)
Definition supplied (l : list (string * LineOverride.t)) (s : ReviewPage.state)
  : ReviewPage.state :=
  fold_left (fun s p => ReviewPage.handleOverrideChange (fst p) (snd p) s) l s.

(** The override most recently supplied for a line, if any was. *)
Fixpoint latest (lineId : string) (l : list (string * LineOverride.t))
  : option LineOverride.t :=
  match l with
  | [] => None
  | (k, o) :: r =>
      match latest lineId r with
      | Some o' => Some o'
      | None => if String.eqb k lineId then Some o else None
      end
  end.

Section Wiring.

Context {W : Type}.
Variable post_save : string -> ReviewSaveRequest.t -> W -> fetched SaveResponse.t * W.
Variable post_approve : string -> ReviewSaveRequest.t -> W -> fetched ApproveResponse.t * W.
Variable rfpId : option string.

(** The [onSaveDraft] and [onApprove] props of the approval bar. *)
Definition onSaveDraft (p : ReviewPage.state * W) : (thrown + unit) * (ReviewPage.state * W) :=
  let '(r, s, w) := ReviewPage.handleSaveDraft post_save rfpId (fst p) (snd p) in
  (r, (s, w)).

Definition onApprove (now : string) (p : ReviewPage.state * W)
  : (thrown + string) * (ReviewPage.state * W) :=
  let '(r, s, w) := ReviewPage.handleApprove post_approve now rfpId (fst p) (snd p) in
  (r, (s, w)).

(** A click on "Save Draft": nothing when the button is disabled. *)
Definition clickSaveDraft (b : ApprovalBar.state) (p : ReviewPage.state * W)
  : ApprovalBar.state * (ReviewPage.state * W) :=
  if ApprovalBar.saveDisabled (ReviewPage.reviewer (fst p)) b
  then (b, p)
  else ApprovalBar.handleSaveDraft (ReviewPage.reviewer (fst p)) onSaveDraft b p.

(** A click on "Approve Final": nothing when the button is disabled. *)
Definition clickApprove (now : string) (b : ApprovalBar.state) (p : ReviewPage.state * W)
  : ApprovalBar.state * (ReviewPage.state * W) :=
  if ApprovalBar.approveDisabled (ReviewPage.reviewer (fst p)) b
  then (b, p)
  else ApprovalBar.handleApprove (ReviewPage.reviewer (fst p)) (onApprove now) b p.

End Wiring.

End Console.

(** ** What the row renders *)

Module RowView.

(** The values of the [option]s of the SKU select: [best_sku], the
    SKU of every top match, and ["--manual--"]. *)
Definition options (recommendation : TechnicalRecommendation.t) : list string :=
  (TechnicalRecommendation.best_sku recommendation
     :: map TopMatch.sku (TechnicalRecommendation.top_matches recommendation)
     ++ ["--manual--"])%list.

(** [{isManualSku && (...)}]: whether the manual SKU input is rendered. *)
Definition manualInputShown (recommendation : TechnicalRecommendation.t)
    (override : option LineOverride.t) : bool :=
  truthy (ReviewLineItemRow.isManualSku recommendation override).

End RowView.

(** ** What the page renders *)

Module ReviewPageView.

Inductive screen : Type :=
| Spinner
| ErrorScreen (message : string)
| ConsoleScreen.

(** [if (loading) ...; if (error || !pipeline) ...], the message being
    [error || 'Pipeline data not available']. *)
Definition render (s : ReviewPage.state) : screen :=
  if ReviewPage.loading s then Spinner
  else if truthy (ReviewPage.error s) ||
          match ReviewPage.pipeline s with Some _ => false | None => true end
  then ErrorScreen (or_default (ReviewPage.error s) "Pipeline data not available")
  else ConsoleScreen.

(** The totals of [recalculatedPricing || pipeline.pricing], which is
    what [priceTotals] comes to for pricing of either declared type. *)
Definition priceTotals (s : ReviewPage.state) (pipeline : RfpPipelineResult.t)
  : PricingTotals.t :=
  match ReviewPage.recalculatedPricing s with
  | Some r => PricingRecalculateResponse.totals r
  | None => PricingOutput.totals (RfpPipelineResult.pricing pipeline)
  end.

End ReviewPageView.

(** ** components/PriceBreakdownChart.tsx *)

Module PriceBreakdownChart.

(** The [totals] prop; [None] in an optional field is [undefined]. *)
Module Totals.
Record t := mk {
  material_total : float;
  tests_total : float;
  overall_total : option float;
  other_total : option float }.
End Totals.

(** [x || 0] *)
Definition or0 (x : float) : float := if truthy x then x else 0%float.

(** [Math.max(a, b)]: NaN if either is NaN, and +0 counts as larger
    than -0. *)
Definition math_max (a b : float) : float :=
  if PrimFloat.is_nan a || PrimFloat.is_nan b then PrimFloat.nan
  else if PrimFloat.ltb a b then b
  else if PrimFloat.ltb b a then a
  else match PrimFloat.classify a with
       | FloatClass.NZero => b
       | _ => a
       end.

Section Chart.

Variable totals : Totals.t.

Definition material : float := or0 (Totals.material_total totals).

Definition tests : float := or0 (Totals.tests_total totals).

Definition overall : float :=
  match Totals.overall_total totals with
  | Some o => o
  | None => (material + tests)%float
  end.

Definition otherRaw : float :=
  match Totals.other_total totals with
  | Some o => o
  | None => math_max 0%float (overall - (material + tests))%float
  end.

Definition other : float :=
  if PrimFloat.ltb otherRaw 0%float then 0%float else otherRaw.

(** The slices of the pie: those whose value is above 0. *)
Definition data : list (string * float) :=
  List.filter (fun d => PrimFloat.ltb 0%float (snd d))
    [("Material", material); ("Tests/Services", tests); ("Other", other)].

Definition totalValue : float := (material + tests + other)%float.

End Chart.

(** The totals the review page hands to the chart. *)
Definition ofPricingTotals (t : PricingTotals.t) : Totals.t :=
  Totals.mk (PricingTotals.material_total t) (PricingTotals.tests_total t)
    (Some (PricingTotals.overall_total t)) None.

End PriceBreakdownChart.

(** ** review/PricingOverridePanel.tsx *)

Module PricingOverridePanel.

Record state := mk {
  recalculatedPricing : option PricingRecalculateResponse.t;
  recalculating : bool;
  warnings : list string }.

Definition initial : state := mk None false [].

Definition setRecalculatedPricing (p : option PricingRecalculateResponse.t) (s : state)
  : state := mk p (recalculating s) (warnings s).

Definition setRecalculating (b : bool) (s : state) : state :=
  mk (recalculatedPricing s) b (warnings s).

Definition setWarnings (w : list string) (s : state) : state :=
  mk (recalculatedPricing s) (recalculating s) w.

(** The margin input: [{...globalOverrides, margin_fraction:
    e.target.value ? parseFloat(e.target.value) : null}], given the
    number typed, if any. *)
Definition marginChanged (g : GlobalOverrides.t) (typed : option float) : GlobalOverrides.t :=
  GlobalOverrides.mk (match typed with Some x => val x | None => null end)
    (GlobalOverrides.tax_fraction g) (GlobalOverrides.test_exclusions g).

(** The tax input. *)
Definition taxChanged (g : GlobalOverrides.t) (typed : option float) : GlobalOverrides.t :=
  GlobalOverrides.mk (GlobalOverrides.margin_fraction g)
    (match typed with Some x => val x | None => null end)
    (GlobalOverrides.test_exclusions g).

(** The totals of [recalculatedPricing || initialPricing]. *)
Definition displayTotals (initialPricing : PricingOutput.t) (s : state) : PricingTotals.t :=
  match recalculatedPricing s with
  | Some r => PricingRecalculateResponse.totals r
  | None => PricingOutput.totals initialPricing
  end.

Section Props.

Context {P : Type}.
Variable globalOverrides : GlobalOverrides.t.
Variable onRecalculate :
  GlobalOverrides.t -> P -> (thrown + PricingRecalculateResponse.t) * P.

(** The third component is the text of the [alert], if one is raised. *)
Definition handleRecalculate (s : state) (p : P) : state * P * option string :=
  let s1 := setWarnings [] (setRecalculating true s) in
  match onRecalculate globalOverrides p with
  | (inr result, p') =>
      let s2 := setRecalculatedPricing (Some result) s1 in
      let s3 :=
        match PricingRecalculateResponse.warnings result with
        | Some w => setWarnings w s2
        | None => s2
        end in
      (setRecalculating false s3, p', None)
  | (inl _, p') =>
      (setRecalculating false s1, p',
       Some "Failed to recalculate pricing. Please check the console.")
  end.

End Props.

End PricingOverridePanel.

(** ** The dashboard of App.tsx *)

Module Dashboard.

(** [{error && (...)}] *)
Definition errorBannerShown (s : useRfpPipeline.state) : bool :=
  match useRfpPipeline.error s with
  | Some message => truthy message
  | None => false
  end.

(** [{!data && !loading && !error && (...)}] *)
Definition emptyStateShown (s : useRfpPipeline.state) : bool :=
  match useRfpPipeline.data s with Some _ => false | None => true end
  && negb (useRfpPipeline.loading s)
  && negb (errorBannerShown s).

(** [{data && (...)}] *)
Definition resultsShown (s : useRfpPipeline.state) : bool :=
  match useRfpPipeline.data s with Some _ => true | None => false end.

End Dashboard.

(** ** theme/ThemeContext.tsx *)

Module ThemeContext.

Inductive ThemeMode : Type := light | dark | system.

(** The string a mode is in the source. *)
Definition name (t : ThemeMode) : string :=
  match t with
  | light => "light"
  | dark => "dark"
  | system => "system"
  end.

Definition STORAGE_KEY : string := "rfp_ignite_theme".

(** [window.localStorage]: whether it is defined, whether reading or
    writing it throws, and its items. *)
Module Storage.
Record t := mk {
  defined : bool;
  getThrows : bool;
  setThrows : bool;
  items : JsMap.t string }.
End Storage.

Definition getInitialTheme (storage : Storage.t) : ThemeMode :=
  if Storage.defined storage && negb (Storage.getThrows storage)
  then
    match JsMap.get (Storage.items storage) STORAGE_KEY with
    | Some raw =>
        if String.eqb raw "light" then light
        else if String.eqb raw "dark" then dark
        else if String.eqb raw "system" then system
        else system
    | None => system
    end
  else system.

(** [localStorage.setItem(STORAGE_KEY, t)] inside [try]. *)
Definition persist (t : ThemeMode) (storage : Storage.t) : Storage.t :=
  if Storage.defined storage && negb (Storage.setThrows storage)
  then Storage.mk (Storage.defined storage) (Storage.getThrows storage)
         (Storage.setThrows storage)
         (JsMap.set (Storage.items storage) STORAGE_KEY (name t))
  else storage.

(** The [<html>] element: its class list and its [data-theme]. *)
Module Root.
Record t := mk {
  classList : list string;
  dataTheme : option string }.
End Root.

(** [classList.add(c)] *)
Definition classAdd (c : string) (l : list string) : list string :=
  if existsb (String.eqb c) l then l else (l ++ [c])%list.

(** [classList.remove(c)] *)
Definition classRemove (c : string) (l : list string) : list string :=
  List.filter (fun x => negb (String.eqb c x)) l.

(** The provider: its two state cells, the storage and the root. *)
Record state := mk {
  theme : ThemeMode;
  prefersDark : bool;
  storage : Storage.t;
  root : Root.t }.

(** [theme === "dark" || (theme === "system" && prefersDark)] *)
Definition isDark (s : state) : bool :=
  match theme s with
  | dark => true
  | system => prefersDark s
  | light => false
  end.

(** The effect that applies the theme to the root. *)
Definition applyTheme (s : state) : state :=
  let classes :=
    if isDark s
    then classAdd "dark" (Root.classList (root s))
    else classRemove "dark" (Root.classList (root s)) in
  mk (theme s) (prefersDark s) (storage s) (Root.mk classes (Some (name (theme s)))).

(** The provider when it mounts, its effect run. *)
Definition mount (st : Storage.t) (systemDark : bool) (r : Root.t) : state :=
  applyTheme (mk (getInitialTheme st) systemDark st r).

(** [setTheme(t)], then the effect. *)
Definition setTheme (t : ThemeMode) (s : state) : state :=
  applyTheme (mk t (prefersDark s) (persist t (storage s)) (root s)).

(** The listener of the system preference, then the effect. *)
Definition systemPreferenceChanged (matches : bool) (s : state) : state :=
  applyTheme (mk (theme s) matches (storage s) (root s)).

Inductive Event : Type :=
| SetTheme (t : ThemeMode)
| SystemPreference (matches : bool).

Definition step (e : Event) (s : state) : state :=
  match e with
  | SetTheme t => setTheme t s
  | SystemPreference b => systemPreferenceChanged b s
  end.

Definition run (events : list Event) (s : state) : state :=
  fold_left (fun s e => step e s) events s.

End ThemeContext.

(** ** A session on the review page

    The page with its rows, the pricing panel and the approval bar, and
    what a reviewer can do there.  Here every handler runs as a whole:
    the response to a click is there before the next event. *)

Module Session.

(** A network that records every save and approve request it is sent,
    with its path, and answers with [answer]. *)
Definition recorded {B : Type} (answer : string -> ReviewSaveRequest.t -> fetched B)
    (path : string) (request : ReviewSaveRequest.t)
    (log : list (string * ReviewSaveRequest.t))
  : fetched B * list (string * ReviewSaveRequest.t) :=
  (answer path request, (log ++ [(path, request)])%list).

Inductive Event : Type :=
| RowEdit (e : Console.Edit)
| TypeReviewer (text : string)
| ChangeMargin (typed : option float)
| ChangeTax (typed : option float)
| ClickRecalculate
| ClickSaveDraft
| ClickApprove (now : string)
| SaveBannerExpires.

Section Session.

Context {W : Type}.
Variable post_recalculate :
  RecalculateRequest.t -> W -> fetched PricingRecalculateResponse.t * W.
Variable post_save : string -> ReviewSaveRequest.t -> W -> fetched SaveResponse.t * W.
Variable post_approve : string -> ReviewSaveRequest.t -> W -> fetched ApproveResponse.t * W.
Variable rfpId : option string.

Record state := mk {
  page : ReviewPage.state;
  panel : PricingOverridePanel.state;
  bar : ApprovalBar.state;
  world : W;
  alerts : list string }.

(** The [onRecalculate] prop of the panel. *)
Definition onRecalculate (g : GlobalOverrides.t) (p : ReviewPage.state * W)
  : (thrown + PricingRecalculateResponse.t) * (ReviewPage.state * W) :=
  let '(r, s, w) := ReviewPage.handleRecalculate post_recalculate g (fst p) (snd p) in
  (r, (s, w)).

Definition step (e : Event) (c : state) : state :=
  match e with
  | RowEdit ed => mk (Console.edit ed (page c)) (panel c) (bar c) (world c) (alerts c)
  | TypeReviewer text =>
      mk (ReviewPage.setReviewer text (page c)) (panel c) (bar c) (world c) (alerts c)
  | ChangeMargin typed =>
      mk (ReviewPage.setGlobalOverrides
            (PricingOverridePanel.marginChanged (ReviewPage.globalOverrides (page c)) typed)
            (page c))
         (panel c) (bar c) (world c) (alerts c)
  | ChangeTax typed =>
      mk (ReviewPage.setGlobalOverrides
            (PricingOverridePanel.taxChanged (ReviewPage.globalOverrides (page c)) typed)
            (page c))
         (panel c) (bar c) (world c) (alerts c)
  | ClickRecalculate =>
      if PricingOverridePanel.recalculating (panel c)
      then c
      else
        let '(pn, (s, w), alert) :=
          PricingOverridePanel.handleRecalculate
            (ReviewPage.globalOverrides (page c)) onRecalculate
            (panel c) (page c, world c) in
        mk s pn (bar c) w
           (match alert with Some a => (alerts c ++ [a])%list | None => alerts c end)
  | ClickSaveDraft =>
      let '(b, (s, w)) :=
        Console.clickSaveDraft post_save rfpId (bar c) (page c, world c) in
      mk s (panel c) b w (alerts c)
  | ClickApprove now =>
      let '(b, (s, w)) :=
        Console.clickApprove post_approve rfpId now (bar c) (page c, world c) in
      mk s (panel c) b w (alerts c)
  | SaveBannerExpires =>
      mk (page c) (panel c) (ApprovalBar.saveSuccessExpired (bar c)) (world c) (alerts c)
  end.

(** The session after a sequence of events, the first event first. *)
Definition run (events : list Event) (c : state) : state :=
  fold_left (fun c e => step e c) events c.

(** The session when the page has loaded. *)
Definition opened (got : fetched DraftResponse.t) (w : W) : state :=
  mk (ReviewPage.loadDraft rfpId got ReviewPage.initial)
     PricingOverridePanel.initial ApprovalBar.initial w [].

End Session.

End Session.

(** ** A session with its requests in flight

    A handler that awaits a request returns to the browser at the
    [await]: the reviewer can go on while the request is in flight, and
    the rest of the handler runs when the response is there.  That rest
    is the closure of the render in which the click happened: what it
    reads of the page ([reviewer], [overrides], [globalOverrides],
    [draftHistory], [pipeline]) is the page as it was at the click, and
    what it sets goes to the state as it is when it runs.  A handler
    that throws before its first request has no request in flight: its
    [catch] and [finally] run before the next event.  The server acts
    on a request at some time between the click and the response; it
    is taken to act when the response comes. *)

Module Live.

(** What the reviewer does, and the responses: [SaveSettles n] is the
    response to the save request at place [n] among those in flight. *)
Inductive Event : Type :=
| RowEdit (e : Console.Edit)
| TypeReviewer (text : string)
| ChangeMargin (typed : option float)
| ChangeTax (typed : option float)
| ClickRecalculate
| RecalculateSettles (request : nat)
| ClickSaveDraft
| SaveSettles (request : nat)
| ClickApprove
| ApproveSettles (request : nat) (now : string)
| SaveBannerExpires.

(** [handleSaveDraft] of the bar from its guard to its [await]. *)
Definition saveStarted (b : ApprovalBar.state) : ApprovalBar.state :=
  ApprovalBar.setSaveSuccess false (ApprovalBar.setError None (ApprovalBar.setSaving true b)).

(** [handleSaveDraft] of the bar from its [await] on, given what
    [onSaveDraft()] came to. *)
Definition saveSettled (result : thrown + unit) (b : ApprovalBar.state) : ApprovalBar.state :=
  match result with
  | inr _ => ApprovalBar.setSaving false (ApprovalBar.setSaveSuccess true b)
  | inl err =>
      ApprovalBar.setSaving false
        (ApprovalBar.setError (Some (messageOr "Failed to save draft" err)) b)
  end.

(** [handleApprove] of the bar from its guard to its [await]. *)
Definition approveStarted (b : ApprovalBar.state) : ApprovalBar.state :=
  ApprovalBar.setApproveSuccess false
    (ApprovalBar.setError None (ApprovalBar.setApproving true b)).

(** [handleApprove] of the bar from its [await] on. *)
Definition approveSettled (result : thrown + string) (b : ApprovalBar.state)
  : ApprovalBar.state :=
  match result with
  | inr export_url =>
      ApprovalBar.setApproving false
        (ApprovalBar.setApproveSuccess true (ApprovalBar.setExportUrl (Some export_url) b))
  | inl err =>
      ApprovalBar.setApproving false
        (ApprovalBar.setError (Some (messageOr "Failed to approve" err)) b)
  end.

(** [handleRecalculate] of the panel up to its [await]. *)
Definition recalculateStarted (s : PricingOverridePanel.state) : PricingOverridePanel.state :=
  PricingOverridePanel.setWarnings [] (PricingOverridePanel.setRecalculating true s).

(** [handleRecalculate] of the panel from its [await] on, with the text
    of the [alert] it raises, if any. *)
Definition recalculateSettled (result : thrown + PricingRecalculateResponse.t)
    (s : PricingOverridePanel.state) : PricingOverridePanel.state * option string :=
  match result with
  | inr response =>
      let s2 := PricingOverridePanel.setRecalculatedPricing (Some response) s in
      let s3 :=
        match PricingRecalculateResponse.warnings response with
        | Some w => PricingOverridePanel.setWarnings w s2
        | None => s2
        end in
      (PricingOverridePanel.setRecalculating false s3, None)
  | inl _ =>
      (PricingOverridePanel.setRecalculating false s,
       Some "Failed to recalculate pricing. Please check the console.")
  end.

Section Live.

Context {W : Type}.
Variable post_recalculate :
  RecalculateRequest.t -> W -> fetched PricingRecalculateResponse.t * W.
Variable post_save : string -> ReviewSaveRequest.t -> W -> fetched SaveResponse.t * W.
Variable post_approve : string -> ReviewSaveRequest.t -> W -> fetched ApproveResponse.t * W.
Variable rfpId : option string.

(** The components, the server, the alerts raised so far and, for each
    kind of request, the requests in flight, the oldest first: each
    with the page of the render whose handler awaits it.  A response
    names the request it answers by its place among them. *)
Record state := mk {
  page : ReviewPage.state;
  panel : PricingOverridePanel.state;
  bar : ApprovalBar.state;
  world : W;
  alerts : list string;
  recalculateInFlight : list ReviewPage.state;
  saveInFlight : list ReviewPage.state;
  approveInFlight : list ReviewPage.state }.

(** [if (!rfpId || !reviewer.trim()) throw ...], the guard of the page's
    save and approve handlers. *)
Definition throwsAtOnce (s : ReviewPage.state) : bool :=
  ReviewPage.noRfpId rfpId || negb (truthy (trim (ReviewPage.reviewer s))).

(** The alerts raised so far, with one more if one is raised. *)
Definition alerted (alert : option string) (l : list string) : list string :=
  match alert with
  | Some a => (l ++ [a])%list
  | None => l
  end.

Definition step (e : Event) (c : state) : state :=
  match e with
  | RowEdit ed =>
      mk (Console.edit ed (page c)) (panel c) (bar c) (world c) (alerts c)
         (recalculateInFlight c) (saveInFlight c) (approveInFlight c)
  | TypeReviewer text =>
      mk (ReviewPage.setReviewer text (page c)) (panel c) (bar c) (world c) (alerts c)
         (recalculateInFlight c) (saveInFlight c) (approveInFlight c)
  | ChangeMargin typed =>
      mk (ReviewPage.setGlobalOverrides
            (PricingOverridePanel.marginChanged (ReviewPage.globalOverrides (page c)) typed)
            (page c))
         (panel c) (bar c) (world c) (alerts c)
         (recalculateInFlight c) (saveInFlight c) (approveInFlight c)
  | ChangeTax typed =>
      mk (ReviewPage.setGlobalOverrides
            (PricingOverridePanel.taxChanged (ReviewPage.globalOverrides (page c)) typed)
            (page c))
         (panel c) (bar c) (world c) (alerts c)
         (recalculateInFlight c) (saveInFlight c) (approveInFlight c)
  | ClickRecalculate =>
      if PricingOverridePanel.recalculating (panel c)
      then c
      else
        match ReviewPage.pipeline (page c) with
        | None =>
            let '(pn, alert) :=
              recalculateSettled (inl (ThrownError "Pipeline data not available"))
                (recalculateStarted (panel c)) in
            mk (page c) pn (bar c) (world c) (alerted alert (alerts c))
               (recalculateInFlight c) (saveInFlight c) (approveInFlight c)
        | Some _ =>
            mk (page c) (recalculateStarted (panel c)) (bar c) (world c) (alerts c)
               (recalculateInFlight c ++ [page c]) (saveInFlight c) (approveInFlight c)
        end
  | RecalculateSettles request =>
      match recalculateInFlight c !! request with
      | None => c
      | Some captured =>
          let '(result, captured', w) :=
            ReviewPage.handleRecalculate post_recalculate
              (ReviewPage.globalOverrides captured) captured (world c) in
          let s :=
            match result with
            | inr _ =>
                ReviewPage.setRecalculatedPricing
                  (ReviewPage.recalculatedPricing captured') (page c)
            | inl _ => page c
            end in
          let '(pn, alert) := recalculateSettled result (panel c) in
          mk s pn (bar c) w (alerted alert (alerts c))
             (delete request (recalculateInFlight c)) (saveInFlight c) (approveInFlight c)
      end
  | ClickSaveDraft =>
      if ApprovalBar.saveDisabled (ReviewPage.reviewer (page c)) (bar c)
      then c
      else if throwsAtOnce (page c)
      then
        mk (page c) (panel c)
           (saveSettled (inl (ThrownError "RFP ID and reviewer name required"))
              (saveStarted (bar c)))
           (world c) (alerts c)
           (recalculateInFlight c) (saveInFlight c) (approveInFlight c)
      else
        mk (page c) (panel c) (saveStarted (bar c)) (world c) (alerts c)
           (recalculateInFlight c) (saveInFlight c ++ [page c]) (approveInFlight c)
  | SaveSettles request =>
      match saveInFlight c !! request with
      | None => c
      | Some captured =>
          let '(result, captured', w) :=
            ReviewPage.handleSaveDraft post_save rfpId captured (world c) in
          let s :=
            match result with
            | inr _ => ReviewPage.setDraftHistory (ReviewPage.draftHistory captured') (page c)
            | inl _ => page c
            end in
          mk s (panel c) (saveSettled result (bar c)) w (alerts c)
             (recalculateInFlight c) (delete request (saveInFlight c)) (approveInFlight c)
      end
  | ClickApprove =>
      if ApprovalBar.approveDisabled (ReviewPage.reviewer (page c)) (bar c)
      then c
      else if throwsAtOnce (page c)
      then
        mk (page c) (panel c)
           (approveSettled (inl (ThrownError "RFP ID and reviewer name required"))
              (approveStarted (bar c)))
           (world c) (alerts c)
           (recalculateInFlight c) (saveInFlight c) (approveInFlight c)
      else
        mk (page c) (panel c) (approveStarted (bar c)) (world c) (alerts c)
           (recalculateInFlight c) (saveInFlight c) (approveInFlight c ++ [page c])
  | ApproveSettles request now =>
      match approveInFlight c !! request with
      | None => c
      | Some captured =>
          let '(result, captured', w) :=
            ReviewPage.handleApprove post_approve now rfpId captured (world c) in
          let s :=
            match result with
            | inr _ =>
                ReviewPage.setApprovedBy (ReviewPage.approvedBy captured')
                  (ReviewPage.setApprovedAt (ReviewPage.approvedAt captured') (page c))
            | inl _ => page c
            end in
          mk s (panel c) (approveSettled result (bar c)) w (alerts c)
             (recalculateInFlight c) (saveInFlight c) (delete request (approveInFlight c))
      end
  | SaveBannerExpires =>
      mk (page c) (panel c) (ApprovalBar.saveSuccessExpired (bar c)) (world c) (alerts c)
         (recalculateInFlight c) (saveInFlight c) (approveInFlight c)
  end.

(** The session after a sequence of events, the first event first. *)
Definition run (events : list Event) (c : state) : state :=
  fold_left (fun c e => step e c) events c.

(** The session when the draft request has come to an end. *)
Definition opened (got : fetched DraftResponse.t) (w : W) : state :=
  mk (ReviewPage.loadDraft rfpId got ReviewPage.initial)
     PricingOverridePanel.initial ApprovalBar.initial w [] [] [] [].

(** The session without its requests in flight. *)
Definition atRest (c : state) : Session.state :=
  Session.mk (page c) (panel c) (bar c) (world c) (alerts c).

End Live.

(** An event of a session in which every response comes before the
    next event: each click with its response right behind it. *)
Definition answered (e : Session.Event) : list Event :=
  match e with
  | Session.RowEdit ed => [RowEdit ed]
  | Session.TypeReviewer text => [TypeReviewer text]
  | Session.ChangeMargin typed => [ChangeMargin typed]
  | Session.ChangeTax typed => [ChangeTax typed]
  | Session.ClickRecalculate => [ClickRecalculate; RecalculateSettles 0]
  | Session.ClickSaveDraft => [ClickSaveDraft; SaveSettles 0]
  | Session.ClickApprove now => [ClickApprove; ApproveSettles 0 now]
  | Session.SaveBannerExpires => [SaveBannerExpires]
  end.

End Live.

(** ** Invariants *)

(** Every entry of the override map sits under its own [line_id]. *)
Definition keyed (m : JsMap.t LineOverride.t) : Prop :=
  Forall (fun e => LineOverride.line_id (snd e) = fst e) m.

(** The invariant of the page's override map. *)
Definition one_per_line (s : ReviewPage.state) : Prop :=
  List.NoDup (JsMap.keys (ReviewPage.overrides s)) /\ keyed (ReviewPage.overrides s).

(** What a save records for an RFP. *)
Definition saved (now : string) (request : ReviewSaveRequest.t) (r : Workflow.Rfp.t)
  : Workflow.Rfp.t :=
  Workflow.Rfp.mk (Workflow.Rfp.lines r)
    (Some (ReviewDraft.mk (ReviewSaveRequest.rfp_id request) now
             (ReviewSaveRequest.reviewer request) request))
    (Workflow.Rfp.audit_log r ++
       [Workflow.AuditEntry.mk Workflow.draft_saved now (ReviewSaveRequest.reviewer request)
          (ReviewSaveRequest.notes request)])
    None.




(** Every code unit of the string is white space. *)
Fixpoint all_whitespace (s : string) : bool :=
  match s with
  | EmptyString => true
  | String c r => is_whitespace c && all_whitespace r
  end.

(** The line whose row an edit is made in. *)
Definition edited_line (e : Console.Edit) : string :=
  match e with
  | Console.SelectSku rec _
  | Console.TypeManualSku rec _
  | Console.TypeManualPrice rec _
  | Console.TypeReason rec _ => TechnicalRecommendation.line_id rec
  end.

(** What holds between two events of a session whose handlers run as
    a whole: no busy flag is left set, an approved banner has its export
    link, an export link belongs to a page marked approved, the panel
    and the page hold the same recalculated pricing, and the override
    map has one entry per line. *)
Definition settled {W : Type} (c : Session.state (W := W)) : Prop :=
  ApprovalBar.saving (Session.bar c) = false /\
  ApprovalBar.approving (Session.bar c) = false /\
  PricingOverridePanel.recalculating (Session.panel c) = false /\
  (ApprovalBar.approveSuccess (Session.bar c) = true ->
   ApprovalBar.exportUrl (Session.bar c) <> None) /\
  (ApprovalBar.exportUrl (Session.bar c) <> None ->
   ReviewPage.approvedAt (Session.page c) <> None /\
   ReviewPage.approvedBy (Session.page c) <> None) /\
  PricingOverridePanel.recalculatedPricing (Session.panel c)
    = ReviewPage.recalculatedPricing (Session.page c) /\
  one_per_line (Session.page c).

(** The number of requests in flight that goes with a busy flag. *)
Definition busy (flag : bool) : nat := if flag then 1 else 0.

(** What holds of a session whatever is in flight: of each kind of
    request one is in flight when its busy flag is set and none when it
    is not; a save in flight holds the draft history as it still is; an
    approved banner has its export reference, which belongs to a page
    marked approved; the panel and the page hold the same recalculated
    pricing; and the override map has one entry per line. *)
Definition coherent {W : Type} (c : Live.state (W := W)) : Prop :=
  length (Live.saveInFlight c) = busy (ApprovalBar.saving (Live.bar c)) /\
  length (Live.approveInFlight c) = busy (ApprovalBar.approving (Live.bar c)) /\
  length (Live.recalculateInFlight c)
    = busy (PricingOverridePanel.recalculating (Live.panel c)) /\
  (forall captured,
     In captured (Live.saveInFlight c) ->
     ReviewPage.draftHistory captured = ReviewPage.draftHistory (Live.page c)) /\
  (ApprovalBar.approveSuccess (Live.bar c) = true ->
   ApprovalBar.exportUrl (Live.bar c) <> None) /\
  (ApprovalBar.exportUrl (Live.bar c) <> None ->
   ReviewPage.approvedAt (Live.page c) <> None /\
   ReviewPage.approvedBy (Live.page c) <> None) /\
  PricingOverridePanel.recalculatedPricing (Live.panel c)
    = ReviewPage.recalculatedPricing (Live.page c) /\
  one_per_line (Live.page c).

(** No request is in flight. *)
Definition idle {W : Type} (c : Live.state (W := W)) : Prop :=
  Live.recalculateInFlight c = [] /\
  Live.saveInFlight c = [] /\
  Live.approveInFlight c = [].

(** A storage that is defined and neither throws on reading nor on
    writing. *)
Definition working (st : ThemeContext.Storage.t) : Prop :=
  ThemeContext.Storage.defined st = true /\
  ThemeContext.Storage.getThrows st = false /\
  ThemeContext.Storage.setThrows st = false.

(** ** Sample data *)

Module Sample.

(** A recommendation whose [best_sku] is among its top matches. *)
Definition cable : TechnicalRecommendation.t :=
  TechnicalRecommendation.mk "L1" "11kV XLPE cable" "cables"
    [TopMatch.mk "SKU-A" "Acme" 92; TopMatch.mk "SKU-B" "Bolt" 85]
    "SKU-A".

(** A recommendation whose [best_sku] is not among its top matches. *)
Definition breaker : TechnicalRecommendation.t :=
  TechnicalRecommendation.mk "L2" "Vacuum circuit breaker" "switchgear"
    [TopMatch.mk "SKU-B" "Bolt" 85; TopMatch.mk "SKU-C" "Core" 71]
    "SKU-A".

(** An override with a manual unit price of 0 and a reason. *)
Definition free_sample : LineOverride.t :=
  LineOverride.mk "L1" (val "SKU-A") (val 0%float) (val "free sample").

(** A price source that knows three SKUs. *)
Definition prices (sku : string) : option Engine.PriceEntry.t :=
  if String.eqb sku "SKU-A"
  then Some (Engine.PriceEntry.mk 250
               [TestDetail.mk "T1" "type test" 50; TestDetail.mk "T2" "routine test" 30]
               None)
  else if String.eqb sku "SKU-B"
  then Some (Engine.PriceEntry.mk 800 [] (Some 500%float))
  else if String.eqb sku "SKU-P"
  then Some (Engine.PriceEntry.mk 250 [] None)
  else None.

(** Four units of a plain SKU without tests. *)
Definition plain : Engine.Line.t :=
  Engine.Line.mk
    (TechnicalRecommendation.mk "L3" "Cable lug" "accessories"
       [TopMatch.mk "SKU-P" "Acme" 97] "SKU-P")
    4 "pcs".

Definition cable_line : Engine.Line.t := Engine.Line.mk cable 10 "m".

(** A margin of 10% and a tax of 18%. *)
Definition margin_and_tax : GlobalOverrides.t :=
  GlobalOverrides.mk (val 0.1%float) (val 0.18%float) null.

(** What the recalculation of the plain line alone comes to. *)
Definition recalculated : Engine.Recalculated.t :=
  Engine.Recalculated.mk
    [Engine.price_line prices margin_and_tax plain None]
    (PricingTotals.mk 1000 0 (Engine.overall_total 1000 0 margin_and_tax))
    [].

(** The export trigger names the artifact after the RFP. *)
Definition exportTrigger (rfpId : string) (final : Engine.Recalculated.t) : string :=
  "/exports/" ++ rfpId ++ ".zip".

(** A store with one RFP, new, of one line. *)
Definition world : Workflow.World.t :=
  Workflow.World.mk {[ "R1" := Workflow.Rfp.mk [plain] None [] None ]} [].

(** The page of a reviewer who has typed a name and overridden a line. *)
Definition page : ReviewPage.state :=
  ReviewPage.setReviewer " Asha "
    (ReviewPage.handleOverrideChange "L3"
       (LineOverride.mk "L3" (val "SKU-P") (val 300%float) null)
       ReviewPage.initial).

(** The same page with no reviewer but blanks. *)
Definition blank_page : ReviewPage.state := ReviewPage.setReviewer "   " page.

End Sample.

(** * Properties *)

(** ** The JavaScript operations on small inputs *)

Example trim_both_ends : trim "  Asha K  " = "Asha K".
Proof. reflexivity. Qed.

Example trim_blank : trim "   " = "" /\ trim "" = "".
Proof. split; reflexivity. Qed.

Example zero_is_falsy : truthy 0%float = false /\ truthy 12.5%float = true.
Proof. split; reflexivity. Qed.

Example error_message_fallbacks :
  error_message 500 None = "Unknown error" /\
  error_message 404 (Some undefined) = "HTTP error! status: 404" /\
  error_message 409 (Some (val "already approved")) = "already approved".
Proof. repeat split; reflexivity. Qed.

Example set_keeps_the_place_of_a_key :
  JsMap.set (JsMap.set (JsMap.set JsMap.empty "a" 1) "b" 2) "a" 3 = [("a", 3); ("b", 2)].
Proof. reflexivity. Qed.

Example test_exclusion_drops_T1 :
  match Engine.recalculate Sample.prices true [Sample.cable_line] []
          (GlobalOverrides.mk null null (val ["T1"])) with
  | inr res => map PricingLineItem.tests_total (Engine.Recalculated.lineItems res)
  | inl _ => []
  end = [30%float].
Proof. reflexivity. Qed.

(** ** Row: the effective SKU and the manual flag *)

Section RowFacts.

Import ReviewLineItemRow TechnicalRecommendation.

Variable rec : TechnicalRecommendation.t.

Lemma truthy_string_nonempty (s : string) : truthy s = true <-> s <> "".
Proof. destruct s; unfold truthy, truthy_string; split; intros; congruence. Qed.

Lemma currentSku_approved (ov : LineOverride.t) (s : string) :
  LineOverride.approved_sku ov = val s -> s <> "" ->
  currentSku rec (Some ov) = s.
Proof.
  intros Hs Hne. unfold currentSku, chain, or_default. rewrite Hs.
  apply truthy_string_nonempty in Hne. now rewrite Hne.
Qed.

(** An approved SKU that is one of the top matches is not flagged. *)
Lemma isManualSku_top_match (ov : LineOverride.t) (s : string) :
  LineOverride.approved_sku ov = val s -> s <> "" ->
  In s (map TopMatch.sku (top_matches rec)) ->
  isManualSku rec (Some ov) = VBool false.
Proof.
  intros Hs Hne Hin. unfold isManualSku, chain. rewrite Hs.
  apply truthy_string_nonempty in Hne. rewrite Hne. f_equal.
  apply negb_false_iff, existsb_exists.
  apply in_map_iff in Hin as (m & Hm & Hin).
  exists m. split; [exact Hin | now apply String.eqb_eq].
Qed.

(** An approved SKU that is none of the top matches is flagged, also
    when it is [best_sku]. *)
Lemma isManualSku_not_top_match (ov : LineOverride.t) (s : string) :
  LineOverride.approved_sku ov = val s -> s <> "" ->
  ~ In s (map TopMatch.sku (top_matches rec)) ->
  isManualSku rec (Some ov) = VBool true.
Proof.
  intros Hs Hne Hin. unfold isManualSku, chain. rewrite Hs.
  apply truthy_string_nonempty in Hne. rewrite Hne. f_equal.
  apply negb_true_iff. apply not_true_is_false. intros Hex.
  apply existsb_exists in Hex as (m & Hm & He). apply String.eqb_eq in He.
  apply Hin, in_map_iff. now exists m.
Qed.

(** When [best_sku] is one of the top matches, the row and the
    reconciler of the specification agree on the SKU and on the flag. *)
Lemma row_agrees_with_resolve (override : option LineOverride.t) :
  In (best_sku rec) (map TopMatch.sku (top_matches rec)) ->
  currentSku rec override = Engine.Resolved.sku (Engine.resolve rec override) /\
  truthy (isManualSku rec override) =
    Engine.Resolved.isManual (Engine.resolve rec override).
Proof.
  intros Hbest. unfold currentSku, isManualSku, Engine.resolve, or_default.
  cbn [Engine.Resolved.sku Engine.Resolved.isManual].
  destruct (chain override LineOverride.approved_sku) as [| | s]; try (split; reflexivity).
  destruct (String.eqb s "") eqn:E.
  - apply String.eqb_eq in E. subst s. split; reflexivity.
  - assert (Ht : truthy s = true).
    { apply truthy_string_nonempty. now apply String.eqb_neq. }
    rewrite Ht. split; [reflexivity |].
    change (truthy (VBool ?b)) with b. f_equal.
    destruct (existsb (fun m => String.eqb (TopMatch.sku m) s) (top_matches rec))
      eqn:Hex; [now rewrite orb_true_r |].
    rewrite orb_false_r. symmetry. apply String.eqb_neq. intros Heq.
    apply in_map_iff in Hbest as (m & Hm & Hin).
    assert (Hx : existsb (fun m => String.eqb (TopMatch.sku m) s) (top_matches rec) = true).
    { apply existsb_exists. exists m. split; [exact Hin |].
      apply String.eqb_eq. congruence. }
    congruence.
Qed.

End RowFacts.

(** C1 (the code departs from it). An approved SKU that equals
    [best_sku] should resolve to that SKU and not be flagged manual.
    The row flags it unless it is also one of the top matches: for the
    circuit breaker, whose [best_sku] is not among its top matches,
    choosing the "(AI Recommended)" option of the select gives a row
    whose effective SKU is [best_sku], whose manual flag is [true] and
    whose select shows "-- Manual SKU --"; the reconciler of the
    specification does not flag that SKU. *)
Theorem best_sku_outside_top_matches_is_flagged_manual :
  let rec := Sample.breaker in
  let picked :=
    ReviewLineItemRow.handleSkuChange rec None (TechnicalRecommendation.best_sku rec) in
  LineOverride.approved_sku picked = val (TechnicalRecommendation.best_sku rec) /\
  ReviewLineItemRow.currentSku rec (Some picked) = TechnicalRecommendation.best_sku rec /\
  ReviewLineItemRow.isManualSku rec (Some picked) = VBool true /\
  ReviewLineItemRow.selectValue rec (Some picked) = "--manual--" /\
  Engine.Resolved.isManual (Engine.resolve rec (Some picked)) = false.
Proof. repeat split; reflexivity. Qed.

(** C6. When [approved_sku] is absent, [null] or the empty string (the
    state the "-- Manual SKU --" option leaves it in), the effective SKU
    of the row is [best_sku], the row is not flagged manual and the
    select shows [best_sku]. *)
Theorem pending_sku_resolves_to_best_sku
    (rec : TechnicalRecommendation.t) (override : option LineOverride.t) :
  chain override LineOverride.approved_sku = undefined \/
  chain override LineOverride.approved_sku = null \/
  chain override LineOverride.approved_sku = val "" ->
  ReviewLineItemRow.currentSku rec override = TechnicalRecommendation.best_sku rec /\
  truthy (ReviewLineItemRow.isManualSku rec override) = false /\
  ReviewLineItemRow.selectValue rec override = TechnicalRecommendation.best_sku rec /\
  (forall prior : option LineOverride.t,
     let pending := ReviewLineItemRow.handleSkuChange rec prior "--manual--" in
     LineOverride.approved_sku pending = val "" /\
     ReviewLineItemRow.currentSku rec (Some pending) = TechnicalRecommendation.best_sku rec /\
     truthy (ReviewLineItemRow.isManualSku rec (Some pending)) = false).
Proof.
  intros H.
  assert (Hflag : truthy (ReviewLineItemRow.isManualSku rec override) = false).
  { unfold ReviewLineItemRow.isManualSku.
    destruct H as [-> | [-> | ->]]; reflexivity. }
  repeat split; try reflexivity.
  - unfold ReviewLineItemRow.currentSku.
    destruct H as [-> | [-> | ->]]; reflexivity.
  - exact Hflag.
  - unfold ReviewLineItemRow.selectValue. rewrite Hflag.
    unfold ReviewLineItemRow.currentSku.
    destruct H as [-> | [-> | ->]]; reflexivity.
Qed.

Lemma pending_sku_resolves_to_best_sku_witness :
  ReviewLineItemRow.currentSku Sample.cable
    (Some (LineOverride.mk "L1" (val "") (val 12.5%float) null)) = "SKU-A" /\
  ReviewLineItemRow.currentSku Sample.cable
    (Some (LineOverride.mk "L1" null null null)) = "SKU-A".
Proof.
  split.
  - apply (pending_sku_resolves_to_best_sku Sample.cable
             (Some (LineOverride.mk "L1" (val "") (val 12.5%float) null))).
    right; right; reflexivity.
  - apply (pending_sku_resolves_to_best_sku Sample.cable
             (Some (LineOverride.mk "L1" null null null))).
    right; left; reflexivity.
Defined.

(** ** Row: what a change of SKU keeps *)

(** A manual price that is truthy and a reason that is not empty
    survive a change of SKU. *)
Lemma sku_change_keeps_truthy_fields
    (rec : TechnicalRecommendation.t) (ov : LineOverride.t)
    (p : float) (reason sku : string) :
  LineOverride.manual_unit_price ov = val p -> truthy p = true ->
  LineOverride.override_reason ov = val reason -> reason <> "" ->
  let changed := ReviewLineItemRow.handleSkuChange rec (Some ov) sku in
  let typed := ReviewLineItemRow.handleManualSkuChange rec (Some ov) sku in
  LineOverride.manual_unit_price changed = val p /\
  LineOverride.override_reason changed = val reason /\
  LineOverride.manual_unit_price typed = val p /\
  LineOverride.override_reason typed = val reason.
Proof.
  intros Hp Hpt Hr Hrne. apply truthy_string_nonempty in Hrne.
  unfold ReviewLineItemRow.handleSkuChange, ReviewLineItemRow.handleManualSkuChange.
  destruct (String.eqb sku "--manual--"); simpl;
    rewrite Hp, Hr; unfold or_null; rewrite Hpt, Hrne; repeat split.
Qed.

(** C9 (the code departs from it). A change of SKU should keep the
    manual unit price, also a price of 0.  The price input stores 0 when
    0 is typed, and the reason input keeps it, but both SKU handlers
    replace a price of 0 by [null]; the reason is kept. *)
Theorem sku_change_drops_zero_manual_price :
  let rec := Sample.cable in
  let priced := ReviewLineItemRow.handleManualPriceChange rec None (Some 0%float) in
  let reasoned := ReviewLineItemRow.handleReasonChange priced "free sample" in
  let changed := ReviewLineItemRow.handleSkuChange rec (Some reasoned) "SKU-B" in
  let typed := ReviewLineItemRow.handleManualSkuChange rec (Some reasoned) "SKU-Z" in
  LineOverride.manual_unit_price priced = val 0%float /\
  LineOverride.manual_unit_price reasoned = val 0%float /\
  LineOverride.manual_unit_price changed = null /\
  LineOverride.manual_unit_price typed = null /\
  LineOverride.override_reason changed = val "free sample" /\
  LineOverride.override_reason typed = val "free sample".
Proof. repeat split; reflexivity. Qed.

(** ** The override map *)

Section JsMapFacts.

Context {V : Type}.
Implicit Types (m : JsMap.t V) (k : string) (v : V).

Lemma get_set_eq m k v : JsMap.get (JsMap.set m k v) k = Some v.
Proof.
  induction m as [| [k' v'] r IH]; simpl.
  - now rewrite String.eqb_refl.
  - destruct (String.eqb k' k) eqn:E; simpl.
    + now rewrite String.eqb_refl.
    + now rewrite E.
Qed.

Lemma get_set_ne m k k' v : k <> k' -> JsMap.get (JsMap.set m k v) k' = JsMap.get m k'.
Proof.
  intros Hne. induction m as [| [k0 v0] r IH]; simpl.
  - apply String.eqb_neq in Hne. now rewrite Hne.
  - destruct (String.eqb k0 k) eqn:E; simpl.
    + apply String.eqb_eq in E. subst k0.
      apply String.eqb_neq in Hne. now rewrite Hne.
    + now rewrite IH.
Qed.

Lemma keys_set_in m k v k' :
  In k' (JsMap.keys (JsMap.set m k v)) <-> k' = k \/ In k' (JsMap.keys m).
Proof.
  induction m as [| [k0 v0] r IH]; simpl.
  - intuition congruence.
  - destruct (String.eqb k0 k) eqn:E; simpl.
    + apply String.eqb_eq in E. subst k0. intuition congruence.
    + rewrite IH. intuition congruence.
Qed.

(** [set] on a key that is present changes no key. *)
Lemma keys_set_present m k v :
  In k (JsMap.keys m) -> JsMap.keys (JsMap.set m k v) = JsMap.keys m.
Proof.
  induction m as [| [k0 v0] r IH]; simpl; [tauto |].
  intros Hin. destruct (String.eqb k0 k) eqn:E; simpl.
  - apply String.eqb_eq in E. now subst k0.
  - f_equal. apply IH. destruct Hin as [-> | Hin]; [| exact Hin].
    now rewrite String.eqb_refl in E.
Qed.

(** [set] on a key that is absent adds it at the end. *)
Lemma keys_set_absent m k v :
  ~ In k (JsMap.keys m) -> JsMap.keys (JsMap.set m k v) = (JsMap.keys m ++ [k])%list.
Proof.
  induction m as [| [k0 v0] r IH]; simpl; [reflexivity |].
  intros Hin. destruct (String.eqb k0 k) eqn:E; simpl.
  - apply String.eqb_eq in E. subst k0. tauto.
  - f_equal. apply IH. tauto.
Qed.

Lemma nodup_keys_set m k v :
  List.NoDup (JsMap.keys m) -> List.NoDup (JsMap.keys (JsMap.set m k v)).
Proof.
  induction m as [| [k0 v0] r IH]; simpl; intros Hnd.
  - constructor; [simpl; tauto | constructor].
  - inversion Hnd as [| ? ? Hnotin Hr]; subst.
    destruct (String.eqb k0 k) eqn:E; simpl.
    + apply String.eqb_eq in E. subst k0. now constructor.
    + constructor; [| now apply IH].
      rewrite keys_set_in. intros [-> | Hin]; [| tauto].
      now rewrite String.eqb_refl in E.
Qed.

Lemma get_in m k v : JsMap.get m k = Some v -> In (k, v) m.
Proof.
  induction m as [| [k0 v0] r IH]; simpl; [discriminate |].
  destruct (String.eqb k0 k) eqn:E.
  - apply String.eqb_eq in E. subst k0. intros [= ->]. now left.
  - intros H. right. now apply IH.
Qed.

End JsMapFacts.

Lemma keyed_set (m : JsMap.t LineOverride.t) (k : string) (o : LineOverride.t) :
  keyed m -> LineOverride.line_id o = k -> keyed (JsMap.set m k o).
Proof.
  unfold keyed. intros Hm Ho. induction m as [| [k0 v0] r IH]; simpl.
  - constructor; [exact Ho | constructor].
  - inversion Hm as [| ? ? H0 Hr]; subst.
    destruct (String.eqb k0 (LineOverride.line_id o)); constructor; auto.
Qed.

Lemma keyed_get (m : JsMap.t LineOverride.t) (k : string) (o : LineOverride.t) :
  keyed m -> JsMap.get m k = Some o -> LineOverride.line_id o = k.
Proof.
  intros Hm Hg. apply get_in in Hg.
  unfold keyed in Hm. rewrite List.Forall_forall in Hm. exact (Hm _ Hg).
Qed.

Lemma keyed_values (m : JsMap.t LineOverride.t) :
  keyed m -> map LineOverride.line_id (JsMap.values m) = JsMap.keys m.
Proof.
  unfold keyed, JsMap.values, JsMap.keys.
  induction 1 as [| [k0 v0] r H0 Hr IH]; simpl; [reflexivity |].
  simpl in H0. now rewrite H0, IH.
Qed.

Lemma one_per_line_change (s : ReviewPage.state) (o : LineOverride.t) :
  one_per_line s ->
  one_per_line (ReviewPage.handleOverrideChange (LineOverride.line_id o) o s).
Proof.
  intros [Hnd Hk]. split; simpl.
  - now apply nodup_keys_set.
  - now apply keyed_set.
Qed.

Lemma one_per_line_overrideMapOf (l : list LineOverride.t) :
  List.NoDup (JsMap.keys (ReviewPage.overrideMapOf l)) /\ keyed (ReviewPage.overrideMapOf l).
Proof.
  unfold ReviewPage.overrideMapOf.
  assert (G : forall m : JsMap.t LineOverride.t,
             List.NoDup (JsMap.keys m) /\ keyed m ->
             let m' := fold_left (fun m o => JsMap.set m (LineOverride.line_id o) o) l m in
             List.NoDup (JsMap.keys m') /\ keyed m').
  { induction l as [| o r IH]; intros m Hm; simpl; [exact Hm |].
    apply IH. destruct Hm as [Hnd Hk]. split.
    - now apply nodup_keys_set.
    - now apply keyed_set. }
  apply G. split; constructor.
Qed.

Lemma one_per_line_loadDraft (rfpId : option string) (got : fetched DraftResponse.t) :
  one_per_line (ReviewPage.loadDraft rfpId got ReviewPage.initial).
Proof.
  assert (H0 : one_per_line ReviewPage.initial) by (split; constructor).
  unfold ReviewPage.loadDraft.
  assert (Hc : forall e, one_per_line (ReviewPage.caught e ReviewPage.initial)).
  { intros e. unfold ReviewPage.caught. destruct (ReviewPage.messageOf e); exact H0. }
  destruct (ReviewPage.noRfpId rfpId); [exact H0 |].
  destruct got as [e | status detail | [e | data]]; try exact H0; try apply Hc.
  destruct (DraftResponse.draft data) as [d |]; [| exact H0].
  exact (one_per_line_overrideMapOf _).
Qed.

Lemma one_per_line_edit (e : Console.Edit) (s : ReviewPage.state) :
  one_per_line s -> one_per_line (Console.edit e s).
Proof.
  intros Hs. destruct e as [rec sku | rec sku | rec price | rec text]; simpl.
  - apply (one_per_line_change s
             (ReviewLineItemRow.handleSkuChange rec (ReviewPage.rowOverride s rec) sku)) in Hs.
    revert Hs. unfold ReviewLineItemRow.handleSkuChange.
    now destruct (String.eqb sku "--manual--").
  - destruct (truthy _); [| exact Hs].
    exact (one_per_line_change s
             (ReviewLineItemRow.handleManualSkuChange rec (ReviewPage.rowOverride s rec) sku) Hs).
  - exact (one_per_line_change s
             (ReviewLineItemRow.handleManualPriceChange rec (ReviewPage.rowOverride s rec) price)
             Hs).
  - destruct (ReviewPage.rowOverride s rec) as [o |] eqn:Ho; [| exact Hs].
    destruct (ReviewLineItemRow.reasonInputShown (Some o)); [| exact Hs].
    assert (Hid : LineOverride.line_id o = TechnicalRecommendation.line_id rec).
    { destruct Hs as [_ Hk]. exact (keyed_get _ _ _ Hk Ho). }
    rewrite <- Hid.
    exact (one_per_line_change s (ReviewLineItemRow.handleReasonChange o text) Hs).
Qed.

Lemma one_per_line_edits (l : list Console.Edit) (s : ReviewPage.state) :
  one_per_line s -> one_per_line (Console.edits l s).
Proof.
  revert s. induction l as [| e r IH]; intros s Hs; simpl; [exact Hs |].
  apply IH. now apply one_per_line_edit.
Qed.

Lemma supplied_latest (l : list (string * LineOverride.t)) (s : ReviewPage.state)
    (lineId : string) :
  JsMap.get (ReviewPage.overrides (Console.supplied l s)) lineId =
  match Console.latest lineId l with
  | Some o => Some o
  | None => JsMap.get (ReviewPage.overrides s) lineId
  end.
Proof.
  revert s. induction l as [| [k o] r IH]; intros s; simpl; [reflexivity |].
  unfold Console.supplied in IH. rewrite IH.
  destruct (Console.latest lineId r); [reflexivity |]. simpl.
  destruct (String.eqb k lineId) eqn:E.
  - apply String.eqb_eq in E. subst k. apply get_set_eq.
  - apply String.eqb_neq in E. now apply get_set_ne.
Qed.

(** C8. The override map holds at most one override per [line_id].
    From the page as loaded (with or without a draft) and after any
    sequence of edits of its rows, the keys of the map are distinct,
    every entry sits under the [line_id] of its override, and the
    overrides sent with save, approve and recalculate have distinct
    [line_id]s.  After any sequence of calls of [handleOverrideChange]
    a [line_id] maps to the override supplied last for it (and to what
    it mapped to before when none was supplied). *)
Theorem overrides_hold_one_per_line :
  forall (rfpId : option string) (got : fetched DraftResponse.t)
         (changes : list Console.Edit),
    let s := Console.edits changes (ReviewPage.loadDraft rfpId got ReviewPage.initial) in
    List.NoDup (JsMap.keys (ReviewPage.overrides s)) /\
    (forall k o, JsMap.get (ReviewPage.overrides s) k = Some o -> LineOverride.line_id o = k) /\
    (forall id, List.NoDup (map LineOverride.line_id
                         (ReviewSaveRequest.overrides (ReviewPage.saveRequest id s)))) /\
    (forall p g, List.NoDup (map LineOverride.line_id
                          (RecalculateRequest.overrides (ReviewPage.recalculateRequest p g s)))) /\
    (forall (supplies : list (string * LineOverride.t)) (lineId : string),
       JsMap.get (ReviewPage.overrides (Console.supplied supplies s)) lineId =
       match Console.latest lineId supplies with
       | Some o => Some o
       | None => JsMap.get (ReviewPage.overrides s) lineId
       end).
Proof.
  intros rfpId got changes s.
  assert (Hs : one_per_line s).
  { apply one_per_line_edits, one_per_line_loadDraft. }
  destruct Hs as [Hnd Hk].
  split; [exact Hnd |]. split; [intros k o; now apply keyed_get |].
  split; [| split].
  - intros id. simpl. now rewrite keyed_values.
  - intros p g. simpl. now rewrite keyed_values.
  - intros supplies lineId. apply supplied_latest.
Qed.

Lemma overrides_hold_one_per_line_witness :
  let s :=
    Console.edits
      [Console.SelectSku Sample.cable "SKU-B";
       Console.TypeManualPrice Sample.cable (Some 12.5%float);
       Console.SelectSku Sample.breaker "SKU-C";
       Console.SelectSku Sample.cable "SKU-A"]
      (ReviewPage.loadDraft (Some "R1") (Rejected ThrownOther) ReviewPage.initial) in
  map LineOverride.line_id (ReviewSaveRequest.overrides (ReviewPage.saveRequest "R1" s))
    = ["L1"; "L2"] /\
  List.NoDup (map LineOverride.line_id
                (ReviewSaveRequest.overrides (ReviewPage.saveRequest "R1" s))) /\
  JsMap.get (ReviewPage.overrides s) "L1"
    = Some (LineOverride.mk "L1" (val "SKU-A") (val 12.5%float) null).
Proof.
  intros s. split; [reflexivity |]. split; [| reflexivity].
  exact (proj1 (proj2 (proj2
           (overrides_hold_one_per_line (Some "R1") (Rejected ThrownOther)
              [Console.SelectSku Sample.cable "SKU-B";
               Console.TypeManualPrice Sample.cable (Some 12.5%float);
               Console.SelectSku Sample.breaker "SKU-C";
               Console.SelectSku Sample.cable "SKU-A"]))) "R1").
Defined.

(** ** The pipeline hook *)

(** C10. When [runPipeline] has completed, [loading] is false and
    either [data] is the result of this run, with [success] true, and
    [error] is null, or [data] is null and [error] is a message.  A run
    that fails leaves no result of an earlier run in [data]. *)
Theorem runPipeline_settles :
  forall (got : fetched RfpPipelineResult.t) (s : useRfpPipeline.state),
    let s' := useRfpPipeline.runPipeline got s in
    useRfpPipeline.loading s' = false /\
    ((exists result,
        got = Ok (inr result) /\
        useRfpPipeline.data s' = Some result /\
        RfpPipelineResult.success result = true /\
        useRfpPipeline.error s' = None) \/
     (useRfpPipeline.data s' = None /\
      exists message, useRfpPipeline.error s' = Some message)) /\
    ~ (useRfpPipeline.data s' <> None /\ useRfpPipeline.error s' <> None).
Proof.
  intros got s s'. subst s'. unfold useRfpPipeline.runPipeline.
  destruct (useRfpPipeline.attempt got) as [err | result] eqn:Ha; simpl.
  - split; [reflexivity |]. split.
    + right. split; [reflexivity |]. eauto.
    + intros [Hd _]. now apply Hd.
  - split; [reflexivity |]. split.
    + left. exists result.
      unfold useRfpPipeline.attempt in Ha.
      destruct got as [e | status detail | [e | r]]; try discriminate.
      destruct (RfpPipelineResult.success r) eqn:Hsucc; simpl in Ha; [| discriminate].
      injection Ha as ->. auto.
    + intros [_ He]. now apply He.
Qed.

(** ** Recalculation *)

Section RecalculationFacts.

Import Engine.

Variable priceSource : string -> option PriceEntry.t.

Lemma recalculate_inr (reachable : bool) (lines : list Line.t)
    (overrides : list LineOverride.t) (g : GlobalOverrides.t) (res : Recalculated.t) :
  recalculate priceSource reachable lines overrides g = inr res ->
  let items :=
    map (fun l =>
           price_line priceSource g l
             (override_for (TechnicalRecommendation.line_id (Line.recommendation l))
                overrides)) lines in
  Recalculated.lineItems res = items /\
  Recalculated.totals res =
    PricingTotals.mk (sum (map PricingLineItem.material_total items))
      (sum (map PricingLineItem.tests_total items))
      (overall_total (sum (map PricingLineItem.material_total items))
         (sum (map PricingLineItem.tests_total items)) g).
Proof.
  unfold recalculate.
  destruct (negb (forallb _ overrides)); [discriminate |].
  destruct (negb (_ && _)); [discriminate |].
  destruct (negb reachable); [discriminate |].
  intros [= <-]. split; reflexivity.
Qed.

Lemma price_line_totals (g : GlobalOverrides.t) (line : Line.t)
    (override : option LineOverride.t) :
  let item := price_line priceSource g line override in
  PricingLineItem.material_total item =
    (PricingLineItem.quantity item * PricingLineItem.unit_price item)%float /\
  PricingLineItem.grand_total item =
    (PricingLineItem.material_total item + PricingLineItem.tests_total item)%float.
Proof. split; reflexivity. Qed.

Lemma price_line_manual (g : GlobalOverrides.t) (line : Line.t)
    (ov : LineOverride.t) (p : float) :
  LineOverride.manual_unit_price ov = val p ->
  PricingLineItem.unit_price (price_line priceSource g line (Some ov)) = p.
Proof. intros Hp. unfold price_line, resolve. simpl. now rewrite Hp. Qed.

Lemma lookup_map {A B : Type} (f : A -> B) (l : list A) (i : nat) (a : A) :
  l !! i = Some a -> map f l !! i = Some (f a).
Proof.
  revert i. induction l as [| x r IH]; intros [| i]; simpl; try discriminate.
  - now intros [= ->].
  - apply IH.
Qed.

End RecalculationFacts.

(** C3. In the outcome of a recalculation the reported material and
    tests totals are the plain sums over the line items, every line
    carries its own totals without margin or tax, and the overall total
    is (material sum + tests sum) x (1 + margin or 0) x (1 + tax or 0),
    margin first.  With a material sum of 1000, a tests sum of 0, a
    margin of 0.10 and a tax of 0.18 the overall total is within 0.01
    of 1298. *)
Theorem overall_total_is_composed_on_the_sums
    (priceSource : string -> option Engine.PriceEntry.t) (reachable : bool)
    (lines : list Engine.Line.t) (overrides : list LineOverride.t)
    (g : GlobalOverrides.t) (res : Engine.Recalculated.t) :
  Engine.recalculate priceSource reachable lines overrides g = inr res ->
  let items := Engine.Recalculated.lineItems res in
  let totals := Engine.Recalculated.totals res in
  let material_total_sum := Engine.sum (map PricingLineItem.material_total items) in
  let tests_total_sum := Engine.sum (map PricingLineItem.tests_total items) in
  PricingTotals.material_total totals = material_total_sum /\
  PricingTotals.tests_total totals = tests_total_sum /\
  PricingTotals.overall_total totals =
    ((material_total_sum + tests_total_sum)
     * (1 + Engine.fraction_or_0 (GlobalOverrides.margin_fraction g))
     * (1 + Engine.fraction_or_0 (GlobalOverrides.tax_fraction g)))%float /\
  Forall (fun item =>
            PricingLineItem.material_total item =
              (PricingLineItem.quantity item * PricingLineItem.unit_price item)%float /\
            PricingLineItem.grand_total item =
              (PricingLineItem.material_total item + PricingLineItem.tests_total item)%float)
         items /\
  PrimFloat.leb
    (PrimFloat.abs (Engine.overall_total 1000 0 Sample.margin_and_tax - 1298)%float)
    0.01%float = true.
Proof.
  intros Hres. apply recalculate_inr in Hres. destruct Hres as [Hitems Htotals].
  cbv zeta. rewrite Htotals, Hitems. simpl.
  repeat split.
  apply List.Forall_forall. intros item Hin.
  apply in_map_iff in Hin as (l & <- & _). apply price_line_totals.
Qed.

Lemma overall_total_is_composed_on_the_sums_witness :
  Engine.recalculate Sample.prices true [Sample.plain] [] Sample.margin_and_tax
    = inr Sample.recalculated /\
  PricingTotals.material_total (Engine.Recalculated.totals Sample.recalculated)
    = 1000%float /\
  PricingTotals.tests_total (Engine.Recalculated.totals Sample.recalculated)
    = 0%float /\
  PricingTotals.overall_total (Engine.Recalculated.totals Sample.recalculated)
    = ((1000 + 0) * (1 + 0.1) * (1 + 0.18))%float.
Proof.
  assert (H : Engine.recalculate Sample.prices true [Sample.plain] []
                Sample.margin_and_tax = inr Sample.recalculated)
    by (vm_compute; reflexivity).
  split; [exact H |].
  destruct (overall_total_is_composed_on_the_sums Sample.prices true [Sample.plain] []
              Sample.margin_and_tax Sample.recalculated H) as (Hm & Ht & Ho & _ & _).
  split; [exact Hm |]. split; [exact Ht | exact Ho].
Defined.

(** C5. A manual unit price that is set is the unit price of the line
    item, whatever SKU the override approves and whether or not the
    price source knows that SKU: for the line alone, and for the line
    item at the place of the line in the outcome of a recalculation.
    The price input of the row stores the price it is given. *)
Theorem manual_unit_price_is_the_unit_price
    (priceSource : string -> option Engine.PriceEntry.t) (g : GlobalOverrides.t)
    (line : Engine.Line.t) (ov : LineOverride.t) (p : float) :
  LineOverride.manual_unit_price ov = val p ->
  PricingLineItem.unit_price (Engine.price_line priceSource g line (Some ov)) = p /\
  (forall reachable lines overrides res i,
     Engine.recalculate priceSource reachable lines overrides g = inr res ->
     lines !! i = Some line ->
     Engine.override_for
       (TechnicalRecommendation.line_id (Engine.Line.recommendation line)) overrides
       = Some ov ->
     exists item,
       Engine.Recalculated.lineItems res !! i = Some item /\
       PricingLineItem.line_id item =
         TechnicalRecommendation.line_id (Engine.Line.recommendation line) /\
       PricingLineItem.unit_price item = p) /\
  (forall rec prior,
     LineOverride.manual_unit_price
       (ReviewLineItemRow.handleManualPriceChange rec prior (Some p)) = val p).
Proof.
  intros Hp. split; [now apply price_line_manual |]. split; [| reflexivity].
  intros reachable lines overrides res i Hres Hline Hov.
  apply recalculate_inr in Hres. destruct Hres as [Hitems _].
  eexists. split.
  - rewrite Hitems. apply lookup_map. exact Hline.
  - cbv beta. rewrite Hov. split; [reflexivity |]. now apply price_line_manual.
Qed.

Lemma manual_unit_price_is_the_unit_price_witness :
  PricingLineItem.unit_price
    (Engine.price_line Sample.prices Sample.margin_and_tax Sample.cable_line
       (Some (LineOverride.mk "L1" (val "SKU-Z") (val 12.5%float) null))) = 12.5%float /\
  PricingLineItem.unit_price
    (Engine.price_line Sample.prices Sample.margin_and_tax Sample.cable_line
       (Some Sample.free_sample)) = 0%float.
Proof.
  split.
  - apply (manual_unit_price_is_the_unit_price Sample.prices Sample.margin_and_tax
             Sample.cable_line (LineOverride.mk "L1" (val "SKU-Z") (val 12.5%float) null)).
    reflexivity.
  - apply (manual_unit_price_is_the_unit_price Sample.prices Sample.margin_and_tax
             Sample.cable_line Sample.free_sample).
    reflexivity.
Defined.

(** ** The workflow *)

Section WorkflowFacts.

Import Workflow.

Implicit Types (w : World.t) (request : ReviewSaveRequest.t) (r : Rfp.t).

Lemma saveDraft_ok now request w r :
  World.rfps w !! ReviewSaveRequest.rfp_id request = Some r ->
  Rfp.approval r = None ->
  ReviewSaveRequest.reviewer request <> "" ->
  saveDraft now request w =
    (inr (ReviewDraft.mk (ReviewSaveRequest.rfp_id request) now
            (ReviewSaveRequest.reviewer request) request),
     World.mk (<[ReviewSaveRequest.rfp_id request := saved now request r]> (World.rfps w))
              (World.exported w)).
Proof.
  intros Hr Ha Hrev. unfold saveDraft. rewrite Hr.
  apply String.eqb_neq in Hrev. rewrite Hrev, Ha. reflexivity.
Qed.

Lemma saveDraft_inv now request w d w' :
  saveDraft now request w = (inr d, w') ->
  exists r,
    World.rfps w !! ReviewSaveRequest.rfp_id request = Some r /\
    Rfp.approval r = None /\
    ReviewSaveRequest.reviewer request <> "" /\
    d = ReviewDraft.mk (ReviewSaveRequest.rfp_id request) now
          (ReviewSaveRequest.reviewer request) request /\
    w' = World.mk (<[ReviewSaveRequest.rfp_id request := saved now request r]> (World.rfps w))
                  (World.exported w).
Proof.
  unfold saveDraft.
  destruct (World.rfps w !! ReviewSaveRequest.rfp_id request) as [r |] eqn:Hr;
    [| discriminate].
  destruct (String.eqb (ReviewSaveRequest.reviewer request) "") eqn:Hrev; [discriminate |].
  destruct (Rfp.approval r) as [a |] eqn:Ha; [discriminate |].
  intros [= <- <-]. exists r. apply String.eqb_neq in Hrev. auto.
Qed.

Lemma saveDraft_failed now request w e w' :
  saveDraft now request w = (inl e, w') -> w' = w.
Proof.
  unfold saveDraft.
  destruct (World.rfps w !! ReviewSaveRequest.rfp_id request) as [r |];
    [| now intros [= _ <-]].
  destruct (String.eqb (ReviewSaveRequest.reviewer request) ""); [now intros [= _ <-] |].
  destruct (Rfp.approval r); [now intros [= _ <-] | discriminate].
Qed.




Variable priceSource : string -> option Engine.PriceEntry.t.
Variable exportTrigger : string -> Engine.Recalculated.t -> string.





End WorkflowFacts.

(** ** One export per approval *)

Section ExportFacts.

Import Workflow.

Variable priceSource : string -> option Engine.PriceEntry.t.
Variable exportTrigger : string -> Engine.Recalculated.t -> string.






End ExportFacts.

(** ** The save and approve handlers of the console *)

Section ConsoleFacts.

Import Workflow.

Lemma noRfpId_some (id : string) : id <> "" -> ReviewPage.noRfpId (Some id) = false.
Proof. intros H. apply truthy_string_nonempty in H. simpl. now rewrite H. Qed.

(** Whatever the server answers, a save that fails leaves the page as
    it was and one that succeeds appends one entry to the history. *)
Lemma handleSaveDraft_cases {W : Type}
    (post_save : string -> ReviewSaveRequest.t -> W -> fetched SaveResponse.t * W)
    (rfpId : option string) (s : ReviewPage.state) (w : W) :
  match ReviewPage.handleSaveDraft post_save rfpId s w with
  | (inr _, s', _) =>
      exists stamp,
        s' = ReviewPage.setDraftHistory (ReviewPage.draftHistory s ++ [stamp]) s
  | (inl _, s', _) => s' = s
  end.
Proof.
  unfold ReviewPage.handleSaveDraft.
  destruct (ReviewPage.noRfpId rfpId || negb (truthy (trim (ReviewPage.reviewer s))));
    [reflexivity |].
  destruct (post_save _ _ w) as [[e | status detail | [e | result]] w'];
    try reflexivity.
  eexists. reflexivity.
Qed.


Lemma handleSaveDraft_saves (now id : string) (s : ReviewPage.state) (w : World.t)
    (r : Rfp.t) :
  id <> "" ->
  trim (ReviewPage.reviewer s) <> "" ->
  World.rfps w !! id = Some r ->
  Rfp.approval r = None ->
  ReviewPage.handleSaveDraft (post_save now) (Some id) s w =
    (inr tt,
     ReviewPage.setDraftHistory
       (ReviewPage.draftHistory s ++ [DraftStamp.mk now (trim (ReviewPage.reviewer s))]) s,
     World.mk (<[id := saved now (ReviewPage.saveRequest id s) r]> (World.rfps w))
              (World.exported w)).
Proof.
  intros Hid Hrev Hr Ha. unfold ReviewPage.handleSaveDraft.
  rewrite (noRfpId_some id Hid).
  pose proof (proj2 (truthy_string_nonempty _) Hrev) as Ht. rewrite Ht. simpl.
  unfold post_save. simpl. rewrite String.eqb_refl.
  rewrite (saveDraft_ok now (ReviewPage.saveRequest id s) w r Hr Ha Hrev).
  reflexivity.
Qed.

(** The handler against the workflow: a save that fails changes
    neither the page nor the store. *)
Lemma handleSaveDraft_atomic (now : string) (rfpId : option string)
    (s : ReviewPage.state) (w : World.t) :
  match ReviewPage.handleSaveDraft (post_save now) rfpId s w with
  | (inl _, s', w') => s' = s /\ w' = w
  | (inr _, s', w') =>
      exists id r,
        rfpId = Some id /\
        World.rfps w !! id = Some r /\
        s' = ReviewPage.setDraftHistory
               (ReviewPage.draftHistory s ++
                  [DraftStamp.mk now (trim (ReviewPage.reviewer s))]) s /\
        w' = World.mk (<[id := saved now (ReviewPage.saveRequest id s) r]> (World.rfps w))
                      (World.exported w)
  end.
Proof.
  unfold ReviewPage.handleSaveDraft.
  destruct (ReviewPage.noRfpId rfpId || negb (truthy (trim (ReviewPage.reviewer s))))
    eqn:G; [split; reflexivity |].
  destruct rfpId as [id |]; [| discriminate G].
  unfold post_save. cbn [default ReviewPage.saveRequest ReviewSaveRequest.rfp_id].
  rewrite String.eqb_refl.
  destruct (saveDraft now _ w) as [[e | d] w'] eqn:Hs.
  - apply saveDraft_failed in Hs. subst w'. split; reflexivity.
  - apply saveDraft_inv in Hs as (r & Hr & _ & _ & -> & ->).
    exists id, r. repeat split. exact Hr.
Qed.

Lemma triple_eta {A B C : Type} (x : A * B * C) : x = (fst (fst x), snd (fst x), snd x).
Proof. now destruct x as [[? ?] ?]. Defined.

End ConsoleFacts.




(** C4. A save is all or nothing.  In the console, whatever the server
    answers, a save that succeeds appends exactly one entry to the
    draft history and a save that fails leaves the page as it was.  In
    the workflow a save that succeeds appends exactly one [draft_saved]
    entry to the audit log of its RFP and makes its payload the current
    draft, and one that fails leaves the store as it was; a save from
    the console against the workflow that fails changes neither the
    page nor the store.  Two saves in
    a row from the console append two entries to the history and to the
    audit log (which has length 2 if it was empty), and the current
    draft is the payload of the second. *)
Theorem saveDraft_is_atomic :
  (forall (W : Type) post_save rfpId s (w : W),
     match ReviewPage.handleSaveDraft post_save rfpId s w with
     | (inr _, s', _) =>
         exists stamp,
           s' = ReviewPage.setDraftHistory (ReviewPage.draftHistory s ++ [stamp]) s
     | (inl _, s', _) => s' = s
     end) /\
  (forall now request w,
     match Workflow.saveDraft now request w with
     | (inr d, w') =>
         exists r,
           Workflow.World.rfps w !! ReviewSaveRequest.rfp_id request = Some r /\
           w' = Workflow.World.mk
                  (<[ReviewSaveRequest.rfp_id request := saved now request r]>
                     (Workflow.World.rfps w))
                  (Workflow.World.exported w) /\
           Workflow.Rfp.audit_log (saved now request r) =
             (Workflow.Rfp.audit_log r ++
                [Workflow.AuditEntry.mk Workflow.draft_saved now
                   (ReviewSaveRequest.reviewer request)
                   (ReviewSaveRequest.notes request)])%list /\
           Workflow.Rfp.current_draft (saved now request r) = Some d /\
           ReviewDraft.request d = request
     | (inl _, w') => w' = w
     end) /\
  (forall now rfpId s w,
     match ReviewPage.handleSaveDraft (Workflow.post_save now) rfpId s w with
     | (inl _, s', w') => s' = s /\ w' = w
     | (inr _, s', w') =>
         exists id r,
           rfpId = Some id /\
           Workflow.World.rfps w !! id = Some r /\
           s' = ReviewPage.setDraftHistory
                  (ReviewPage.draftHistory s ++
                     [DraftStamp.mk now (trim (ReviewPage.reviewer s))]) s /\
           w' = Workflow.World.mk
                  (<[id := saved now (ReviewPage.saveRequest id s) r]>
                     (Workflow.World.rfps w))
                  (Workflow.World.exported w)
     end) /\
  (forall now1 now2 id s1 s2 w r,
     id <> "" ->
     trim (ReviewPage.reviewer s1) <> "" ->
     trim (ReviewPage.reviewer s2) <> "" ->
     Workflow.World.rfps w !! id = Some r ->
     Workflow.Rfp.approval r = None ->
     forall r1 s1' w1 r2 s2' w2,
       ReviewPage.handleSaveDraft (Workflow.post_save now1) (Some id) s1 w = (r1, s1', w1) ->
       ReviewPage.draftHistory s2 = ReviewPage.draftHistory s1' ->
       ReviewPage.handleSaveDraft (Workflow.post_save now2) (Some id) s2 w1 = (r2, s2', w2) ->
       r1 = inr tt /\ r2 = inr tt /\
       ReviewPage.draftHistory s2' =
         (ReviewPage.draftHistory s1 ++
            [DraftStamp.mk now1 (trim (ReviewPage.reviewer s1));
             DraftStamp.mk now2 (trim (ReviewPage.reviewer s2))])%list /\
       exists rfp2,
         Workflow.World.rfps w2 !! id = Some rfp2 /\
         Workflow.Rfp.audit_log rfp2 =
           (Workflow.Rfp.audit_log r ++
              [Workflow.AuditEntry.mk Workflow.draft_saved now1
                 (trim (ReviewPage.reviewer s1)) null;
               Workflow.AuditEntry.mk Workflow.draft_saved now2
                 (trim (ReviewPage.reviewer s2)) null])%list /\
         (Workflow.Rfp.audit_log r = [] -> length (Workflow.Rfp.audit_log rfp2) = 2) /\
         Workflow.Rfp.current_draft rfp2 =
           Some (ReviewDraft.mk id now2 (trim (ReviewPage.reviewer s2))
                   (ReviewPage.saveRequest id s2))).
Proof.
  split; [| split; [| split]].
  - intros W post_save rfpId s w. apply handleSaveDraft_cases.
  - intros now request w.
    destruct (Workflow.saveDraft now request w) as [[e | d] w'] eqn:Hs.
    + now apply saveDraft_failed in Hs.
    + apply saveDraft_inv in Hs as (r & Hr & _ & _ & -> & ->).
      exists r. repeat split; auto.
  - intros now rfpId s w. apply handleSaveDraft_atomic.
  - intros now1 now2 id s1 s2 w r Hid Hrev1 Hrev2 Hr Ha r1 s1' w1 r2 s2' w2 H1 Hh H2.
    rewrite (handleSaveDraft_saves now1 id s1 w r Hid Hrev1 Hr Ha) in H1.
    injection H1 as <- <- <-.
    rewrite (handleSaveDraft_saves now2 id s2 _
               (saved now1 (ReviewPage.saveRequest id s1) r) Hid Hrev2) in H2;
      [| apply lookup_insert_eq | reflexivity].
    injection H2 as <- <- <-.
    split; [reflexivity |]. split; [reflexivity |]. split.
    + simpl. rewrite Hh. simpl. now rewrite <- app_assoc.
    + eexists. split; [apply lookup_insert_eq |]. split; [| split].
      * simpl. now rewrite <- app_assoc.
      * intros Hnil. simpl. now rewrite Hnil.
      * reflexivity.
Qed.

Lemma saveDraft_is_atomic_witness :
  let save1 :=
    ReviewPage.handleSaveDraft (Workflow.post_save "2025-01-01T10:00:00Z") (Some "R1")
      Sample.page Sample.world in
  let edited :=
    Console.edit (Console.TypeManualPrice (Engine.Line.recommendation Sample.plain)
                    (Some 310%float)) (snd (fst save1)) in
  let save2 :=
    ReviewPage.handleSaveDraft (Workflow.post_save "2025-01-01T11:00:00Z") (Some "R1")
      edited (snd save1) in
  length (ReviewPage.draftHistory (snd (fst save2))) = 2 /\
  exists rfp2,
    Workflow.World.rfps (snd save2) !! "R1" = Some rfp2 /\
    length (Workflow.Rfp.audit_log rfp2) = 2 /\
    Workflow.Rfp.current_draft rfp2 =
      Some (ReviewDraft.mk "R1" "2025-01-01T11:00:00Z" "Asha"
              (ReviewPage.saveRequest "R1" edited)).
Proof.
  intros save1 edited save2.
  assert (Hid : "R1" <> "") by discriminate.
  assert (Hrev1 : trim (ReviewPage.reviewer Sample.page) <> "") by discriminate.
  assert (Hrev2 : trim (ReviewPage.reviewer edited) <> "") by discriminate.
  destruct (proj2 (proj2 (proj2 saveDraft_is_atomic))
              "2025-01-01T10:00:00Z" "2025-01-01T11:00:00Z" "R1"
              Sample.page edited Sample.world
              (Workflow.Rfp.mk [Sample.plain] None [] None)
              Hid Hrev1 Hrev2 eq_refl eq_refl
              (fst (fst save1)) (snd (fst save1)) (snd save1)
              (fst (fst save2)) (snd (fst save2)) (snd save2))
    as (_ & _ & Hh & rfp2 & Hl & Hlog & Hlen & Hcur).
  - apply triple_eta.
  - reflexivity.
  - apply triple_eta.
  - split; [now rewrite Hh |].
    exists rfp2. split; [exact Hl |]. split; [now apply Hlen | exact Hcur].
Defined.

(** ** Approval *)

Section ApprovalFacts.

Import Workflow.

Variable priceSource : string -> option Engine.PriceEntry.t.
Variable exportTrigger : string -> Engine.Recalculated.t -> string.




(** The bar does not itself refuse a second approve: once an approve
    has completed the button is enabled again for any reviewer that is
    not blank, whatever the outcome was. *)
Lemma approve_button_stays_enabled {P : Type} (reviewer : string)
    (onApprove : P -> (thrown + string) * P) (bar : ApprovalBar.state) (p : P) :
  trim reviewer <> "" ->
  ApprovalBar.approveDisabled reviewer
    (fst (ApprovalBar.handleApprove reviewer onApprove bar p)) = false.
Proof.
  intros Hrev. pose proof (proj2 (truthy_string_nonempty _) Hrev) as Ht.
  unfold ApprovalBar.approveDisabled, ApprovalBar.handleApprove. rewrite Ht. simpl.
  destruct (onApprove p) as [[err | url] p']; reflexivity.
Qed.

End ApprovalFacts.




(** * More of the front end *)

(** ** Trimming *)

Section TrimFacts.

Lemma trimStart_head (s : string) :
  trimStart s = "" \/
  exists c r, trimStart s = String c r /\ is_whitespace c = false.
Proof.
  induction s as [| c r IH]; simpl; [now left |].
  destruct (is_whitespace c) eqn:E; [exact IH |]. right. eauto.
Qed.

Lemma trimStart_blank (s : string) : trimStart s = "" <-> all_whitespace s = true.
Proof.
  induction s as [| c r IH]; simpl; [tauto |].
  destruct (is_whitespace c); simpl; [exact IH |]. split; discriminate.
Qed.

Lemma trimEnd_blank (s : string) : trimEnd s = "" <-> all_whitespace s = true.
Proof.
  induction s as [| c r IH]; simpl; [tauto |].
  destruct (trimEnd r) as [| c' r'] eqn:E.
  - destruct (is_whitespace c); simpl.
    + split; [intros _; now apply IH | reflexivity].
    + split; discriminate.
  - split; [discriminate |]. intros H. apply andb_prop in H as [_ H].
    apply IH in H. discriminate.
Qed.

(** A string that does not begin with white space keeps its head when
    its end is trimmed. *)
Lemma trimEnd_head (c : ascii) (r : string) :
  is_whitespace c = false -> exists r', trimEnd (String c r) = String c r'.
Proof.
  intros Hc. simpl. destruct (trimEnd r); [rewrite Hc |]; eauto.
Qed.

Lemma trimEnd_idempotent (s : string) : trimEnd (trimEnd s) = trimEnd s.
Proof.
  induction s as [| c r IH]; simpl; [reflexivity |].
  destruct (trimEnd r) as [| c' r'] eqn:E.
  - destruct (is_whitespace c) eqn:Hc; simpl; [reflexivity | now rewrite Hc].
  - change (trimEnd (String c (String c' r'))) with
      (match trimEnd (String c' r') with
       | EmptyString => if is_whitespace c then EmptyString else String c EmptyString
       | r0 => String c r0
       end).
    now rewrite IH.
Qed.

Lemma trim_empty_iff_blank (s : string) : trim s = "" <-> all_whitespace s = true.
Proof.
  unfold trim. split.
  - intros H. apply trimStart_blank.
    destruct (trimStart_head s) as [H0 | (c & r & Hs & Hc)]; [exact H0 |].
    rewrite Hs in H. destruct (trimEnd_head c r Hc) as [r' Hr]. congruence.
  - intros H. apply trimStart_blank in H. now rewrite H.
Qed.

Lemma trim_idempotent (s : string) : trim (trim s) = trim s.
Proof.
  unfold trim.
  destruct (trimStart_head s) as [H0 | (c & r & Hs & Hc)].
  - now rewrite H0.
  - rewrite Hs. destruct (trimEnd_head c r Hc) as [r' Hr]. rewrite Hr.
    assert (Hst : trimStart (String c r') = String c r') by (simpl; now rewrite Hc).
    rewrite Hst, <- Hr. apply trimEnd_idempotent.
Qed.

Lemma truthy_trim (s : string) : truthy (trim s) = negb (all_whitespace s).
Proof.
  destruct (all_whitespace s) eqn:E.
  - apply trim_empty_iff_blank in E. now rewrite E.
  - apply truthy_string_nonempty. intros H. apply trim_empty_iff_blank in H. congruence.
Qed.

End TrimFacts.

(** X18. The "Save Draft" button is disabled exactly while a save is
    in flight or when every character of the reviewer name is white
    space (an empty name included), and "Approve Final" likewise with
    an approve in flight; and the name the page puts in a request is
    trimmed: trimming it again changes nothing. *)
Theorem buttons_disabled_iff_busy_or_blank (reviewer : string) (bar : ApprovalBar.state) :
  ApprovalBar.saveDisabled reviewer bar = (ApprovalBar.saving bar || all_whitespace reviewer) /\
  ApprovalBar.approveDisabled reviewer bar
    = (ApprovalBar.approving bar || all_whitespace reviewer) /\
  (forall id s,
     trim (ReviewSaveRequest.reviewer (ReviewPage.saveRequest id s))
       = ReviewSaveRequest.reviewer (ReviewPage.saveRequest id s)).
Proof.
  unfold ApprovalBar.saveDisabled, ApprovalBar.approveDisabled.
  rewrite truthy_trim, negb_involutive. repeat split.
  intros id s. simpl. apply trim_idempotent.
Qed.

(** ** The row and its select *)

Section RowViewFacts.

Import ReviewLineItemRow.

Variable rec : TechnicalRecommendation.t.

(** X1. The value the SKU select is given is always the value of one
    of its options: [best_sku], the SKU of a top match, or
    ["--manual--"]. *)
Theorem select_value_is_an_option (override : option LineOverride.t) :
  In (selectValue rec override) (RowView.options rec).
Proof.
  unfold selectValue, RowView.options.
  destruct (truthy (isManualSku rec override)) eqn:Hflag.
  - right. apply in_or_app. right. now left.
  - unfold isManualSku in Hflag. unfold currentSku, or_default.
    destruct (chain override LineOverride.approved_sku) as [| | s]; try now left.
    destruct (truthy s); [| now left].
    right. apply in_or_app. left.
    change (truthy (VBool ?b)) with b in Hflag.
    apply negb_false_iff, existsb_exists in Hflag as (m & Hin & He).
    apply String.eqb_eq in He. subst s. now apply in_map.
Qed.

Lemma rowOverride_after_change (s : ReviewPage.state) (o : LineOverride.t) :
  ReviewPage.rowOverride
    (ReviewPage.handleOverrideChange (TechnicalRecommendation.line_id rec) o s) rec = Some o.
Proof. unfold ReviewPage.rowOverride. simpl. apply get_set_eq. Qed.

(** X2. Choosing the SKU of a top match in the select (a SKU that is
    not empty and not the text ["--manual--"]) makes it the effective
    SKU of the row; the row is then not flagged manual and the select
    shows the chosen SKU. *)
Theorem chosen_top_match_is_shown (s : ReviewPage.state) (sku : string) :
  In sku (map TopMatch.sku (TechnicalRecommendation.top_matches rec)) ->
  sku <> "" ->
  sku <> "--manual--" ->
  let after := ReviewPage.rowOverride (Console.edit (Console.SelectSku rec sku) s) rec in
  currentSku rec after = sku /\
  isManualSku rec after = VBool false /\
  selectValue rec after = sku /\
  RowView.manualInputShown rec after = false.
Proof.
  intros Hin Hne Hman after. subst after. simpl.
  rewrite rowOverride_after_change.
  assert (Ho : LineOverride.approved_sku
                 (handleSkuChange rec (ReviewPage.rowOverride s rec) sku) = val sku).
  { unfold handleSkuChange. apply String.eqb_neq in Hman. now rewrite Hman. }
  pose proof (currentSku_approved rec _ sku Ho Hne) as Hcur.
  pose proof (isManualSku_top_match rec _ sku Ho Hne Hin) as Hflag.
  unfold selectValue, RowView.manualInputShown. rewrite Hflag, Hcur. auto.
Qed.

(** X3. Typing or clearing the manual unit price of a row never
    changes its effective SKU, and the row then holds exactly the price
    that was typed ([null] when the input was cleared). *)
Theorem price_edit_keeps_the_effective_sku (s : ReviewPage.state) (price : option float) :
  let after :=
    ReviewPage.rowOverride (Console.edit (Console.TypeManualPrice rec price) s) rec in
  currentSku rec after = currentSku rec (ReviewPage.rowOverride s rec) /\
  manualPrice after = match price with Some p => val p | None => null end.
Proof.
  intros after. subst after. simpl. rewrite rowOverride_after_change.
  split; [| reflexivity].
  unfold currentSku, handleManualPriceChange. simpl.
  destruct (chain (ReviewPage.rowOverride s rec) LineOverride.approved_sku) as [| | a];
    simpl; try (destruct (TechnicalRecommendation.best_sku rec); reflexivity).
  destruct (truthy a) eqn:Ha; simpl; [now rewrite Ha |].
  destruct (TechnicalRecommendation.best_sku rec); reflexivity.
Qed.

(** X4. Right after the "-- Manual SKU --" option is chosen the select
    shows [best_sku] again and the manual SKU input is not rendered, so
    typing a manual SKU is not possible: the page stays as it is. *)
Theorem manual_option_renders_no_input (s : ReviewPage.state) (sku : string) :
  let chosen := Console.edit (Console.SelectSku rec "--manual--") s in
  RowView.manualInputShown rec (ReviewPage.rowOverride chosen rec) = false /\
  selectValue rec (ReviewPage.rowOverride chosen rec)
    = TechnicalRecommendation.best_sku rec /\
  Console.edit (Console.TypeManualSku rec sku) chosen = chosen.
Proof.
  intros chosen.
  assert (Hrow : ReviewPage.rowOverride chosen rec =
                 Some (handleSkuChange rec (ReviewPage.rowOverride s rec) "--manual--")).
  { subst chosen. simpl. apply rowOverride_after_change. }
  assert (Hflag : truthy (isManualSku rec (ReviewPage.rowOverride chosen rec)) = false).
  { rewrite Hrow. reflexivity. }
  split; [exact Hflag |]. split.
  - unfold selectValue. rewrite Hflag, Hrow. reflexivity.
  - simpl. now rewrite Hflag.
Qed.

End RowViewFacts.

Lemma chosen_top_match_is_shown_witness :
  ReviewLineItemRow.selectValue Sample.cable
    (ReviewPage.rowOverride
       (Console.edit (Console.SelectSku Sample.cable "SKU-B") Sample.page) Sample.cable)
    = "SKU-B".
Proof.
  apply (chosen_top_match_is_shown Sample.cable Sample.page "SKU-B").
  - simpl. tauto.
  - discriminate.
  - discriminate.
Defined.

(** ** Edits of the page *)

Section EditFacts.

Lemma setOverrides_same (s : ReviewPage.state) :
  s = ReviewPage.setOverrides (ReviewPage.overrides s) s.
Proof. now destruct s. Qed.

Lemma edit_only_overrides (e : Console.Edit) (s : ReviewPage.state) :
  Console.edit e s = ReviewPage.setOverrides (ReviewPage.overrides (Console.edit e s)) s.
Proof.
  destruct e as [rec sku | rec sku | rec price | rec text]; simpl.
  - reflexivity.
  - destruct (truthy _); [reflexivity | apply setOverrides_same].
  - reflexivity.
  - destruct (ReviewPage.rowOverride s rec) as [o |]; [| apply setOverrides_same].
    destruct (ReviewLineItemRow.reasonInputShown (Some o));
      [reflexivity | apply setOverrides_same].
Qed.

Lemma keys_set_extends {V : Type} (m : JsMap.t V) (k : string) (v : V) :
  exists added, JsMap.keys (JsMap.set m k v) = (JsMap.keys m ++ added)%list.
Proof.
  destruct (in_dec string_dec k (JsMap.keys m)) as [Hin | Hout].
  - exists []. rewrite app_nil_r. now apply keys_set_present.
  - exists [k]. now apply keys_set_absent.
Qed.

Lemma edit_keys_extend (e : Console.Edit) (s : ReviewPage.state) :
  exists added,
    JsMap.keys (ReviewPage.overrides (Console.edit e s))
      = (JsMap.keys (ReviewPage.overrides s) ++ added)%list.
Proof.
  assert (Hsame : exists added : list string,
             JsMap.keys (ReviewPage.overrides s)
               = (JsMap.keys (ReviewPage.overrides s) ++ added)%list)
    by (exists []; now rewrite app_nil_r).
  destruct e as [rec sku | rec sku | rec price | rec text]; simpl.
  - apply keys_set_extends.
  - destruct (truthy _); [apply keys_set_extends | exact Hsame].
  - apply keys_set_extends.
  - destruct (ReviewPage.rowOverride s rec) as [o |]; [| exact Hsame].
    destruct (ReviewLineItemRow.reasonInputShown (Some o));
      [apply keys_set_extends | exact Hsame].
Qed.

Lemma edit_other_row (e : Console.Edit) (s : ReviewPage.state)
    (rec' : TechnicalRecommendation.t) :
  edited_line e <> TechnicalRecommendation.line_id rec' ->
  ReviewPage.rowOverride (Console.edit e s) rec' = ReviewPage.rowOverride s rec'.
Proof.
  intros Hne. unfold ReviewPage.rowOverride.
  destruct e as [rec sku | rec sku | rec price | rec text]; simpl in *.
  - now apply get_set_ne.
  - destruct (truthy _); [now apply get_set_ne | reflexivity].
  - now apply get_set_ne.
  - destruct (ReviewPage.rowOverride s rec) as [o |]; [| reflexivity].
    destruct (ReviewLineItemRow.reasonInputShown (Some o));
      [now apply get_set_ne | reflexivity].
Qed.

End EditFacts.

(** X5. Edits of rows change nothing of the page but the override map,
    and of the map only the entries of the edited lines: the overrides
    already there keep their places (no edit removes or reorders an
    override; new ones are added at the end), and the row of a line that
    was not edited is rendered with the override it had. *)
Theorem edits_touch_only_the_edited_lines (changes : list Console.Edit)
    (s : ReviewPage.state) :
  let s' := Console.edits changes s in
  s' = ReviewPage.setOverrides (ReviewPage.overrides s') s /\
  (exists added,
     JsMap.keys (ReviewPage.overrides s')
       = (JsMap.keys (ReviewPage.overrides s) ++ added)%list) /\
  (forall rec',
     ~ In (TechnicalRecommendation.line_id rec') (map edited_line changes) ->
     ReviewPage.rowOverride s' rec' = ReviewPage.rowOverride s rec').
Proof.
  revert s. induction changes as [| e r IH]; intros s; simpl.
  - split; [apply setOverrides_same |]. split; [| reflexivity].
    exists []. now rewrite app_nil_r.
  - destruct (IH (Console.edit e s)) as (Hfields & (added & Hkeys) & Hrows).
    fold (Console.edits r (Console.edit e s)) in *.
    split; [| split].
    + rewrite Hfields at 1. rewrite (edit_only_overrides e s). reflexivity.
    + destruct (edit_keys_extend e s) as (added0 & Hk0).
      exists (added0 ++ added)%list. now rewrite Hkeys, Hk0, app_assoc.
    + intros rec' Hnotin. rewrite Hrows by tauto.
      apply edit_other_row. intros Heq. apply Hnotin. now left.
Qed.

Lemma edits_touch_only_the_edited_lines_witness :
  ReviewPage.rowOverride
    (Console.edits [Console.SelectSku Sample.cable "SKU-B";
                    Console.TypeManualPrice Sample.breaker (Some 40%float)] Sample.page)
    (Engine.Line.recommendation Sample.plain)
  = ReviewPage.rowOverride Sample.page (Engine.Line.recommendation Sample.plain).
Proof.
  apply (edits_touch_only_the_edited_lines
           [Console.SelectSku Sample.cable "SKU-B";
            Console.TypeManualPrice Sample.breaker (Some 40%float)] Sample.page).
  simpl. intros [H | [H | []]]; discriminate.
Defined.

(** ** Loading a draft *)

Section LoadFacts.

Lemma set_absent {V : Type} (m : JsMap.t V) (k : string) (v : V) :
  ~ In k (JsMap.keys m) -> JsMap.set m k v = (m ++ [(k, v)])%list.
Proof.
  induction m as [| [k0 v0] r IH]; simpl; [reflexivity |].
  intros Hout. destruct (String.eqb k0 k) eqn:E.
  - apply String.eqb_eq in E. tauto.
  - f_equal. apply IH. tauto.
Qed.

Lemma fold_set_values (m2 m1 : JsMap.t LineOverride.t) :
  List.NoDup (JsMap.keys (m1 ++ m2)%list) -> keyed m2 ->
  fold_left (fun m o => JsMap.set m (LineOverride.line_id o) o) (JsMap.values m2) m1
    = (m1 ++ m2)%list.
Proof.
  revert m1. induction m2 as [| [k v] r IH]; intros m1 Hnd Hk; simpl.
  - now rewrite app_nil_r.
  - inversion Hk as [| ? ? Hv Hr]; subst. simpl in Hv. subst k.
    assert (Hout : ~ In (LineOverride.line_id v) (JsMap.keys m1)).
    { unfold JsMap.keys in *. rewrite List.map_app in Hnd. simpl in Hnd.
      apply List.NoDup_remove_2 in Hnd. intros Hin. apply Hnd.
      apply in_or_app. now left. }
    rewrite (set_absent m1 _ v Hout).
    rewrite IH; [now rewrite <- app_assoc | | exact Hr].
    now rewrite <- app_assoc.
Qed.

(** The values of a map with one entry per line build the same map. *)
Lemma overrideMapOf_values (m : JsMap.t LineOverride.t) :
  List.NoDup (JsMap.keys m) -> keyed m ->
  ReviewPage.overrideMapOf (JsMap.values m) = m.
Proof.
  intros Hnd Hk. unfold ReviewPage.overrideMapOf.
  now rewrite (fold_set_values m JsMap.empty).
Qed.

Lemma fold_set_latest (l : list LineOverride.t) (m : JsMap.t LineOverride.t)
    (lineId : string) :
  JsMap.get (fold_left (fun m o => JsMap.set m (LineOverride.line_id o) o) l m) lineId =
  match Console.latest lineId (map (fun o => (LineOverride.line_id o, o)) l) with
  | Some o => Some o
  | None => JsMap.get m lineId
  end.
Proof.
  revert m. induction l as [| o r IH]; intros m; simpl; [reflexivity |].
  rewrite IH.
  destruct (Console.latest lineId (map (fun o => (LineOverride.line_id o, o)) r));
    [reflexivity |].
  destruct (String.eqb (LineOverride.line_id o) lineId) eqn:E.
  - apply String.eqb_eq in E. subst lineId. apply get_set_eq.
  - apply String.eqb_neq in E. now apply get_set_ne.
Qed.

(** The effect sets neither the recalculated pricing nor the approval. *)
Lemma loadDraft_keeps (rfpId : option string) (got : fetched DraftResponse.t)
    (s : ReviewPage.state) :
  let s' := ReviewPage.loadDraft rfpId got s in
  ReviewPage.recalculatedPricing s' = ReviewPage.recalculatedPricing s /\
  ReviewPage.approvedAt s' = ReviewPage.approvedAt s /\
  ReviewPage.approvedBy s' = ReviewPage.approvedBy s.
Proof.
  unfold ReviewPage.loadDraft, ReviewPage.caught.
  destruct (ReviewPage.noRfpId rfpId); [repeat split |].
  destruct got as [e | status detail | [e | data]]; try (repeat split; fail).
  - destruct (ReviewPage.messageOf e); repeat split.
  - destruct (ReviewPage.messageOf e); repeat split.
  - destruct (DraftResponse.draft data); repeat split.
Qed.

Lemma error_message_nonempty (status : nat) (detail : option (opt string)) :
  error_message status detail <> "".
Proof.
  unfold error_message, or_default.
  destruct (match detail with Some d => d | None => val "Unknown error" end)
    as [| | a]; try discriminate.
  destruct (truthy a) eqn:Ha; [| discriminate].
  now apply truthy_string_nonempty.
Qed.

End LoadFacts.

(** X6. Saving and loading a draft is a round trip for the reviewer's
    work: a page that was loaded and then edited, when it loads a draft
    whose request is the one it would send, has the same overrides in
    the same order and the same global overrides; its reviewer is the
    draft's [saved_by], its history the one entry of the draft, and it
    shows the console. *)
Theorem saved_draft_loads_back
    (rfpId0 : option string) (got0 : fetched DraftResponse.t)
    (changes : list Console.Edit) (id saved_at saved_by : string)
    (pipeline : RfpPipelineResult.t) :
  id <> "" ->
  let s := Console.edits changes (ReviewPage.loadDraft rfpId0 got0 ReviewPage.initial) in
  let draft := ReviewDraft.mk id saved_at saved_by (ReviewPage.saveRequest id s) in
  let s' :=
    ReviewPage.loadDraft (Some id) (Ok (inr (DraftResponse.mk (Some pipeline) (Some draft))))
      ReviewPage.initial in
  ReviewPage.overrides s' = ReviewPage.overrides s /\
  ReviewPage.globalOverrides s' = ReviewPage.globalOverrides s /\
  ReviewPage.reviewer s' = saved_by /\
  ReviewPage.draftHistory s' = [DraftStamp.mk saved_at saved_by] /\
  ReviewPageView.render s' = ReviewPageView.ConsoleScreen.
Proof.
  intros Hid s draft s'.
  assert (Hs : one_per_line s) by apply one_per_line_edits, one_per_line_loadDraft.
  destruct Hs as [Hnd Hk].
  subst s'. unfold ReviewPage.loadDraft. rewrite (noRfpId_some id Hid). simpl.
  rewrite (overrideMapOf_values _ Hnd Hk). repeat split.
Qed.

Lemma saved_draft_loads_back_witness :
  let s :=
    Console.edits [Console.SelectSku Sample.cable "SKU-B";
                   Console.SelectSku Sample.breaker "SKU-C";
                   Console.TypeManualPrice Sample.cable (Some 12.5%float)]
      (ReviewPage.loadDraft (Some "R1") (Rejected ThrownOther) ReviewPage.initial) in
  ReviewPage.overrides
    (ReviewPage.loadDraft (Some "R1")
       (Ok (inr (DraftResponse.mk
                   (Some (RfpPipelineResult.mk true "R1" "" "" "" "INR"
                            (TechnicalRecommendations.mk "R1" [Sample.cable; Sample.breaker])
                            (PricingOutput.mk "R1" [] (PricingTotals.mk 0 0 0)) undefined))
                   (Some (ReviewDraft.mk "R1" "2025-01-01T10:00:00Z" "Asha"
                            (ReviewPage.saveRequest "R1" s))))))
       ReviewPage.initial)
  = ReviewPage.overrides s.
Proof.
  intros s.
  assert (Hid : "R1" <> "") by discriminate.
  exact (proj1 (saved_draft_loads_back (Some "R1") (Rejected ThrownOther)
                  [Console.SelectSku Sample.cable "SKU-B";
                   Console.SelectSku Sample.breaker "SKU-C";
                   Console.TypeManualPrice Sample.cable (Some 12.5%float)]
                  "R1" "2025-01-01T10:00:00Z" "Asha" _ Hid)).
Defined.

(** X7. What the page shows once the draft request has come to an end.
    It stays on the spinner exactly when the route has an RFP id and
    the request, or the reading of its body, rejected with [undefined]
    or [null]: the [catch] then throws at [err.message], so that
    [setLoading(false)] is not reached and the page is as it was before
    the request.  It shows the console exactly when the route has an RFP
    id and the request was answered with a body that has a pipeline.
    In every other case it shows the error screen, with a message that
    is not empty; then either a body without a pipeline was read (the
    message is "Pipeline data not available") or the overrides, the
    reviewer and the history are still the initial ones. *)
Theorem load_outcome_decides_the_screen
    (rfpId : option string) (got : fetched DraftResponse.t) :
  let s := ReviewPage.loadDraft rfpId got ReviewPage.initial in
  (ReviewPageView.render s = ReviewPageView.Spinner <->
   ReviewPage.noRfpId rfpId = false /\
   (got = Rejected ThrownNullish \/ got = Ok (inl ThrownNullish))) /\
  (ReviewPageView.render s = ReviewPageView.Spinner -> s = ReviewPage.initial) /\
  (ReviewPageView.render s = ReviewPageView.ConsoleScreen <->
   ReviewPage.noRfpId rfpId = false /\
   exists pipeline draft, got = Ok (inr (DraftResponse.mk (Some pipeline) draft))) /\
  (forall message,
     ReviewPageView.render s = ReviewPageView.ErrorScreen message ->
     message <> "" /\
     ((exists draft,
         ReviewPage.noRfpId rfpId = false /\
         got = Ok (inr (DraftResponse.mk None draft)) /\
         message = "Pipeline data not available") \/
      (ReviewPage.overrides s = JsMap.empty /\
       ReviewPage.reviewer s = "" /\
       ReviewPage.draftHistory s = []))).
Proof.
  intros s. subst s. unfold ReviewPage.loadDraft.
  destruct (ReviewPage.noRfpId rfpId) eqn:Hid.
  { cbn. split; [split; [discriminate | intros [H _]; discriminate] |].
    split; [discriminate |]. split.
    - split; [discriminate | intros [H _]; discriminate].
    - intros message [= <-]. split; [discriminate |]. right. repeat split. }
  destruct got as [[[| c m] | |] | status detail | [[[| c m] | |] | [[pipeline |] [draft |]]]];
    cbn.
  all: split;
    [split;
     [first [discriminate | intros _; split; [reflexivity |]; (now left) || (now right)]
     | first [reflexivity | intros [_ [H | H]]; discriminate]] |].
  all: split; [first [discriminate | reflexivity] |].
  all: split;
    [split;
     [first [discriminate | intros _; split; [reflexivity |]; eauto]
     | first [reflexivity | intros [_ (p & d & H)]; discriminate]] |].
  all: intros message; first [discriminate | intros [= <-]; split; [discriminate |]].
  all: try (right; repeat split; fail).
  all: left; eexists; repeat split.
Qed.

(** X8. A draft that lists several overrides for one line loads the
    last of them: after the load a line maps to the last override of
    the draft with its [line_id] (to none if the draft has none), and
    the overrides the page would send back have distinct [line_id]s. *)
Theorem loaded_draft_keeps_the_last_override (l : list LineOverride.t) (lineId : string) :
  JsMap.get (ReviewPage.overrideMapOf l) lineId
    = Console.latest lineId (map (fun o => (LineOverride.line_id o, o)) l) /\
  List.NoDup (map LineOverride.line_id (JsMap.values (ReviewPage.overrideMapOf l))).
Proof.
  split.
  - unfold ReviewPage.overrideMapOf. rewrite fold_set_latest.
    now destruct (Console.latest lineId _).
  - destruct (one_per_line_overrideMapOf l) as [Hnd Hk]. now rewrite keyed_values.
Qed.

(** ** Approve and the requests of the bar *)

Section ApproveHandlerFacts.

Context {W : Type}.
Variable post_approve : string -> ReviewSaveRequest.t -> W -> fetched ApproveResponse.t * W.

Lemma handleApprove_cases (now : string) (rfpId : option string)
    (s : ReviewPage.state) (w : W) :
  match ReviewPage.handleApprove post_approve now rfpId s w with
  | (inr _, s', _) =>
      s' = ReviewPage.setApprovedBy (Some (trim (ReviewPage.reviewer s)))
             (ReviewPage.setApprovedAt (Some now) s)
  | (inl _, s', _) => s' = s
  end.
Proof.
  unfold ReviewPage.handleApprove.
  destruct (ReviewPage.noRfpId rfpId || negb (truthy (trim (ReviewPage.reviewer s))));
    [reflexivity |].
  destruct (post_approve _ _ w) as [[e | status detail | [e | result]] w'];
    reflexivity.
Qed.

End ApproveHandlerFacts.


Section RequestFacts.

Lemma save_click_log
    (answer : string -> ReviewSaveRequest.t -> fetched SaveResponse.t)
    (rfpId : option string) (bar : ApprovalBar.state)
    (s : ReviewPage.state) (log : list (string * ReviewSaveRequest.t)) :
  snd (snd (Console.clickSaveDraft (Session.recorded answer) rfpId bar (s, log))) =
  if ApprovalBar.saveDisabled (ReviewPage.reviewer s) bar || ReviewPage.noRfpId rfpId
  then log
  else (log ++ [(("/api/rfp/" ++ default "" rfpId ++ "/review/save")%string,
                 ReviewPage.saveRequest (default "" rfpId) s)])%list.
Proof.
  unfold Console.clickSaveDraft. cbn [fst].
  destruct (ApprovalBar.saveDisabled (ReviewPage.reviewer s) bar) eqn:Hd; [reflexivity |].
  unfold ApprovalBar.saveDisabled in Hd. apply orb_false_elim in Hd as [_ Hrev].
  unfold ApprovalBar.handleSaveDraft. rewrite Hrev.
  unfold Console.onSaveDraft, ReviewPage.handleSaveDraft. cbn [fst snd]. rewrite Hrev.
  destruct (ReviewPage.noRfpId rfpId); cbn; [reflexivity |].
  unfold Session.recorded.
  now destruct (answer _ _) as [e | status detail | [e | result]].
Qed.

Lemma approve_click_log
    (answer : string -> ReviewSaveRequest.t -> fetched ApproveResponse.t)
    (rfpId : option string) (now : string) (bar : ApprovalBar.state)
    (s : ReviewPage.state) (log : list (string * ReviewSaveRequest.t)) :
  snd (snd (Console.clickApprove (Session.recorded answer) rfpId now bar (s, log))) =
  if ApprovalBar.approveDisabled (ReviewPage.reviewer s) bar || ReviewPage.noRfpId rfpId
  then log
  else (log ++ [(("/api/rfp/" ++ default "" rfpId ++ "/review/approve")%string,
                 ReviewPage.saveRequest (default "" rfpId) s)])%list.
Proof.
  unfold Console.clickApprove. cbn [fst].
  destruct (ApprovalBar.approveDisabled (ReviewPage.reviewer s) bar) eqn:Hd;
    [reflexivity |].
  unfold ApprovalBar.approveDisabled in Hd. apply orb_false_elim in Hd as [_ Hrev].
  unfold ApprovalBar.handleApprove. rewrite Hrev.
  unfold Console.onApprove, ReviewPage.handleApprove. cbn [fst snd]. rewrite Hrev.
  destruct (ReviewPage.noRfpId rfpId); cbn; [reflexivity |].
  unfold Session.recorded.
  now destruct (answer _ _) as [e | status detail | [e | result]].
Qed.

End RequestFacts.

(** X11. With a network that records what it is sent: a click on
    "Save Draft" or "Approve Final" sends nothing when the button is
    disabled or the route has no RFP id, and otherwise exactly one
    request, to the save or approve path of that RFP, whose body names
    the RFP, carries the overrides of the page in the order of the map,
    its global overrides, no notes, and a reviewer that is not empty. *)
Theorem clicks_send_one_well_formed_request
    (answer_save : string -> ReviewSaveRequest.t -> fetched SaveResponse.t)
    (answer_approve : string -> ReviewSaveRequest.t -> fetched ApproveResponse.t)
    (rfpId : option string) (now : string) (bar : ApprovalBar.state)
    (s : ReviewPage.state) (log : list (string * ReviewSaveRequest.t)) :
  let saved_log :=
    snd (snd (Console.clickSaveDraft (Session.recorded answer_save) rfpId bar (s, log))) in
  let approved_log :=
    snd (snd (Console.clickApprove (Session.recorded answer_approve) rfpId now bar (s, log))) in
  (ApprovalBar.saveDisabled (ReviewPage.reviewer s) bar = true \/
   ReviewPage.noRfpId rfpId = true -> saved_log = log) /\
  (ApprovalBar.approveDisabled (ReviewPage.reviewer s) bar = true \/
   ReviewPage.noRfpId rfpId = true -> approved_log = log) /\
  (forall id,
     rfpId = Some id -> id <> "" ->
     let request :=
       ReviewSaveRequest.mk id (JsMap.values (ReviewPage.overrides s))
         (ReviewPage.globalOverrides s) (trim (ReviewPage.reviewer s)) null in
     (ApprovalBar.saveDisabled (ReviewPage.reviewer s) bar = false ->
      saved_log = (log ++ [(("/api/rfp/" ++ id ++ "/review/save")%string, request)])%list /\
      ReviewSaveRequest.reviewer request <> "") /\
     (ApprovalBar.approveDisabled (ReviewPage.reviewer s) bar = false ->
      approved_log
        = (log ++ [(("/api/rfp/" ++ id ++ "/review/approve")%string, request)])%list /\
      ReviewSaveRequest.reviewer request <> "")).
Proof.
  intros saved_log approved_log. subst saved_log approved_log.
  rewrite save_click_log, approve_click_log.
  split; [| split].
  - intros [-> | ->]; [reflexivity | now rewrite orb_true_r].
  - intros [-> | ->]; [reflexivity | now rewrite orb_true_r].
  - intros id -> Hid request. rewrite (noRfpId_some id Hid), !orb_false_r.
    split; intros Hd; rewrite Hd; (split; [reflexivity |]).
    + unfold ApprovalBar.saveDisabled in Hd. apply orb_false_elim in Hd as [_ Hrev].
      apply negb_false_iff in Hrev. now apply truthy_string_nonempty.
    + unfold ApprovalBar.approveDisabled in Hd. apply orb_false_elim in Hd as [_ Hrev].
      apply negb_false_iff in Hrev. now apply truthy_string_nonempty.
Qed.

Lemma clicks_send_one_well_formed_request_witness :
  snd (snd (Console.clickSaveDraft
              (Session.recorded (fun _ _ => NotOk 500 None)) (Some "R1")
              ApprovalBar.initial (Sample.page, [])))
  = [("/api/rfp/R1/review/save",
      ReviewSaveRequest.mk "R1"
        [LineOverride.mk "L3" (val "SKU-P") (val 300%float) null]
        (GlobalOverrides.mk undefined undefined undefined) "Asha" null)] /\
  snd (snd (Console.clickSaveDraft
              (Session.recorded (fun _ _ => NotOk 500 None)) (Some "R1")
              ApprovalBar.initial (Sample.blank_page, [])))
  = [].
Proof.
  assert (Hid : "R1" <> "") by discriminate.
  split.
  - exact (proj1 (proj1 (proj2 (proj2
             (clicks_send_one_well_formed_request
                (fun _ _ => NotOk 500 None) (fun _ _ => NotOk 500 None)
                (Some "R1") "" ApprovalBar.initial Sample.page []))
             "R1" eq_refl Hid) eq_refl)).
  - exact (proj1 (clicks_send_one_well_formed_request
                    (fun _ _ => NotOk 500 None) (fun _ _ => NotOk 500 None)
                    (Some "R1") "" ApprovalBar.initial Sample.blank_page [])
             (or_introl eq_refl)).
Defined.

(** ** Sessions *)

Section SessionFacts.

Context {W : Type}.
Variable post_recalculate :
  RecalculateRequest.t -> W -> fetched PricingRecalculateResponse.t * W.
Variable post_save : string -> ReviewSaveRequest.t -> W -> fetched SaveResponse.t * W.
Variable post_approve : string -> ReviewSaveRequest.t -> W -> fetched ApproveResponse.t * W.
Variable rfpId : option string.

Local Abbreviation step := (Session.step post_recalculate post_save post_approve rfpId).
Local Abbreviation run := (Session.run post_recalculate post_save post_approve rfpId).

Lemma handleRecalculate_cases (g : GlobalOverrides.t) (s : ReviewPage.state) (w : W) :
  match ReviewPage.handleRecalculate post_recalculate g s w with
  | (inr result, s', _) => s' = ReviewPage.setRecalculatedPricing (Some result) s
  | (inl _, s', _) => s' = s
  end.
Proof.
  unfold ReviewPage.handleRecalculate.
  destruct (ReviewPage.pipeline s) as [p |]; [| reflexivity].
  destruct (post_recalculate _ w) as [[e | status detail | [e | result]] w'];
    reflexivity.
Qed.

(** What a click on "Recalculate Pricing" comes to, by the outcome of
    the page's handler. *)
Lemma recalculate_click (c : Session.state) :
  PricingOverridePanel.recalculating (Session.panel c) = false ->
  step Session.ClickRecalculate c =
  match ReviewPage.handleRecalculate post_recalculate
          (ReviewPage.globalOverrides (Session.page c)) (Session.page c) (Session.world c)
  with
  | (inr result, s, w) =>
      Session.mk s
        (PricingOverridePanel.mk (Some result) false
           (match PricingRecalculateResponse.warnings result with
            | Some ws => ws
            | None => []
            end))
        (Session.bar c) w (Session.alerts c)
  | (inl _, s, w) =>
      Session.mk s
        (PricingOverridePanel.mk
           (PricingOverridePanel.recalculatedPricing (Session.panel c)) false [])
        (Session.bar c) w
        (Session.alerts c ++ ["Failed to recalculate pricing. Please check the console."])
  end.
Proof.
  intros Hidle. simpl. rewrite Hidle.
  unfold PricingOverridePanel.handleRecalculate, Session.onRecalculate. cbn [fst snd].
  destruct (ReviewPage.handleRecalculate _ _ _ _) as [[[e | result] s] w]; cbn.
  - reflexivity.
  - now destruct (PricingRecalculateResponse.warnings result).
Qed.

Lemma settled_step (e : Session.Event) (c : Session.state) :
  settled c -> settled (step e c).
Proof.
  intros (Hsv & Hap & Hrc & Hban & Hurl & Hagree & Hone).
  destruct e as [ed | text | typed | typed | | | now |].
  - (* a row is edited *)
    unfold settled. simpl. rewrite (edit_only_overrides ed (Session.page c)).
    repeat split; try assumption; try (now apply Hurl).
    + rewrite <- (edit_only_overrides ed (Session.page c)).
      now apply one_per_line_edit.
    + rewrite <- (edit_only_overrides ed (Session.page c)).
      now apply one_per_line_edit.
  - repeat split; try assumption; try (now apply Hurl); apply Hone.
  - repeat split; try assumption; try (now apply Hurl); apply Hone.
  - repeat split; try assumption; try (now apply Hurl); apply Hone.
  - (* recalculate *)
    rewrite (recalculate_click c Hrc).
    pose proof (handleRecalculate_cases
                  (ReviewPage.globalOverrides (Session.page c))
                  (Session.page c) (Session.world c)) as Hc.
    destruct (ReviewPage.handleRecalculate _ _ _ _) as [[[err | result] s] w];
      subst s; repeat split; try assumption; try (now apply Hurl); apply Hone.
  - (* save *)
    simpl. unfold Console.clickSaveDraft. cbn [fst].
    destruct (ApprovalBar.saveDisabled (ReviewPage.reviewer (Session.page c))
                (Session.bar c)) eqn:Hd.
    { repeat split; try assumption; try (now apply Hurl); apply Hone. }
    unfold ApprovalBar.saveDisabled in Hd. apply orb_false_elim in Hd as [_ Hrev].
    unfold ApprovalBar.handleSaveDraft. rewrite Hrev.
    unfold Console.onSaveDraft. cbn [fst snd].
    pose proof (handleSaveDraft_cases post_save rfpId (Session.page c) (Session.world c))
      as Hc.
    destruct (ReviewPage.handleSaveDraft _ _ _ _) as [[[err | u] s] w].
    + subst s. repeat split; try assumption; try (now apply Hurl); apply Hone.
    + destruct Hc as [stamp ->].
      repeat split; try assumption; try (now apply Hurl); apply Hone.
  - (* approve *)
    simpl. unfold Console.clickApprove. cbn [fst].
    destruct (ApprovalBar.approveDisabled (ReviewPage.reviewer (Session.page c))
                (Session.bar c)) eqn:Hd.
    { repeat split; try assumption; try (now apply Hurl); apply Hone. }
    unfold ApprovalBar.approveDisabled in Hd. apply orb_false_elim in Hd as [_ Hrev].
    unfold ApprovalBar.handleApprove. rewrite Hrev.
    unfold Console.onApprove. cbn [fst snd].
    pose proof (handleApprove_cases post_approve now rfpId (Session.page c)
                  (Session.world c)) as Hc.
    destruct (ReviewPage.handleApprove _ _ _ _ _) as [[[err | url] s] w]; subst s.
    + repeat split; try assumption; try discriminate; try (now apply Hurl); apply Hone.
    + repeat split; try assumption; try discriminate; apply Hone.
  - repeat split; try assumption; try (now apply Hurl); apply Hone.
Qed.

Lemma settled_opened (got : fetched DraftResponse.t) (w : W) :
  settled (Session.opened rfpId got w).
Proof.
  assert (Hnone : ReviewPage.recalculatedPricing
                    (ReviewPage.loadDraft rfpId got ReviewPage.initial) = None)
    by apply (loadDraft_keeps rfpId got ReviewPage.initial).
  unfold settled, Session.opened. cbn [Session.bar Session.panel Session.page].
  split; [reflexivity |]. split; [reflexivity |]. split; [reflexivity |].
  split; [discriminate |]. split; [intros H; now contradiction H |].
  split; [now rewrite Hnone | apply one_per_line_loadDraft].
Qed.

Lemma loaded_page_is_not_approved (got : fetched DraftResponse.t) :
  ReviewPage.approvedAt (ReviewPage.loadDraft rfpId got ReviewPage.initial) = None.
Proof. apply (loadDraft_keeps rfpId got ReviewPage.initial). Qed.

Lemma settled_run (events : list Session.Event) (c : Session.state) :
  settled c -> settled (run events c).
Proof.
  revert c. induction events as [| e r IH]; intros c Hc; simpl; [exact Hc |].
  apply IH. now apply settled_step.
Qed.

End SessionFacts.

(** ** Sessions with requests in flight *)

Section LiveFacts.

Context {W : Type}.
Variable post_recalculate :
  RecalculateRequest.t -> W -> fetched PricingRecalculateResponse.t * W.
Variable post_save : string -> ReviewSaveRequest.t -> W -> fetched SaveResponse.t * W.
Variable post_approve : string -> ReviewSaveRequest.t -> W -> fetched ApproveResponse.t * W.
Variable rfpId : option string.

Local Abbreviation live_step := (Live.step post_recalculate post_save post_approve rfpId).
Local Abbreviation live_run := (Live.run post_recalculate post_save post_approve rfpId).

(** With one request in flight when the flag is set and none when it
    is not, a response answers the one request there is. *)
Lemma one_in_flight {A : Type} (l : list A) (n : nat) (x : A) (flag : bool) :
  length l = busy flag -> l !! n = Some x ->
  l = [x] /\ n = 0 /\ flag = true /\ delete n l = [].
Proof.
  destruct l as [| a [| a' r]], flag, n as [| n]; simpl; try discriminate.
  intros _ [= ->]. repeat split.
Qed.

Lemma none_in_flight {A : Type} (l : list A) : length l = busy false -> l = [].
Proof. now destruct l. Qed.

Lemma coherent_step (e : Live.Event) (c : Live.state) :
  coherent c -> coherent (live_step e c).
Proof.
  intros (Hsv & Hap & Hrc & Hhist & Hban & Hurl & Hagree & Hone).
  assert (Hc : coherent c)
    by (repeat split; try assumption; apply Hurl || apply Hone; assumption).
  destruct e as [ed | text | typed | typed | | n | | n | | n now |].
  - (* a row is edited *)
    unfold coherent. simpl. rewrite (edit_only_overrides ed (Live.page c)).
    repeat split; try assumption; try (now apply Hurl).
    + rewrite <- (edit_only_overrides ed (Live.page c)). now apply one_per_line_edit.
    + rewrite <- (edit_only_overrides ed (Live.page c)). now apply one_per_line_edit.
  - repeat split; try assumption; try (now apply Hurl); apply Hone.
  - repeat split; try assumption; try (now apply Hurl); apply Hone.
  - repeat split; try assumption; try (now apply Hurl); apply Hone.
  - (* a click on recalculate *)
    simpl. destruct (PricingOverridePanel.recalculating (Live.panel c)) eqn:Hbusy;
      [exact Hc |].
    apply none_in_flight in Hrc.
    destruct (ReviewPage.pipeline (Live.page c)); simpl.
    + rewrite Hrc. repeat split; try assumption; try (now apply Hurl); apply Hone.
    + rewrite Hrc. repeat split; try assumption; try (now apply Hurl); apply Hone.
  - (* the response to a recalculate *)
    simpl. destruct (Live.recalculateInFlight c !! n) as [captured |] eqn:Hin;
      [| exact Hc].
    destruct (one_in_flight _ _ _ _ Hrc Hin) as (_ & _ & _ & Hnone).
    pose proof (handleRecalculate_cases post_recalculate
                  (ReviewPage.globalOverrides captured) captured (Live.world c)) as Hcases.
    destruct (ReviewPage.handleRecalculate _ _ _ _) as [[[err | result] s] w].
    + simpl. rewrite Hnone.
      repeat split; try assumption; try (now apply Hurl); apply Hone.
    + subst s. simpl. rewrite Hnone.
      destruct (PricingRecalculateResponse.warnings result);
        repeat split; try assumption; try (now apply Hurl); apply Hone.
  - (* a click on save *)
    simpl.
    destruct (ApprovalBar.saveDisabled (ReviewPage.reviewer (Live.page c)) (Live.bar c))
      eqn:Hd; [exact Hc |].
    unfold ApprovalBar.saveDisabled in Hd. apply orb_false_elim in Hd as [Hidle _].
    rewrite Hidle in Hsv. apply none_in_flight in Hsv.
    destruct (Live.throwsAtOnce rfpId (Live.page c)); simpl; rewrite Hsv.
    + repeat split; try assumption; try (now apply Hurl); try apply Hone.
      intros captured [].
    + repeat split; try assumption; try (now apply Hurl); try apply Hone.
      intros captured [<- | []]. reflexivity.
  - (* the response to a save *)
    simpl. destruct (Live.saveInFlight c !! n) as [captured |] eqn:Hin; [| exact Hc].
    destruct (one_in_flight _ _ _ _ Hsv Hin) as (_ & _ & _ & Hnone).
    pose proof (handleSaveDraft_cases post_save rfpId captured (Live.world c)) as Hcases.
    destruct (ReviewPage.handleSaveDraft _ _ _ _) as [[[err | u] s] w]; simpl;
      rewrite Hnone.
    + repeat split; try assumption; try (now apply Hurl); try apply Hone.
      intros captured' [].
    + destruct Hcases as [stamp ->].
      repeat split; try assumption; try (now apply Hurl); try apply Hone.
      intros captured' [].
  - (* a click on approve *)
    simpl.
    destruct (ApprovalBar.approveDisabled (ReviewPage.reviewer (Live.page c)) (Live.bar c))
      eqn:Hd; [exact Hc |].
    unfold ApprovalBar.approveDisabled in Hd. apply orb_false_elim in Hd as [Hidle _].
    rewrite Hidle in Hap. apply none_in_flight in Hap.
    destruct (Live.throwsAtOnce rfpId (Live.page c)); simpl; rewrite Hap.
    + repeat split; try assumption; try discriminate; try (now apply Hurl); apply Hone.
    + repeat split; try assumption; try discriminate; try (now apply Hurl); apply Hone.
  - (* the response to an approve *)
    simpl. destruct (Live.approveInFlight c !! n) as [captured |] eqn:Hin; [| exact Hc].
    destruct (one_in_flight _ _ _ _ Hap Hin) as (_ & _ & _ & Hnone).
    pose proof (handleApprove_cases post_approve now rfpId captured (Live.world c))
      as Hcases.
    destruct (ReviewPage.handleApprove _ _ _ _ _) as [[[err | url] s] w]; subst s; simpl;
      rewrite Hnone.
    + repeat split; try assumption; try discriminate; try (now apply Hurl); apply Hone.
    + repeat split; try assumption; try discriminate; apply Hone.
  - repeat split; try assumption; try (now apply Hurl); apply Hone.
Qed.

Lemma coherent_opened (got : fetched DraftResponse.t) (w : W) :
  coherent (Live.opened rfpId got w).
Proof.
  pose proof (loadDraft_keeps rfpId got ReviewPage.initial) as (Hnone & _).
  unfold coherent, Live.opened.
  cbn [Live.bar Live.panel Live.page Live.saveInFlight Live.approveInFlight
       Live.recalculateInFlight].
  split; [reflexivity |]. split; [reflexivity |]. split; [reflexivity |].
  split; [intros captured [] |]. split; [discriminate |].
  split; [intros H; now contradiction H |].
  split; [now rewrite Hnone | apply one_per_line_loadDraft].
Qed.

Lemma coherent_run (events : list Live.Event) (c : Live.state) :
  coherent c -> coherent (live_run events c).
Proof.
  revert c. induction events as [| e r IH]; intros c Hc; simpl; [exact Hc |].
  apply IH. now apply coherent_step.
Qed.

(** No event takes an entry from the draft history: a response to a
    save adds its entry to the history as it is, which is the history
    its handler holds. *)
Lemma live_step_history (e : Live.Event) (c : Live.state) :
  coherent c ->
  exists more,
    ReviewPage.draftHistory (Live.page (live_step e c))
      = (ReviewPage.draftHistory (Live.page c) ++ more)%list.
Proof.
  intros (Hsv & _ & _ & Hhist & _).
  assert (Hsame : forall s : ReviewPage.state,
             ReviewPage.draftHistory s = ReviewPage.draftHistory (Live.page c) ->
             exists more,
               ReviewPage.draftHistory s
                 = (ReviewPage.draftHistory (Live.page c) ++ more)%list).
  { intros s ->. exists []. now rewrite app_nil_r. }
  destruct e as [ed | text | typed | typed | | n | | n | | n now |]; simpl.
  - apply Hsame. now rewrite (edit_only_overrides ed (Live.page c)).
  - now apply Hsame.
  - now apply Hsame.
  - now apply Hsame.
  - destruct (PricingOverridePanel.recalculating (Live.panel c)); [now apply Hsame |].
    destruct (ReviewPage.pipeline (Live.page c)); now apply Hsame.
  - destruct (Live.recalculateInFlight c !! n) as [captured |]; [| now apply Hsame].
    destruct (ReviewPage.handleRecalculate _ _ _ _) as [[[err | result] s] w];
      simpl; [now apply Hsame |].
    destruct (PricingRecalculateResponse.warnings result); now apply Hsame.
  - destruct (ApprovalBar.saveDisabled _ _); [now apply Hsame |].
    destruct (Live.throwsAtOnce rfpId (Live.page c)); now apply Hsame.
  - destruct (Live.saveInFlight c !! n) as [captured |] eqn:Hin; [| now apply Hsame].
    pose proof (handleSaveDraft_cases post_save rfpId captured (Live.world c)) as Hcases.
    destruct (ReviewPage.handleSaveDraft _ _ _ _) as [[[err | u] s] w]; simpl.
    + now apply Hsame.
    + destruct Hcases as [stamp ->]. exists [stamp]. simpl.
      destruct (one_in_flight _ _ _ _ Hsv Hin) as (Hl & _).
      rewrite (Hhist captured); [reflexivity |]. rewrite Hl. now left.
  - destruct (ApprovalBar.approveDisabled _ _); [now apply Hsame |].
    destruct (Live.throwsAtOnce rfpId (Live.page c)); now apply Hsame.
  - destruct (Live.approveInFlight c !! n) as [captured |]; [| now apply Hsame].
    destruct (ReviewPage.handleApprove _ _ _ _ _) as [[[err | url] s] w]; simpl;
      now apply Hsame.
  - now apply Hsame.
Qed.

Lemma live_run_history (events : list Live.Event) (c : Live.state) :
  coherent c ->
  exists more,
    ReviewPage.draftHistory (Live.page (live_run events c))
      = (ReviewPage.draftHistory (Live.page c) ++ more)%list.
Proof.
  revert c. induction events as [| e r IH]; intros c Hc.
  - exists []. simpl. now rewrite app_nil_r.
  - destruct (IH (live_step e c) (coherent_step e c Hc)) as [more2 H2].
    destruct (live_step_history e c Hc) as [more1 H1].
    exists (more1 ++ more2)%list. rewrite app_assoc, <- H1. exact H2.
Qed.

(** A click with its response right behind it is the whole handler. *)
Lemma answered_step (e : Session.Event) (c : Live.state) :
  idle c ->
  idle (live_run (Live.answered e) c) /\
  Live.atRest (live_run (Live.answered e) c)
    = Session.step post_recalculate post_save post_approve rfpId e (Live.atRest c).
Proof.
  intros (Hrc & Hsv & Hap).
  assert (Hc : idle c) by (repeat split; assumption).
  destruct e as [ed | text | typed | typed | | | now |];
    try (split; [exact Hc | reflexivity]).
  - (* recalculate *)
    cbn [Live.answered Live.run fold_left Live.step Session.step Live.atRest
         Session.panel Session.page Session.world Session.bar Session.alerts].
    destruct (PricingOverridePanel.recalculating (Live.panel c)) eqn:Hbusy.
    { cbn [Live.step]. rewrite Hrc. split; [exact Hc | reflexivity]. }
    unfold PricingOverridePanel.handleRecalculate, Session.onRecalculate,
      ReviewPage.handleRecalculate. cbn [fst snd].
    destruct (ReviewPage.pipeline (Live.page c)) as [p |] eqn:Hp.
    + cbn [Live.step Live.recalculateInFlight Live.page Live.world Live.panel Live.bar
           Live.alerts Live.saveInFlight Live.approveInFlight].
      rewrite Hrc. cbn [app lookup list_lookup].
      unfold ReviewPage.handleRecalculate. rewrite Hp.
      destruct (post_recalculate _ (Live.world c))
        as [[err | status detail | [err | result]] w'];
        cbn; (split; [repeat split; assumption | reflexivity]).
    + cbn. rewrite Hrc. split; [repeat split; assumption | reflexivity].
  - (* save *)
    cbn [Live.answered Live.run fold_left Live.step Session.step Live.atRest
         Session.panel Session.page Session.world Session.bar Session.alerts].
    unfold Console.clickSaveDraft. cbn [fst snd].
    destruct (ApprovalBar.saveDisabled (ReviewPage.reviewer (Live.page c)) (Live.bar c))
      eqn:Hd.
    { cbn [Live.step]. rewrite Hsv. split; [exact Hc | reflexivity]. }
    unfold ApprovalBar.saveDisabled in Hd. apply orb_false_elim in Hd as [_ Hrev].
    unfold ApprovalBar.handleSaveDraft, Console.onSaveDraft. rewrite Hrev. cbn [fst snd].
    unfold Live.throwsAtOnce.
    destruct (ReviewPage.noRfpId rfpId || negb (truthy (trim (ReviewPage.reviewer (Live.page c)))))
      eqn:Hthrows.
    + cbn [Live.step Live.saveInFlight]. rewrite Hsv.
      unfold ReviewPage.handleSaveDraft. rewrite Hthrows.
      split; [repeat split; assumption | reflexivity].
    + cbn [Live.step Live.recalculateInFlight Live.page Live.world Live.panel Live.bar
           Live.alerts Live.saveInFlight Live.approveInFlight].
      rewrite Hsv. cbn [app lookup list_lookup].
      pose proof (handleSaveDraft_cases post_save rfpId (Live.page c) (Live.world c))
        as Hcases.
      destruct (ReviewPage.handleSaveDraft post_save rfpId (Live.page c) (Live.world c))
        as [[[err | u] s] w'].
      * subst s. split; [repeat split; assumption | reflexivity].
      * destruct Hcases as [stamp ->].
        split; [repeat split; assumption | reflexivity].
  - (* approve *)
    cbn [Live.answered Live.run fold_left Live.step Session.step Live.atRest
         Session.panel Session.page Session.world Session.bar Session.alerts].
    unfold Console.clickApprove. cbn [fst snd].
    destruct (ApprovalBar.approveDisabled (ReviewPage.reviewer (Live.page c)) (Live.bar c))
      eqn:Hd.
    { cbn [Live.step]. rewrite Hap. split; [exact Hc | reflexivity]. }
    unfold ApprovalBar.approveDisabled in Hd. apply orb_false_elim in Hd as [_ Hrev].
    unfold ApprovalBar.handleApprove, Console.onApprove. rewrite Hrev. cbn [fst snd].
    unfold Live.throwsAtOnce.
    destruct (ReviewPage.noRfpId rfpId || negb (truthy (trim (ReviewPage.reviewer (Live.page c)))))
      eqn:Hthrows.
    + cbn [Live.step Live.approveInFlight]. rewrite Hap.
      unfold ReviewPage.handleApprove. rewrite Hthrows.
      split; [repeat split; assumption | reflexivity].
    + cbn [Live.step Live.recalculateInFlight Live.page Live.world Live.panel Live.bar
           Live.alerts Live.saveInFlight Live.approveInFlight].
      rewrite Hap. cbn [app lookup list_lookup].
      pose proof (handleApprove_cases post_approve now rfpId (Live.page c) (Live.world c))
        as Hcases.
      destruct (ReviewPage.handleApprove post_approve now rfpId (Live.page c) (Live.world c))
        as [[[err | url] s] w']; subst s;
        (split; [repeat split; assumption | reflexivity]).
Qed.

Lemma answered_run (events : list Session.Event) (c : Live.state) :
  idle c ->
  Live.atRest (live_run (concat (map Live.answered events)) c)
    = Session.run post_recalculate post_save post_approve rfpId events (Live.atRest c).
Proof.
  revert c. induction events as [| e r IH]; intros c Hc; [reflexivity |].
  cbn [map concat]. unfold Live.run. rewrite fold_left_app.
  destruct (answered_step e c Hc) as [Hidle Hstep].
  fold (live_run (Live.answered e) c).
  fold (live_run (concat (map Live.answered r)) (live_run (Live.answered e) c)).
  rewrite (IH _ Hidle), Hstep. reflexivity.
Qed.

End LiveFacts.

(** X12. The review page with its requests in flight.  Whatever the
    servers answer, whatever the reviewer does once the draft request
    has come to an end (edits of rows, of the reviewer name, of margin
    and tax, clicks on recalculate, save and approve) and in whatever
    order the responses and the expiry of the saved banner come in
    between: of each kind of request exactly one is in flight while
    "Saving...", "Approving..." or "Recalculating..." is up and none
    when it is not, so never two of a kind; a save in flight holds the
    draft history as it still is, so that its response adds to the
    history without losing an entry; the approved banner is only shown
    when the bar holds an export reference, and the bar holds one only
    on a page marked approved; the overrides that would be submitted
    have distinct [line_id]s; and the draft history has only grown: the
    entries it had when the page loaded are still its first entries. *)
Theorem session_stays_consistent
    {W : Type}
    (post_recalculate :
       RecalculateRequest.t -> W -> fetched PricingRecalculateResponse.t * W)
    (post_save : string -> ReviewSaveRequest.t -> W -> fetched SaveResponse.t * W)
    (post_approve : string -> ReviewSaveRequest.t -> W -> fetched ApproveResponse.t * W)
    (rfpId : option string) (got : fetched DraftResponse.t) (w : W)
    (events : list Live.Event) :
  let c0 := Live.opened rfpId got w in
  let c := Live.run post_recalculate post_save post_approve rfpId events c0 in
  length (Live.saveInFlight c) = (if ApprovalBar.saving (Live.bar c) then 1 else 0) /\
  length (Live.approveInFlight c) = (if ApprovalBar.approving (Live.bar c) then 1 else 0) /\
  length (Live.recalculateInFlight c)
    = (if PricingOverridePanel.recalculating (Live.panel c) then 1 else 0) /\
  (forall captured,
     In captured (Live.saveInFlight c) ->
     ReviewPage.draftHistory captured = ReviewPage.draftHistory (Live.page c)) /\
  (ApprovalBar.approveSuccess (Live.bar c) = true ->
   ApprovalBar.exportUrl (Live.bar c) <> None) /\
  (ApprovalBar.exportUrl (Live.bar c) <> None ->
   ReviewPage.approvedAt (Live.page c) <> None /\
   ReviewPage.approvedBy (Live.page c) <> None) /\
  List.NoDup (map LineOverride.line_id (JsMap.values (ReviewPage.overrides (Live.page c)))) /\
  exists more,
    ReviewPage.draftHistory (Live.page c)
      = (ReviewPage.draftHistory (Live.page c0) ++ more)%list.
Proof.
  intros c0 c.
  assert (Hc : coherent c) by apply coherent_run, coherent_opened.
  destruct Hc as (Hsv & Hap & Hrc & Hhist & Hban & Hurl & _ & Hnd & Hk).
  split; [exact Hsv |]. split; [exact Hap |]. split; [exact Hrc |].
  split; [exact Hhist |]. split; [exact Hban |]. split; [exact Hurl |]. split.
  - now rewrite keyed_values.
  - apply live_run_history, coherent_opened.
Qed.

(** X20. A session in which every response comes before the next
    event is a session of whole handlers: with each click followed at
    once by its response, the page, the panel, the bar, the server and
    the alerts of the session with requests in flight are those which
    the handlers run as a whole give, event by event. *)
Theorem responses_at_once_give_the_whole_handlers
    {W : Type}
    (post_recalculate :
       RecalculateRequest.t -> W -> fetched PricingRecalculateResponse.t * W)
    (post_save : string -> ReviewSaveRequest.t -> W -> fetched SaveResponse.t * W)
    (post_approve : string -> ReviewSaveRequest.t -> W -> fetched ApproveResponse.t * W)
    (rfpId : option string) (got : fetched DraftResponse.t) (w : W)
    (events : list Session.Event) :
  Live.atRest
    (Live.run post_recalculate post_save post_approve rfpId
       (concat (map Live.answered events)) (Live.opened rfpId got w))
  = Session.run post_recalculate post_save post_approve rfpId events
      (Session.opened rfpId got w).
Proof.
  rewrite (answered_run post_recalculate post_save post_approve rfpId events
             (Live.opened rfpId got w)); [reflexivity |].
  repeat split.
Qed.

(** X13. The pricing panel and the page keep the same recalculated
    pricing, so the totals of the panel's preview are the totals the
    page hands to the price chart.  A click on "Recalculate Pricing"
    that is answered with a result makes that result the pricing of
    both, shows its warnings (none if it has none) and raises no alert;
    one that fails (no pipeline data, no answer, an answer that is not
    ok or has no readable body) leaves the page and the preview as they
    were, clears the warnings and raises one alert. *)
Theorem panel_and_page_show_the_same_pricing
    {W : Type}
    (post_recalculate :
       RecalculateRequest.t -> W -> fetched PricingRecalculateResponse.t * W)
    (post_save : string -> ReviewSaveRequest.t -> W -> fetched SaveResponse.t * W)
    (post_approve : string -> ReviewSaveRequest.t -> W -> fetched ApproveResponse.t * W)
    (rfpId : option string) (got : fetched DraftResponse.t) (w : W)
    (events : list Session.Event) :
  let c :=
    Session.run post_recalculate post_save post_approve rfpId events
      (Session.opened rfpId got w) in
  let c' :=
    Session.step post_recalculate post_save post_approve rfpId Session.ClickRecalculate c in
  (forall pipeline,
     ReviewPageView.priceTotals (Session.page c) pipeline
       = PricingOverridePanel.displayTotals (RfpPipelineResult.pricing pipeline)
           (Session.panel c)) /\
  match
    fst (fst (ReviewPage.handleRecalculate post_recalculate
                (ReviewPage.globalOverrides (Session.page c))
                (Session.page c) (Session.world c)))
  with
  | inr result =>
      ReviewPage.recalculatedPricing (Session.page c') = Some result /\
      PricingOverridePanel.recalculatedPricing (Session.panel c') = Some result /\
      PricingOverridePanel.warnings (Session.panel c')
        = default [] (PricingRecalculateResponse.warnings result) /\
      Session.alerts c' = Session.alerts c
  | inl _ =>
      Session.page c' = Session.page c /\
      PricingOverridePanel.recalculatedPricing (Session.panel c')
        = PricingOverridePanel.recalculatedPricing (Session.panel c) /\
      PricingOverridePanel.warnings (Session.panel c') = [] /\
      Session.alerts c'
        = (Session.alerts c ++
             ["Failed to recalculate pricing. Please check the console."])%list
  end.
Proof.
  intros c c'.
  assert (Hc : settled c) by apply settled_run, settled_opened.
  destruct Hc as (_ & _ & Hrc & _ & _ & Hagree & _).
  split.
  - intros pipeline. unfold ReviewPageView.priceTotals, PricingOverridePanel.displayTotals.
    now rewrite Hagree.
  - subst c'. rewrite (recalculate_click post_recalculate post_save post_approve rfpId c Hrc).
    pose proof (handleRecalculate_cases post_recalculate
                  (ReviewPage.globalOverrides (Session.page c))
                  (Session.page c) (Session.world c)) as Hcases.
    destruct (ReviewPage.handleRecalculate _ _ _ _) as [[[err | result] s] w1];
      subst s; cbn; repeat split.
Qed.

(** ** The theme *)

Section ThemeFacts.

Import ThemeContext.

Lemma getInitialTheme_persist (t : ThemeMode) (st : Storage.t) :
  working st -> getInitialTheme (persist t st) = t.
Proof.
  intros (Hd & Hg & Hs). unfold getInitialTheme, persist.
  rewrite Hd, Hs, Hg. cbn. rewrite get_set_eq.
  now destruct t.
Qed.

Lemma persist_flags (t : ThemeMode) (st : Storage.t) :
  Storage.defined (persist t st) = Storage.defined st /\
  Storage.getThrows (persist t st) = Storage.getThrows st /\
  Storage.setThrows (persist t st) = Storage.setThrows st.
Proof.
  unfold persist. now destruct (Storage.defined st && negb (Storage.setThrows st)).
Qed.

Lemma step_flags (e : Event) (s : state) :
  Storage.defined (storage (step e s)) = Storage.defined (storage s) /\
  Storage.getThrows (storage (step e s)) = Storage.getThrows (storage s) /\
  Storage.setThrows (storage (step e s)) = Storage.setThrows (storage s).
Proof. destruct e; simpl; [apply persist_flags | auto]. Qed.

Lemma run_flags (events : list Event) (s : state) :
  Storage.defined (storage (run events s)) = Storage.defined (storage s) /\
  Storage.getThrows (storage (run events s)) = Storage.getThrows (storage s) /\
  Storage.setThrows (storage (run events s)) = Storage.setThrows (storage s).
Proof.
  revert s. induction events as [| e r IH]; intros s; [auto |].
  change (run (e :: r) s) with (run r (step e s)).
  destruct (IH (step e s)) as (H1 & H2 & H3), (step_flags e s) as (G1 & G2 & G3).
  repeat split; congruence.
Qed.

Lemma run_stored (events : list Event) (s : state) :
  working (storage s) ->
  getInitialTheme (storage s) = theme s ->
  getInitialTheme (storage (run events s)) = theme (run events s).
Proof.
  revert s. induction events as [| e r IH]; intros s Hw Hs; [exact Hs |].
  change (run (e :: r) s) with (run r (step e s)). apply IH.
  - destruct Hw as (Hd & Hg & Hst), (step_flags e s) as (G1 & G2 & G3).
    repeat split; congruence.
  - destruct e as [t | b]; simpl; [now apply getInitialTheme_persist | exact Hs].
Qed.

Lemma in_classAdd (c : string) (l : list string) : In c (classAdd c l).
Proof.
  unfold classAdd. destruct (existsb (String.eqb c) l) eqn:E.
  - apply existsb_exists in E as (x & Hin & Hx). apply String.eqb_eq in Hx. now subst x.
  - apply in_or_app. right. now left.
Qed.

Lemma not_in_classRemove (c : string) (l : list string) : ~ In c (classRemove c l).
Proof.
  unfold classRemove. intros H. apply filter_In in H as [_ H].
  now rewrite String.eqb_refl in H.
Qed.

Lemma classRemove_classAdd (c : string) (l : list string) :
  classRemove c (classAdd c l) = classRemove c l.
Proof.
  unfold classAdd. destruct (existsb (String.eqb c) l); [reflexivity |].
  unfold classRemove. rewrite List.filter_app. simpl.
  rewrite String.eqb_refl. simpl. apply app_nil_r.
Qed.

Lemma classRemove_idempotent (c : string) (l : list string) :
  classRemove c (classRemove c l) = classRemove c l.
Proof.
  unfold classRemove. induction l as [| x r IH]; simpl; [reflexivity |].
  destruct (negb (String.eqb c x)) eqn:E; simpl; [rewrite E; now f_equal | exact IH].
Qed.

Lemma nodup_classAdd (c : string) (l : list string) :
  List.NoDup l -> List.NoDup (classAdd c l).
Proof.
  intros Hnd. unfold classAdd. destruct (existsb (String.eqb c) l) eqn:E; [exact Hnd |].
  apply List.NoDup_app; [exact Hnd | constructor; [simpl; tauto | constructor] |].
  intros x Hin [Hx | []]. subst x.
  assert (Hex : existsb (String.eqb c) l = true).
  { apply existsb_exists. exists c. split; [exact Hin | apply String.eqb_refl]. }
  congruence.
Qed.

(** What the effect leaves on the root. *)
Lemma applyTheme_root (s : state) :
  (In "dark" (Root.classList (root (applyTheme s))) <-> isDark s = true) /\
  Root.dataTheme (root (applyTheme s)) = Some (name (theme s)) /\
  classRemove "dark" (Root.classList (root (applyTheme s)))
    = classRemove "dark" (Root.classList (root s)) /\
  (List.NoDup (Root.classList (root s)) ->
   List.NoDup (Root.classList (root (applyTheme s)))).
Proof.
  unfold applyTheme. simpl. destruct (isDark s) eqn:E.
  - split; [split; [reflexivity | intros _; apply in_classAdd] |].
    split; [reflexivity |]. split; [apply classRemove_classAdd | apply nodup_classAdd].
  - split; [split; [intros H; now apply not_in_classRemove in H | discriminate] |].
    split; [reflexivity |]. split; [apply classRemove_idempotent |].
    intros Hnd. unfold classRemove. now apply List.NoDup_filter.
Qed.

Lemma isDark_applyTheme (s : state) :
  isDark (applyTheme s) = isDark s /\ theme (applyTheme s) = theme s.
Proof. split; reflexivity. Qed.

(** The root after any event, in terms of the root before it. *)
Lemma step_root (e : Event) (s : state) :
  (In "dark" (Root.classList (root (step e s))) <-> isDark (step e s) = true) /\
  Root.dataTheme (root (step e s)) = Some (name (theme (step e s))) /\
  classRemove "dark" (Root.classList (root (step e s)))
    = classRemove "dark" (Root.classList (root s)) /\
  (List.NoDup (Root.classList (root s)) ->
   List.NoDup (Root.classList (root (step e s)))).
Proof.
  destruct e as [t | b]; simpl.
  - exact (applyTheme_root (mk t (prefersDark s) (persist t (storage s)) (root s))).
  - exact (applyTheme_root (mk (theme s) b (storage s) (root s))).
Qed.

Lemma run_root (events : list Event) (s : state) :
  ((In "dark" (Root.classList (root s)) <-> isDark s = true) /\
   Root.dataTheme (root s) = Some (name (theme s))) ->
  ((In "dark" (Root.classList (root (run events s))) <-> isDark (run events s) = true) /\
   Root.dataTheme (root (run events s)) = Some (name (theme (run events s)))) /\
  classRemove "dark" (Root.classList (root (run events s)))
    = classRemove "dark" (Root.classList (root s)) /\
  (List.NoDup (Root.classList (root s)) ->
   List.NoDup (Root.classList (root (run events s)))).
Proof.
  revert s. induction events as [| e r IH]; intros s Hs; [auto |].
  change (run (e :: r) s) with (run r (step e s)).
  destruct (step_root e s) as (H1 & H2 & H3 & H4).
  destruct (IH (step e s) (conj H1 H2)) as (G1 & G3 & G4).
  split; [exact G1 |]. split; [congruence | auto].
Qed.

End ThemeFacts.

(** X14. The theme the user last chose survives a reload: with a
    storage that works, after the provider has mounted and after any
    sequence of theme choices and changes of the system preference,
    what [getInitialTheme] reads back from the storage is the theme in
    use, so a provider mounted on that storage starts with it.  With a
    storage that is undefined or throws on reading, a reload always
    starts with "system", whatever was chosen. *)
Theorem theme_choice_survives_reload
    (st : ThemeContext.Storage.t) (systemDark : bool) (r : ThemeContext.Root.t)
    (events : list ThemeContext.Event) :
  let s := ThemeContext.run events (ThemeContext.mount st systemDark r) in
  (working st ->
   ThemeContext.getInitialTheme (ThemeContext.storage s) = ThemeContext.theme s /\
   forall systemDark' r',
     ThemeContext.theme (ThemeContext.mount (ThemeContext.storage s) systemDark' r')
       = ThemeContext.theme s) /\
  (ThemeContext.Storage.defined st = false \/ ThemeContext.Storage.getThrows st = true ->
   ThemeContext.getInitialTheme (ThemeContext.storage s) = ThemeContext.system).
Proof.
  intros s. split.
  - intros Hw.
    assert (H : ThemeContext.getInitialTheme (ThemeContext.storage s)
                = ThemeContext.theme s).
    { subst s. apply run_stored; [exact Hw | reflexivity]. }
    split; [exact H |]. intros systemDark' r'. exact H.
  - intros Hbad. subst s.
    destruct (run_flags events (ThemeContext.mount st systemDark r)) as (Hd & Hg & _).
    unfold ThemeContext.getInitialTheme. rewrite Hd, Hg. simpl.
    destruct Hbad as [-> | ->]; [reflexivity | now rewrite andb_false_r].
Qed.

Lemma theme_choice_survives_reload_witness :
  let st := ThemeContext.Storage.mk true false false [("rfp_ignite_theme", "neon")] in
  let s :=
    ThemeContext.run
      [ThemeContext.SetTheme ThemeContext.dark; ThemeContext.SystemPreference false]
      (ThemeContext.mount st true (ThemeContext.Root.mk ["app"] None)) in
  ThemeContext.theme (ThemeContext.mount st true (ThemeContext.Root.mk ["app"] None))
    = ThemeContext.system /\
  ThemeContext.getInitialTheme (ThemeContext.storage s) = ThemeContext.dark.
Proof.
  intros st s. split; [reflexivity |].
  assert (Hw : working st) by (repeat split).
  exact (proj1 (proj1 (theme_choice_survives_reload st true
                         (ThemeContext.Root.mk ["app"] None)
                         [ThemeContext.SetTheme ThemeContext.dark;
                          ThemeContext.SystemPreference false]) Hw)).
Defined.

(** X15. After the provider has mounted and after any sequence of
    theme choices and changes of the system preference, the root has
    the class "dark" exactly when the effective theme is dark (the
    theme is "dark", or it is "system" and the system prefers dark),
    its [data-theme] names the theme, its other classes are the ones it
    had, and no class is listed twice if none was. *)
Theorem dark_class_follows_the_theme
    (st : ThemeContext.Storage.t) (systemDark : bool) (r : ThemeContext.Root.t)
    (events : list ThemeContext.Event) :
  let s := ThemeContext.run events (ThemeContext.mount st systemDark r) in
  (In "dark" (ThemeContext.Root.classList (ThemeContext.root s))
   <-> ThemeContext.isDark s = true) /\
  ThemeContext.Root.dataTheme (ThemeContext.root s)
    = Some (ThemeContext.name (ThemeContext.theme s)) /\
  ThemeContext.classRemove "dark" (ThemeContext.Root.classList (ThemeContext.root s))
    = ThemeContext.classRemove "dark" (ThemeContext.Root.classList r) /\
  (List.NoDup (ThemeContext.Root.classList r) ->
   List.NoDup (ThemeContext.Root.classList (ThemeContext.root s))).
Proof.
  intros s. subst s. unfold ThemeContext.mount.
  set (s0 := ThemeContext.mk (ThemeContext.getInitialTheme st) systemDark st r).
  destruct (applyTheme_root s0) as (H1 & H2 & H3 & H4).
  destruct (run_root events (ThemeContext.applyTheme s0) (conj H1 H2))
    as ((G1 & G2) & G3 & G4).
  split; [exact G1 |]. split; [exact G2 |]. split; [now rewrite G3, H3 |].
  intros Hnd. apply G4, H4, Hnd.
Qed.

Lemma dark_class_follows_the_theme_witness :
  ThemeContext.Root.classList
    (ThemeContext.root
       (ThemeContext.run
          [ThemeContext.SetTheme ThemeContext.dark;
           ThemeContext.SetTheme ThemeContext.dark;
           ThemeContext.SetTheme ThemeContext.system]
          (ThemeContext.mount (ThemeContext.Storage.mk false false false []) false
             (ThemeContext.Root.mk ["app"; "dark"] None))))
    = ["app"] /\
  List.NoDup
    (ThemeContext.Root.classList
       (ThemeContext.root
          (ThemeContext.run
             [ThemeContext.SetTheme ThemeContext.dark;
              ThemeContext.SetTheme ThemeContext.dark]
             (ThemeContext.mount (ThemeContext.Storage.mk false false false []) false
                (ThemeContext.Root.mk ["app"; "dark"] None))))).
Proof.
  split; [reflexivity |].
  apply (dark_class_follows_the_theme (ThemeContext.Storage.mk false false false []) false
           (ThemeContext.Root.mk ["app"; "dark"] None)
           [ThemeContext.SetTheme ThemeContext.dark;
            ThemeContext.SetTheme ThemeContext.dark]).
  simpl. repeat constructor; simpl; intuition discriminate.
Defined.

(** ** The dashboard *)

(* The cases of a run that threw: no results, and the banner or the
   empty state by the message. *)
Ltac shown_after_error :=
  split; [split; [discriminate | intros (? & ? & _); discriminate] |];
  split; [discriminate |];
  split; [intros ? ? ?; first [reflexivity | discriminate] |];
  split; [intros ? ? ?; first [reflexivity | discriminate] |];
  split; [first [discriminate | intros _; auto]
         | intros [? | ?]; first [reflexivity | discriminate]].

(** X16. What the dashboard shows for the state of the pipeline hook.
    While a run is in flight neither the error banner nor the empty
    state is shown and results of an earlier run stay up.  After a run
    the results are shown exactly when the response was ok with
    [success] true, never together with the error banner.  A response
    that is not ok, or ok but unsuccessful, always shows the banner.
    The empty state comes back only when what was thrown is an [Error]
    whose message is empty. *)
Theorem dashboard_shows_results_or_error
    (got : fetched RfpPipelineResult.t) (s : useRfpPipeline.state) :
  let running := useRfpPipeline.started s in
  let s' := useRfpPipeline.runPipeline got s in
  (Dashboard.errorBannerShown running = false /\
   Dashboard.emptyStateShown running = false /\
   Dashboard.resultsShown running = Dashboard.resultsShown s) /\
  (Dashboard.resultsShown s' = true <->
   exists result, got = Ok (inr result) /\ RfpPipelineResult.success result = true) /\
  (Dashboard.resultsShown s' = true -> Dashboard.errorBannerShown s' = false) /\
  (forall status detail, got = NotOk status detail -> Dashboard.errorBannerShown s' = true) /\
  (forall result,
     got = Ok (inr result) -> RfpPipelineResult.success result = false ->
     Dashboard.errorBannerShown s' = true) /\
  (Dashboard.emptyStateShown s' = true <->
   got = Rejected (ThrownError "") \/ got = Ok (inl (ThrownError ""))).
Proof.
  intros running s'. subst running s'. split.
  { unfold Dashboard.errorBannerShown, Dashboard.emptyStateShown, Dashboard.resultsShown.
    simpl. repeat split. now destruct (useRfpPipeline.data s). }
  assert (Hmsg : forall status detail, truthy (error_message status detail) = true).
  { intros status detail. apply truthy_string_nonempty, error_message_nonempty. }
  unfold useRfpPipeline.runPipeline, Dashboard.resultsShown, Dashboard.errorBannerShown,
    Dashboard.emptyStateShown.
  destruct got as [[[| c m] | |] | status detail | [[[| c m] | |] | result]]; cbn.
  - shown_after_error.
  - shown_after_error.
  - shown_after_error.
  - shown_after_error.
  - rewrite Hmsg. shown_after_error.
  - shown_after_error.
  - shown_after_error.
  - shown_after_error.
  - shown_after_error.
  - destruct (RfpPipelineResult.success result) eqn:Hs; cbn.
    + split; [split; [intros _; eauto | reflexivity] |].
      split; [reflexivity |]. split; [intros st dt H; discriminate |].
      split; [intros r [= <-]; congruence |].
      split; [discriminate | intros [H | H]; discriminate].
    + assert (Ht : truthy (or_default (RfpPipelineResult.message result)
                             "Pipeline execution failed") = true).
      { unfold or_default. destruct (RfpPipelineResult.message result) as [| | a];
          try reflexivity. destruct (truthy a) eqn:Ha; [exact Ha | reflexivity]. }
      rewrite Ht.
      split; [split; [discriminate | intros (r & [= <-] & Hr); congruence] |].
      split; [discriminate |]. split; [intros st dt H; discriminate |].
      split; [reflexivity |].
      split; [discriminate | intros [H | H]; discriminate].
Qed.

Lemma dashboard_shows_results_or_error_witness :
  Dashboard.errorBannerShown
    (useRfpPipeline.runPipeline (NotOk 503 (Some (val ""))) useRfpPipeline.initial) = true /\
  useRfpPipeline.error
    (useRfpPipeline.runPipeline (NotOk 503 (Some (val ""))) useRfpPipeline.initial)
    = Some "HTTP error! status: 503".
Proof.
  split; [| reflexivity].
  exact (proj1 (proj2 (proj2 (proj2
           (dashboard_shows_results_or_error (NotOk 503 (Some (val "")))
              useRfpPipeline.initial))))
           503 (Some (val "")) eq_refl).
Defined.

(** ** The price chart *)

Section ChartFacts.

Import PriceBreakdownChart.

Lemma or0_not_nan (x : float) : PrimFloat.is_nan (or0 x) = false.
Proof.
  unfold or0. destruct (truthy x) eqn:E; [| reflexivity].
  unfold truthy, truthy_number in E. apply andb_prop in E as [_ E].
  now apply negb_true_iff in E.
Qed.

Lemma other_not_negative (totals : Totals.t) : PrimFloat.ltb (other totals) 0%float = false.
Proof.
  unfold other. destruct (PrimFloat.ltb (otherRaw totals) 0%float) eqn:E;
    [reflexivity | exact E].
Qed.

End ChartFacts.

(** X17. The price chart never works with a NaN material or tests
    amount (an amount that is 0 or NaN counts as 0), its "Other" amount
    is never below 0, an "Other" amount that is given and not below 0 is
    used as it is, and it draws exactly those of the three slices
    Material, Tests/Services and Other whose amount is above 0, in that
    order. *)
Theorem chart_draws_only_positive_slices (totals : PriceBreakdownChart.Totals.t) :
  PrimFloat.is_nan (PriceBreakdownChart.material totals) = false /\
  PrimFloat.is_nan (PriceBreakdownChart.tests totals) = false /\
  PrimFloat.ltb (PriceBreakdownChart.other totals) 0%float = false /\
  (forall o,
     PriceBreakdownChart.Totals.other_total totals = Some o ->
     PrimFloat.ltb o 0%float = false ->
     PriceBreakdownChart.other totals = o) /\
  (forall d,
     In d (PriceBreakdownChart.data totals) <->
     In d [("Material", PriceBreakdownChart.material totals);
           ("Tests/Services", PriceBreakdownChart.tests totals);
           ("Other", PriceBreakdownChart.other totals)] /\
     PrimFloat.ltb 0%float (snd d) = true) /\
  (exists keep,
     map fst (PriceBreakdownChart.data totals)
       = map fst (List.filter snd
                    [("Material", fst keep); ("Tests/Services", fst (snd keep));
                     ("Other", snd (snd keep))])).
Proof.
  split; [apply or0_not_nan |]. split; [apply or0_not_nan |].
  split; [apply other_not_negative |]. split; [| split].
  - intros o Ho Hpos. unfold PriceBreakdownChart.other, PriceBreakdownChart.otherRaw.
    now rewrite Ho, Hpos.
  - intros d. unfold PriceBreakdownChart.data. apply filter_In.
  - exists (PrimFloat.ltb 0%float (PriceBreakdownChart.material totals),
            (PrimFloat.ltb 0%float (PriceBreakdownChart.tests totals),
             PrimFloat.ltb 0%float (PriceBreakdownChart.other totals))).
    unfold PriceBreakdownChart.data. simpl.
    destruct (PrimFloat.ltb 0%float (PriceBreakdownChart.material totals)),
      (PrimFloat.ltb 0%float (PriceBreakdownChart.tests totals)),
      (PrimFloat.ltb 0%float (PriceBreakdownChart.other totals)); reflexivity.
Qed.

Lemma chart_draws_only_positive_slices_witness :
  PriceBreakdownChart.other
    (PriceBreakdownChart.Totals.mk 1000 0 (Some 1298%float) (Some 40%float)) = 40%float /\
  PriceBreakdownChart.data
    (PriceBreakdownChart.ofPricingTotals (PricingTotals.mk 1000 0 1298))
    = [("Material", 1000%float); ("Other", 298%float)].
Proof.
  split; [| reflexivity].
  exact (proj1 (proj2 (proj2 (proj2
           (chart_draws_only_positive_slices
              (PriceBreakdownChart.Totals.mk 1000 0 (Some 1298%float) (Some 40%float))))))
           40%float eq_refl eq_refl).
Defined.

(** ** The reason input and the save click *)

(** X19. Typing in the reason input of a row keeps the row's approved
    SKU and its manual unit price exactly as they are (a price of 0
    included), stores the text, or [null] when the text is empty, and
    leaves the input rendered.  A row without an override, or whose
    override has no [override_reason] field, renders no reason input
    and the page stays as it is. *)
Theorem reason_edit_keeps_sku_and_price
    (rec : TechnicalRecommendation.t) (s : ReviewPage.state) (text : string) :
  (forall o,
     ReviewPage.rowOverride s rec = Some o ->
     LineOverride.override_reason o <> undefined ->
     exists o',
       ReviewPage.rowOverride (Console.edit (Console.TypeReason rec text) s) rec = Some o' /\
       LineOverride.line_id o' = LineOverride.line_id o /\
       LineOverride.approved_sku o' = LineOverride.approved_sku o /\
       LineOverride.manual_unit_price o' = LineOverride.manual_unit_price o /\
       LineOverride.override_reason o'
         = (if String.eqb text "" then null else val text) /\
       ReviewLineItemRow.reasonInputShown (Some o') = true) /\
  (ReviewLineItemRow.reasonInputShown (ReviewPage.rowOverride s rec) = false ->
   Console.edit (Console.TypeReason rec text) s = s).
Proof.
  split.
  - intros o Ho Hreason. simpl. rewrite Ho.
    assert (Hshown : ReviewLineItemRow.reasonInputShown (Some o) = true).
    { unfold ReviewLineItemRow.reasonInputShown, chain.
      destruct (LineOverride.override_reason o); [congruence | reflexivity | reflexivity]. }
    rewrite Hshown, rowOverride_after_change.
    eexists. split; [reflexivity |]. repeat split; now destruct text.
  - intros Hhidden. simpl.
    destruct (ReviewPage.rowOverride s rec) as [o |]; [| reflexivity].
    now rewrite Hhidden.
Qed.

Lemma reason_edit_keeps_sku_and_price_witness :
  let s :=
    Console.edit (Console.TypeManualPrice Sample.cable (Some 0%float)) Sample.page in
  exists o',
    ReviewPage.rowOverride (Console.edit (Console.TypeReason Sample.cable "free sample") s)
      Sample.cable = Some o' /\
    LineOverride.manual_unit_price o' = val 0%float /\
    LineOverride.override_reason o' = val "free sample".
Proof.
  intros s.
  destruct (proj1 (reason_edit_keeps_sku_and_price Sample.cable s "free sample")
              (LineOverride.mk "L1" (val "SKU-A") (val 0%float) null) eq_refl)
    as (o' & Hrow & _ & _ & Hprice & Hreason & _); [discriminate |].
  exists o'. split; [exact Hrow |]. split; [exact Hprice | exact Hreason].
Defined.


Lemma load_outcome_decides_the_screen_witness :
  ReviewPageView.render
    (ReviewPage.loadDraft (Some "R1") (Rejected ThrownNullish) ReviewPage.initial)
    = ReviewPageView.Spinner /\
  ReviewPageView.render
    (ReviewPage.loadDraft (Some "R1") (NotOk 404 None) ReviewPage.initial)
    = ReviewPageView.ErrorScreen "Failed to fetch draft: 404" /\
  ReviewPageView.render
    (ReviewPage.loadDraft (Some "R1") (Ok (inr (DraftResponse.mk None None)))
       ReviewPage.initial)
    = ReviewPageView.ErrorScreen "Pipeline data not available".
Proof.
  split; [| split; reflexivity].
  apply (proj1 (load_outcome_decides_the_screen (Some "R1") (Rejected ThrownNullish))).
  split; [reflexivity | now left].
Defined.
